(** * Weather dashboard: forecast aggregation and time localisation

    A shallow embedding of the computational core of the three dashboard
    scripts [src/App.py], [src/new.py] and [src/update.py]: the hourly slice,
    the five-day summary, the UTC-offset display and the air-quality lookup.

    Conventions of the embedding.
    - Python [int] is [Z]; [//] and [%] with a positive divisor are [Z.div]
      and [Z.modulo] (both floor).  [int(a / b)] goes through a double and
      truncates toward zero; for the offsets at hand (well below 2^53) the
      double is exact enough and the result is [Z.quot a b].
    - Temperatures are JSON numbers.  Every finite double is a rational and
      the scripts only compare temperatures, so they are modelled in [Q].
    - A Python exception is [None] in the [option] monad.
    - A Python [dict] is an insertion-ordered association list with unique
      keys, because [list(daily_data.items())[:5]] depends on that order. *)

From Stdlib Require Import ZArith QArith Qminmax List String Ascii Bool Lia.
From Stdlib Require Import DecimalString.
Import ListNotations.

Local Open Scope string_scope.
Local Open Scope Z_scope.
Local Open Scope list_scope.

(* ===================================================================== *)
(** ** Python built-ins used by the scripts *)
(* ===================================================================== *)

Module Py.

(** Exceptions: a computation that raises yields [None]. *)
Definition bind {A B : Type} (m : option A) (k : A -> option B) : option B :=
  match m with
  | Some a => k a
  | None => None
  end.

Notation "x <- m ;; k" := (bind m (fun x => k))
  (at level 61, m at next level, right associativity).

(** [for x in l: acc = f(acc, x)], aborting at the first exception. *)
Fixpoint foldM {A B : Type} (f : A -> B -> option A) (l : list B) (a : A)
  : option A :=
  match l with
  | [] => Some a
  | b :: t => a' <- f a b ;; foldM f t a'
  end.

(** [for x in l: out.append(f(x))], aborting at the first exception. *)
Fixpoint mapM {A B : Type} (f : A -> option B) (l : list A) : option (list B) :=
  match l with
  | [] => Some []
  | a :: t => b <- f a ;; r <- mapM f t ;; Some (b :: r)
  end.

(** [l[:n]]: a negative stop counts from the end of the list. *)
Definition slice_to {A : Type} (l : list A) (n : Z) : list A :=
  if 0 <=? n then firstn (Z.to_nat n) l
  else firstn (Z.to_nat (Z.of_nat (List.length l) + n)) l.

(** [s.lstrip(c)] for a one-character set. *)
Fixpoint lstrip (c : ascii) (s : string) : string :=
  match s with
  | EmptyString => EmptyString
  | String a r => if Ascii.eqb a c then lstrip c r else s
  end.

(** ASCII case tests and conversions. *)
Definition is_lower (c : ascii) : bool :=
  let n := N_of_ascii c in (97 <=? n)%N && (n <=? 122)%N.
Definition is_upper (c : ascii) : bool :=
  let n := N_of_ascii c in (65 <=? n)%N && (n <=? 90)%N.
Definition to_upper (c : ascii) : ascii :=
  if is_lower c then ascii_of_N (N_of_ascii c - 32) else c.
Definition to_lower (c : ascii) : ascii :=
  if is_upper c then ascii_of_N (N_of_ascii c + 32) else c.

(** [s.title()] on ASCII text: a letter that follows a letter is
    lower-cased, any other letter is upper-cased. *)
Fixpoint title_from (previous_is_cased : bool) (s : string) : string :=
  match s with
  | EmptyString => EmptyString
  | String a r =>
      String (if previous_is_cased then to_lower a else to_upper a)
             (title_from (is_lower a || is_upper a) r)
  end.
Definition title (s : string) : string := title_from false s.

(** [str(n)] for an integer. *)
Definition str (n : Z) : string := NilZero.string_of_int (Z.to_int n).

(** [f"{n:02d}"]: zero padding up to width two. *)
Definition format_02d (n : Z) : string :=
  let s := str n in
  if (String.length s <? 2)%nat then String "0" s else s.

(** [np.max] and [np.min] of a list; both raise on an empty one. *)
Definition np_max (l : list Q) : option Q :=
  match l with
  | [] => None
  | x :: r => Some (fold_left Qmax r x)
  end.
Definition np_min (l : list Q) : option Q :=
  match l with
  | [] => None
  | x :: r => Some (fold_left Qmin r x)
  end.

(** Dictionaries: association lists in insertion order. *)
Section Dict.
Context {K V : Type}.
Variable eqb : K -> K -> bool.

Definition dict : Type := list (K * V).

(** [d.get(k)], and [d[k]] when read through [bind]. *)
Fixpoint dict_get (d : dict) (k : K) : option V :=
  match d with
  | [] => None
  | (k', v) :: r => if eqb k' k then Some v else dict_get r k
  end.

(** [k in d] *)
Definition dict_contains (d : dict) (k : K) : bool :=
  match dict_get d k with Some _ => true | None => false end.

(** [d[k] = v]: an existing key keeps its position, a new one goes last. *)
Fixpoint dict_set (d : dict) (k : K) (v : V) : dict :=
  match d with
  | [] => [(k, v)]
  | (k', v') :: r =>
      if eqb k' k then (k', v) :: r else (k', v') :: dict_set r k v
  end.

(** [d.get(k, default)] *)
Definition dict_get_default (d : dict) (k : K) (default : V) : V :=
  match dict_get d k with Some v => v | None => default end.
End Dict.

End Py.

Import Py.

(* ===================================================================== *)
(** ** [datetime]: the fields and [strftime] directives the scripts use *)
(* ===================================================================== *)

Module Datetime.

(** [weekday] is Monday = 0 .. Sunday = 6, as [datetime.weekday()]. *)
Record datetime : Type := mk_datetime
  { weekday : Z; hour : Z; minute : Z }.

(** Seconds since the epoch of 0001-01-01T00:00:00 and of
    9999-12-31T23:59:59, the limits of [datetime]. *)
Definition min_timestamp : Z := -62135596800.
Definition max_timestamp : Z := 253402300799.

Definition representable (ts : Z) : bool :=
  (min_timestamp <=? ts) && (ts <=? max_timestamp).

(** Calendar fields of an instant given in seconds.  1970-01-01 was a
    Thursday (weekday 3). *)
Definition of_seconds (ts : Z) : datetime :=
  {| weekday := (ts / 86400 + 3) mod 7;
     hour := (ts mod 86400) / 3600;
     minute := (ts mod 3600) / 60 |}.

(** [datetime.fromtimestamp(ts, timezone.utc)]; raises outside years
    1..9999. *)
Definition fromtimestamp_utc (ts : Z) : option datetime :=
  if representable ts then Some (of_seconds ts) else None.

Section HostZone.
(** UTC offset, in seconds, of the time zone of the machine that runs the
    script, at a given instant. *)
Variable tzlocal : Z -> Z.

(** Seconds shown by the wall clock of the host at the instant [u]. *)
Definition local (u : Z) : Z := u + tzlocal u.

(** The longest repeated stretch of wall-clock time that is looked for. *)
Definition max_fold_seconds : Z := 86400.

(** [datetime.fromtimestamp(ts)]: naive wall-clock time of the host.  To
    tell a repeated hour, the conversion also reads the wall clock
    [max_fold_seconds] before [ts] and, when the clock has been set back in
    between, at a third instant; each reading raises outside years 1..9999.
    The [fold] bit it computes is not among the fields the scripts read. *)
Definition fromtimestamp (ts : Z) : option datetime :=
  let result_seconds := local ts in
  if representable result_seconds then
    let probe_seconds := local (ts - max_fold_seconds) in
    if representable probe_seconds then
      let transition := result_seconds - probe_seconds - max_fold_seconds in
      if transition <? 0 then
        let probe_seconds := local (ts + transition) in
        if representable probe_seconds
        then Some (of_seconds result_seconds) else None
      else Some (of_seconds result_seconds)
    else None
  else None.

(** The instants that the naive conversion accepts, written as ranges: the
    wall clock at [ts] and one day before [ts] is within years 1..9999, and
    so it is at [ts + back] when the clock was set back by [- back] seconds
    during that day. *)
Definition host_range (ts : Z) : bool :=
  let back := tzlocal ts - tzlocal (ts - 86400) in
  representable (ts + tzlocal ts)
  && representable (ts - 86400 + tzlocal (ts - 86400))
  && ((0 <=? back) || representable (ts + back + tzlocal (ts + back))).
End HostZone.

Definition day_abbr : list string :=
  ["Mon"; "Tue"; "Wed"; "Thu"; "Fri"; "Sat"; "Sun"]%string.

(** One [strftime] directive (C locale). *)
Definition directive (d : datetime) (c : ascii) : string :=
  if Ascii.eqb c "a" then nth (Z.to_nat (weekday d)) day_abbr ""%string
  else if Ascii.eqb c "I" then
    format_02d (if hour d mod 12 =? 0 then 12 else hour d mod 12)
  else if Ascii.eqb c "p" then
    (if hour d <? 12 then "AM"%string else "PM"%string)
  else if Ascii.eqb c "M" then format_02d (minute d)
  else if Ascii.eqb c "H" then format_02d (hour d)
  else if Ascii.eqb c "%" then "%"%string
  else String "%" (String c EmptyString).

(** [d.strftime(fmt)] *)
Fixpoint strftime (d : datetime) (fmt : string) : string :=
  match fmt with
  | EmptyString => EmptyString
  | String c r =>
      if Ascii.eqb c "%" then
        match r with
        | EmptyString => String c EmptyString
        | String c' r' => (directive d c' ++ strftime d r')%string
        end
      else String c (strftime d r)
  end.

End Datetime.

Import Datetime.

(* ===================================================================== *)
(** ** Data model *)
(* ===================================================================== *)

(** One entry of [forecast['list']]: [item["dt"]], [item["main"]["temp"]],
    [item["weather"][0]["description"]] and [item["weather"][0]["icon"]]. *)
Record ForecastSample : Type := mk_sample
  { dt : Z;
    main_temp : Q;
    weather_description : string;
    weather_icon : string }.

(** One position of the parallel lists [hours], [temps], [conditions] and
    [icons] built for the hourly chart. *)
Record HourlyPoint : Type := mk_hourly
  { hour_label : string;
    hourly_temp : Q;
    condition : string;
    hourly_icon : string }.

(** One position of the parallel lists [days], [temps_max], [temps_min] and
    [icons] built for the five-day chart. *)
Record DailySummary : Type := mk_daily
  { day : string;
    temp_max : Q;
    temp_min : Q;
    day_icon : string }.

(** A value read from the air-quality payload: an [int], or [None]. *)
Definition opt_Z_eqb (a b : option Z) : bool :=
  match a, b with
  | Some x, Some y => x =? y
  | None, None => true
  | _, _ => false
  end.

(* ===================================================================== *)
(** ** [src/App.py] *)
(* ===================================================================== *)

Module App.

Definition aqi_map : list (option Z * string) :=
  [(Some 1, "Good"); (Some 2, "Fair"); (Some 3, "Moderate");
   (Some 4, "Poor"); (Some 5, "Very Poor")]%string.
Definition aqi_color_map : list (option Z * string) :=
  [(Some 1, "#00e400"); (Some 2, "#ffff00"); (Some 3, "#ff7e00");
   (Some 4, "#ff0000"); (Some 5, "#99004c")]%string.

Definition get_aqi_category (aqi_value : option Z) : string * string :=
  let category := dict_get_default opt_Z_eqb aqi_map aqi_value "Unknown" in
  let color := dict_get_default opt_Z_eqb aqi_color_map aqi_value "white" in
  (category, color).

Definition format_local_time (timestamp offset : Z) : option string :=
  let local_ts := timestamp + offset in
  d <- fromtimestamp_utc local_ts ;;
  Some (strftime d "%I:%M %p").

(** Step 5: the loop over [forecast['list'][:8]]. *)
Definition hourly_item (tz_offset_seconds : Z) (item : ForecastSample)
  : option HourlyPoint :=
  let local_time_ts := dt item + tz_offset_seconds in
  d <- fromtimestamp_utc local_time_ts ;;
  let hour_label := lstrip "0" (strftime d "%I %p") in
  Some {| hour_label := hour_label;
          hourly_temp := main_temp item;
          condition := title (weather_description item);
          hourly_icon := weather_icon item |}.

Definition hourly_forecast (forecast_list : list ForecastSample)
    (tz_offset_seconds : Z) : option (list HourlyPoint) :=
  mapM (hourly_item tz_offset_seconds) (slice_to forecast_list 8).

(** The value stored under each key of [daily_data]. *)
Record DayData : Type := mk_day_data
  { temps : list Q; icon : string }.

Section Host.
Variable tzlocal : Z -> Z.

(** Step 6: one iteration of the loop over [forecast['list']]. *)
Definition daily_step (daily_data : list (string * DayData))
    (item : ForecastSample) : option (list (string * DayData)) :=
  d <- fromtimestamp tzlocal (dt item) ;;
  let day_name := strftime d "%a" in
  let temp := main_temp item in
  let icon_ := weather_icon item in
  let daily_data :=
    if dict_contains String.eqb daily_data day_name then daily_data
    else dict_set String.eqb daily_data day_name
           {| temps := []; icon := icon_ |} in
  data <- dict_get String.eqb daily_data day_name ;;
  Some (dict_set String.eqb daily_data day_name
          {| temps := temps data ++ [temp]; icon := icon data |}).

Definition daily_data (forecast_list : list ForecastSample)
  : option (list (string * DayData)) :=
  foldM daily_step forecast_list [].

(** One iteration of [for day, data in list(daily_data.items())[:5]]. *)
Definition daily_row (entry : string * DayData) : option DailySummary :=
  let (day_, data) := entry in
  mx <- np_max (temps data) ;;
  mn <- np_min (temps data) ;;
  Some {| day := day_; temp_max := mx; temp_min := mn;
          day_icon := icon data |}.

Definition daily_forecast (forecast_list : list ForecastSample)
  : option (list DailySummary) :=
  dd <- daily_data forecast_list ;;
  mapM daily_row (slice_to dd 5).
End Host.

(** Step 7: [int(tz_offset_seconds / 3600)] truncates toward zero, [%] is
    the floor remainder. *)
Definition offset_display (tz_offset_seconds : Z) : string :=
  let offset_hours := Z.quot tz_offset_seconds 3600 in
  let offset_minutes := Z.quot (tz_offset_seconds mod 3600) 60 in
  let sign := if 0 <=? tz_offset_seconds then "+"%string else "-"%string in
  ("UTC" ++ sign ++ format_02d (Z.abs offset_hours) ++ ":"
     ++ format_02d (Z.abs offset_minutes))%string.

End App.

(* ===================================================================== *)
(** ** [src/new.py] *)
(* ===================================================================== *)

Module New.

Definition aqi_map : list (option Z * string) :=
  [(Some 1, "Good"); (Some 2, "Fair"); (Some 3, "Moderate");
   (Some 4, "Poor"); (Some 5, "Very Poor")]%string.
Definition aqi_color_map : list (option Z * string) :=
  [(Some 1, "#00aa00"); (Some 2, "#aaaa00"); (Some 3, "#cc5500");
   (Some 4, "#cc0000"); (Some 5, "#77004c")]%string.

Definition get_aqi_category (aqi_value : option Z) : string * string :=
  let category := dict_get_default opt_Z_eqb aqi_map aqi_value "Unknown" in
  let color :=
    dict_get_default opt_Z_eqb aqi_color_map aqi_value "#333333" in
  (category, color).

Definition hourly_item (tz_offset_seconds : Z) (item : ForecastSample)
  : option HourlyPoint :=
  let local_time_ts := dt item + tz_offset_seconds in
  d <- fromtimestamp_utc local_time_ts ;;
  let hour_label := lstrip "0" (strftime d "%I %p") in
  Some {| hour_label := hour_label;
          hourly_temp := main_temp item;
          condition := title (weather_description item);
          hourly_icon := weather_icon item |}.

Definition hourly_forecast (forecast_list : list ForecastSample)
    (tz_offset_seconds : Z) : option (list HourlyPoint) :=
  mapM (hourly_item tz_offset_seconds) (slice_to forecast_list 8).

Record DayData : Type := mk_day_data
  { temps : list Q; icon : string }.

Section Host.
Variable tzlocal : Z -> Z.

Definition daily_step (daily_data : list (string * DayData))
    (item : ForecastSample) : option (list (string * DayData)) :=
  d <- fromtimestamp tzlocal (dt item) ;;
  let day_name := strftime d "%a" in
  let temp := main_temp item in
  let icon_ := weather_icon item in
  let daily_data :=
    if dict_contains String.eqb daily_data day_name then daily_data
    else dict_set String.eqb daily_data day_name
           {| temps := []; icon := icon_ |} in
  data <- dict_get String.eqb daily_data day_name ;;
  Some (dict_set String.eqb daily_data day_name
          {| temps := temps data ++ [temp]; icon := icon data |}).

Definition daily_data (forecast_list : list ForecastSample)
  : option (list (string * DayData)) :=
  foldM daily_step forecast_list [].

Definition daily_row (entry : string * DayData) : option DailySummary :=
  let (day_, data) := entry in
  mx <- np_max (temps data) ;;
  mn <- np_min (temps data) ;;
  Some {| day := day_; temp_max := mx; temp_min := mn;
          day_icon := icon data |}.

Definition daily_forecast (forecast_list : list ForecastSample)
  : option (list DailySummary) :=
  dd <- daily_data forecast_list ;;
  mapM daily_row (slice_to dd 5).
End Host.

End New.

(* ===================================================================== *)
(** ** [src/update.py] *)
(* ===================================================================== *)

Module Update.

Definition aqi_map : list (option Z * string) :=
  [(Some 1, "Good"); (Some 2, "Fair"); (Some 3, "Moderate");
   (Some 4, "Poor"); (Some 5, "Very Poor")]%string.
Definition aqi_color_map : list (option Z * string) :=
  [(Some 1, "#00aa00"); (Some 2, "#aaaa00"); (Some 3, "#cc5500");
   (Some 4, "#cc0000"); (Some 5, "#77004c")]%string.

Definition get_aqi_category (aqi_value : option Z) : string * string :=
  let category := dict_get_default opt_Z_eqb aqi_map aqi_value "Unknown" in
  let color :=
    dict_get_default opt_Z_eqb aqi_color_map aqi_value "#333333" in
  (category, color).

Definition format_local_time (timestamp offset : Z) : option string :=
  let local_ts := timestamp + offset in
  d <- fromtimestamp_utc local_ts ;;
  Some (strftime d "%I:%M %p").

(** Step 5: the slider value [hours_to_show] gives
    [num_chunks = hours_to_show // 3]; the loop runs over
    [forecast['list'][:num_chunks]]. *)
Definition hourly_item (tz_offset_seconds : Z) (item : ForecastSample)
  : option HourlyPoint :=
  let local_time_ts := dt item + tz_offset_seconds in
  d <- fromtimestamp_utc local_time_ts ;;
  let hour_label := lstrip "0" (strftime d "%a %I %p") in
  Some {| hour_label := hour_label;
          hourly_temp := main_temp item;
          condition := title (weather_description item);
          hourly_icon := weather_icon item |}.

Definition hourly_forecast (forecast_list : list ForecastSample)
    (tz_offset_seconds hours_to_show : Z) : option (list HourlyPoint) :=
  let num_chunks := hours_to_show / 3 in
  mapM (hourly_item tz_offset_seconds) (slice_to forecast_list num_chunks).

Record DayData : Type := mk_day_data
  { temps : list Q; icon : string; noon_diff : Z }.

Section Host.
Variable tzlocal : Z -> Z.

(** Step 6: one iteration of the loop over [forecast['list']].  The two
    calls of [datetime.fromtimestamp(item["dt"])] are the two binds. *)
Definition daily_step (daily_data : list (string * DayData))
    (item : ForecastSample) : option (list (string * DayData)) :=
  d <- fromtimestamp tzlocal (dt item) ;;
  let day_name := strftime d "%a" in
  let temp := main_temp item in
  d' <- fromtimestamp tzlocal (dt item) ;;
  let hour_ := hour d' in
  let icon_ := weather_icon item in
  let daily_data :=
    if dict_contains String.eqb daily_data day_name then daily_data
    else dict_set String.eqb daily_data day_name
           {| temps := []; icon := icon_; noon_diff := 24 |} in
  data <- dict_get String.eqb daily_data day_name ;;
  let data := {| temps := temps data ++ [temp]; icon := icon data;
                 noon_diff := noon_diff data |} in
  let current_noon_diff := Z.abs (12 - hour_) in
  if current_noon_diff <? noon_diff data then
    Some (dict_set String.eqb daily_data day_name
            {| temps := temps data; icon := icon_;
               noon_diff := current_noon_diff |})
  else Some (dict_set String.eqb daily_data day_name data).

Definition daily_data (forecast_list : list ForecastSample)
  : option (list (string * DayData)) :=
  foldM daily_step forecast_list [].

Definition daily_row (entry : string * DayData) : option DailySummary :=
  let (day_, data) := entry in
  mx <- np_max (temps data) ;;
  mn <- np_min (temps data) ;;
  Some {| day := day_; temp_max := mx; temp_min := mn;
          day_icon := icon data |}.

Definition daily_forecast (forecast_list : list ForecastSample)
  : option (list DailySummary) :=
  dd <- daily_data forecast_list ;;
  mapM daily_row (slice_to dd 5).
End Host.

Definition offset_display (tz_offset_seconds : Z) : string :=
  let offset_hours := Z.quot tz_offset_seconds 3600 in
  let offset_minutes := Z.quot (tz_offset_seconds mod 3600) 60 in
  let sign := if 0 <=? tz_offset_seconds then "+"%string else "-"%string in
  ("UTC" ++ sign ++ format_02d (Z.abs offset_hours) ++ ":"
     ++ format_02d (Z.abs offset_minutes))%string.

End Update.

(* ===================================================================== *)
(** ** Vocabulary of the statements *)
(* ===================================================================== *)

Module Spec.

(** The timestamps [datetime] can represent after a shift of [off]. *)
Definition in_range (off : Z) (s : ForecastSample) : Prop :=
  representable (dt s + off) = true.

(** The values that the slider of [src/update.py] can deliver as
    [hours_to_show]: from 3 to 48 in steps of 3. *)
Definition slider_window (w : Z) : Prop :=
  3 <= w <= 48 /\ w mod 3 = 0.

(** The chart point of a sample whose label is [fmt] applied to the
    instant [dt + off], with nothing stripped. *)
Definition point (fmt : string) (off : Z) (s : ForecastSample) : HourlyPoint :=
  {| hour_label := strftime (of_seconds (dt s + off)) fmt;
     hourly_temp := main_temp s;
     condition := title (weather_description s);
     hourly_icon := weather_icon s |}.

(** The same sample [k] seconds later. *)
Definition delay (k : Z) (s : ForecastSample) : ForecastSample :=
  {| dt := dt s + k;
     main_temp := main_temp s;
     weather_description := weather_description s;
     weather_icon := weather_icon s |}.

(** A list of keys in order of first appearance. *)
Definition first_seen (keys : list string) : list string :=
  rev (nodup string_dec (rev keys)).

(** [xs] is an initial segment of [ys]. *)
Definition prefix_of {A : Type} (xs ys : list A) : Prop :=
  exists rest, ys = xs ++ rest.

(** Drop the first [n] characters of a string. *)
Fixpoint drop (n : nat) (s : string) : string :=
  match n, s with
  | O, _ => s
  | S n', String _ r => drop n' r
  | S _, EmptyString => EmptyString
  end.

Section Host.
Variable tzlocal : Z -> Z.

(** The timestamp of the sample is one that [datetime.fromtimestamp]
    accepts on the host. *)
Definition in_local_range (s : ForecastSample) : Prop :=
  host_range tzlocal (dt s) = true.

(** Wall-clock fields of a sample on the host, from the timestamp alone. *)
Definition local_datetime (s : ForecastSample) : datetime :=
  of_seconds (dt s + tzlocal (dt s)).

Definition day_key (s : ForecastSample) : string :=
  strftime (local_datetime s) "%a".

Definition noon_distance (s : ForecastSample) : Z :=
  Z.abs (12 - hour (local_datetime s)).

(** The samples of one day bucket, in input order. *)
Definition day_group (k : string) (l : list ForecastSample)
  : list ForecastSample :=
  filter (fun s => String.eqb (day_key s) k) l.

(** [s0] is the first sample of [g] at minimal distance from noon:
    everything before it is strictly farther, nothing after is nearer. *)
Definition first_closest_to_noon (g : list ForecastSample)
    (s0 : ForecastSample) : Prop :=
  exists pre post,
    g = pre ++ s0 :: post /\
    Forall (fun s => noon_distance s0 < noon_distance s) pre /\
    Forall (fun s => noon_distance s0 <= noon_distance s) post.

(** What [daily_data] of [src/update.py] holds under the key [k] once the
    samples [p] have been processed. *)
Definition entry_ok (p : list ForecastSample) (k : string)
    (e : Update.DayData) : Prop :=
  Update.temps e = map main_temp (day_group k p) /\
  exists s0,
    first_closest_to_noon (day_group k p) s0 /\
    Update.icon e = weather_icon s0 /\
    Update.noon_diff e = noon_distance s0.

(** The bucket that receives [item] in an iteration of Step 6 of
    [src/update.py], before and after that iteration. *)
Definition bucket_before (acc : list (string * Update.DayData))
    (item : ForecastSample) : Update.DayData :=
  match dict_get String.eqb acc (day_key item) with
  | Some data => data
  | None => {| Update.temps := []; Update.icon := weather_icon item;
               Update.noon_diff := 24 |}
  end.

Definition bucket_after (data : Update.DayData) (item : ForecastSample)
  : Update.DayData :=
  if noon_distance item <? Update.noon_diff data then
    {| Update.temps := Update.temps data ++ [main_temp item];
       Update.icon := weather_icon item;
       Update.noon_diff := noon_distance item |}
  else
    {| Update.temps := Update.temps data ++ [main_temp item];
       Update.icon := Update.icon data;
       Update.noon_diff := Update.noon_diff data |}.

(** Loop invariant of Step 6 of [src/update.py]. *)
Definition daily_inv (p : list ForecastSample)
    (acc : list (string * Update.DayData)) : Prop :=
  map fst acc = first_seen (map day_key p) /\
  forall k e, dict_get String.eqb acc k = Some e -> entry_ok p k e.
End Host.

(** Two runs agree: both raise, or both return related results. *)
Definition opt_rel {A B : Type} (R : A -> B -> Prop)
    (x : option A) (y : option B) : Prop :=
  match x, y with
  | Some a, Some b => R a b
  | None, None => True
  | _, _ => False
  end.

(** Two dictionaries hold the same keys in the same order, with related
    values. *)
Definition dict_rel {V1 V2 : Type} (R : V1 -> V2 -> Prop)
    (a : list (string * V1)) (b : list (string * V2)) : Prop :=
  Forall2 (fun x y => fst x = fst y /\ R (snd x) (snd y)) a b.

(** A bucket of [src/App.py] against one of [src/update.py] and one of
    [src/new.py]. *)
Definition same_temps (a : App.DayData) (u : Update.DayData) : Prop :=
  App.temps a = Update.temps u.
Definition same_bucket (a : App.DayData) (n : New.DayData) : Prop :=
  App.temps a = New.temps n /\ App.icon a = New.icon n.

(** A summary row without its icon, and a chart point without its label. *)
Definition without_icon (r : DailySummary) : string * Q * Q :=
  (day r, temp_max r, temp_min r).
Definition without_label (pt : HourlyPoint) : Q * string * string :=
  (hourly_temp pt, condition pt, hourly_icon pt).

End Spec.

(* ===================================================================== *)
(** ** Concrete inputs *)
(* ===================================================================== *)

Module Scenario.

Definition sample_at (ts : Z) (t : Q) (ic : string) : ForecastSample :=
  {| dt := ts; main_temp := t; weather_description := "light rain";
     weather_icon := ic |}.

(** A host whose clock is set to UTC. *)
Definition utc_host : Z -> Z := fun _ => 0.

(** 1970-01-01 (a Thursday) at 14:00, 09:00 and 15:00 UTC. *)
Definition two_pm : ForecastSample := sample_at 50400 (21 # 1) "01d".
Definition nine_am : ForecastSample := sample_at 32400 (18 # 1) "02d".
Definition three_pm : ForecastSample := sample_at 54000 (24 # 1) "10d".

(** Eight samples three hours apart from midnight, with the temperatures
    20, 19, 18, 17, 18, 21, 24, 23. *)
Definition one_day : list ForecastSample :=
  [sample_at 0 (20 # 1) "01n"; sample_at 10800 (19 # 1) "01n";
   sample_at 21600 (18 # 1) "02d"; sample_at 32400 (17 # 1) "02d";
   sample_at 43200 (18 # 1) "03d"; sample_at 54000 (21 # 1) "10d";
   sample_at 64800 (24 # 1) "04d"; sample_at 75600 (23 # 1) "04n"].

(** One sample at midnight UTC of each of [n] consecutive days. *)
Fixpoint daily_midnights (n : nat) (ts : Z) : list ForecastSample :=
  match n with
  | O => []
  | S n' => sample_at ts (10 # 1) "01n" :: daily_midnights n' (ts + 86400)
  end.

(** 23:00 UTC on the Thursday: already Friday one hour to the east. *)
Definition late_evening : ForecastSample := sample_at 82800 (19 # 1) "01n".

(** The summary row of [one_day], up to its icon. *)
Definition thursday_row (ic : string) : DailySummary :=
  {| day := "Thu"; temp_max := 24 # 1; temp_min := 17 # 1; day_icon := ic |}.

(** The summary rows of [daily_midnights 10 0]. *)
Definition five_rows : list DailySummary :=
  map (fun d => {| day := d; temp_max := 10 # 1; temp_min := 10 # 1;
                   day_icon := "01n" |})
      ["Thu"; "Fri"; "Sat"; "Sun"; "Mon"].

(** A timestamp in year 33658, beyond what [datetime] can hold. *)
Definition far_future : ForecastSample := sample_at 1000000000000 (0 # 1) "01d".

(** Midnight UTC of 0001-01-01, the first instant [datetime] can hold. *)
Definition year_one : ForecastSample :=
  sample_at (-62135596800) (0 # 1) "01n".

End Scenario.

(* ===================================================================== *)
(** ** Vocabulary of the further statements *)
(* ===================================================================== *)

From Stdlib Require Import Permutation.

Module Props.

(** The sample's timestamp is outside what [datetime] can represent after
    a shift of [off], resp. is one that [datetime.fromtimestamp] rejects on
    the host. *)
Definition out_of_range (off : Z) (s : ForecastSample) : Prop :=
  representable (dt s + off) = false.
Definition out_of_local_range (tzlocal : Z -> Z) (s : ForecastSample) : Prop :=
  host_range tzlocal (dt s) = false.

(** Seven days, in seconds. *)
Definition week : Z := 604800.

(** The label of the scripts without weekday for the hour [h] of the day:
    the hour on the 12-hour clock, unpadded, and the half of the day. *)
Definition clock_label (h : Z) : string :=
  String.append (str (if h mod 12 =? 0 then 12 else h mod 12))
    (String " " (if h <? 12 then "AM"%string else "PM"%string)).

(** [x] is the largest, resp. the smallest, element of [l]. *)
Definition is_max_of (x : Q) (l : list Q) : Prop :=
  In x l /\ Forall (fun t => (t <= x)%Q) l.
Definition is_min_of (x : Q) (l : list Q) : Prop :=
  In x l /\ Forall (fun t => (x <= t)%Q) l.

(** All temperatures held by [daily_data] of [src/update.py], bucket after
    bucket. *)
Definition all_temps (dd : list (string * Update.DayData)) : list Q :=
  List.concat (map (fun entry => Update.temps (snd entry)) dd).

(** The samples follow one another at three-hour steps from [t0] on, as
    the forecast endpoint delivers them. *)
Fixpoint three_hourly (t0 : Z) (l : list ForecastSample) : Prop :=
  match l with
  | [] => True
  | s :: r => dt s = t0 /\ three_hourly (t0 + 10800) r
  end.

(** The label of [src/update.py] for a weekday and an hour of the day, and
    the 168 labels of a week, hour after hour from Monday 00:00. *)
Definition week_label (c : Z) : string :=
  strftime {| weekday := c / 24; hour := c mod 24; minute := 0 |} "%a %I %p".
Definition week_labels : list string :=
  map week_label (map Z.of_nat (seq 0 168)).

(** The labels of [src/App.py] for the 24 hours of a day. *)
Definition day_labels : list string :=
  map clock_label (map Z.of_nat (seq 0 24)).

(** No string occurs twice in the list. *)
Fixpoint distinctb (l : list string) : bool :=
  match l with
  | [] => true
  | x :: r => negb (existsb (String.eqb x) r) && distinctb r
  end.

Section Host.
Variable tzlocal : Z -> Z.

(** What [daily_data] of [src/App.py] holds under the key [k] once the
    samples [p] have been processed. *)
Definition app_entry_ok (p : list ForecastSample) (k : string)
    (e : App.DayData) : Prop :=
  App.temps e = map main_temp (Spec.day_group tzlocal k p) /\
  exists s0 rest,
    Spec.day_group tzlocal k p = s0 :: rest /\
    App.icon e = weather_icon s0.

(** Loop invariant of Step 6 of [src/App.py]. *)
Definition app_daily_inv (p : list ForecastSample)
    (acc : list (string * App.DayData)) : Prop :=
  map fst acc = Spec.first_seen (map (Spec.day_key tzlocal) p) /\
  forall k e, dict_get String.eqb acc k = Some e -> app_entry_ok p k e.
End Host.

End Props.

(* ===================================================================== *)
(** ** Further concrete inputs *)
(* ===================================================================== *)

Module Cases.

(** The bucket that [src/update.py] builds from [Scenario.one_day]. *)
Definition thursday_bucket : list (string * Update.DayData) :=
  [("Thu", {| Update.temps := [20 # 1; 19 # 1; 18 # 1; 17 # 1;
                               18 # 1; 21 # 1; 24 # 1; 23 # 1];
              Update.icon := "03d"; Update.noon_diff := 0 |})].

(** The sample of 14:00 on the Thursday, and the same hour a week later. *)
Definition two_weeks : list ForecastSample :=
  [Scenario.two_pm; Spec.delay (Props.week * 1) Scenario.two_pm].

(** Three samples of the Thursday, out of order, and their bucket. *)
Definition three_samples : list ForecastSample :=
  [Scenario.two_pm; Scenario.late_evening; Scenario.nine_am].
Definition three_bucket : list (string * Update.DayData) :=
  [("Thu", {| Update.temps := [21 # 1; 19 # 1; 18 # 1];
              Update.icon := "01d"; Update.noon_diff := 2 |})].

(** [n] samples three hours apart from [t0] on. *)
Fixpoint slots (n : nat) (t0 : Z) : list ForecastSample :=
  match n with
  | O => []
  | S n' => Scenario.sample_at t0 (15 # 1) "04d" :: slots n' (t0 + 10800)
  end.

End Cases.


(* ===================================================================== *)
(** ** Whitespace in the descriptions: [str.split] *)
(* ===================================================================== *)

Module Text.

(** The descriptions are the English texts of the forecast service, in
    ASCII.  [c.isspace()] on ASCII: tab to carriage return, the four
    separators 28..31, and the blank. *)
Definition isspace (c : ascii) : bool :=
  let n := N_of_ascii c in
  ((9 <=? n)%N && (n <=? 13)%N) || ((28 <=? n)%N && (n <=? 32)%N).

(** The characters up to the next whitespace. *)
Fixpoint take_word (s : string) : string :=
  match s with
  | EmptyString => EmptyString
  | String c r => if isspace c then EmptyString else String c (take_word r)
  end.

(** [s.split()[0]]: the first run of characters that are not whitespace;
    [IndexError] when there is none. *)
Fixpoint first_word (s : string) : option string :=
  match s with
  | EmptyString => None
  | String c r => if isspace c then first_word r else Some (take_word s)
  end.

(** Every character of [s] is whitespace. *)
Fixpoint blank (s : string) : bool :=
  match s with
  | EmptyString => true
  | String c r => isspace c && blank r
  end.

End Text.

(* ===================================================================== *)
(** ** The annotations of the hourly chart (all three scripts) *)
(* ===================================================================== *)

Module Chart.

(** The texts [conditions[i].split()[0]] of the loop over
    [enumerate(icons)]. *)
Definition annotation_texts (conditions : list string) : option (list string) :=
  mapM Text.first_word conditions.

End Chart.


(* ===================================================================== *)
(** ** Parsed payloads *)
(* ===================================================================== *)

Module Json.

Local Unset Elimination Schemes.

(** A value returned by [response.json()]; Python's [None] is [JNull]. *)
Inductive json : Type :=
| JNull : json
| JBool : bool -> json
| JNum : Q -> json
| JStr : string -> json
| JList : list json -> json
| JDict : list (string * json) -> json.

Local Set Elimination Schemes.

(** The exceptions that the payload accesses and the HTTP layer raise. *)
Inductive exn : Type :=
| RequestException | IndexError | KeyError | TypeError | AttributeError.

(** A computation that returns a value or raises. *)
Definition res (A : Type) : Type := (exn + A)%type.

Definition rbind {A B : Type} (m : res A) (k : A -> res B) : res B :=
  match m with
  | inl e => inl e
  | inr a => k a
  end.

Notation "x <~ m ;; k" := (rbind m (fun x => k))
  (at level 61, m at next level, right associativity).

(** [bool(v)] *)
Definition truthy (v : json) : bool :=
  match v with
  | JNull => false
  | JBool b => b
  | JNum q => negb (Qeq_bool q 0)
  | JStr s => negb (String.eqb s "")
  | JList l => match l with [] => false | _ => true end
  | JDict d => match d with [] => false | _ => true end
  end.

(** [v is None] *)
Definition is_none (v : json) : bool :=
  match v with JNull => true | _ => false end.

(** [v[0]] *)
Definition item0 (v : json) : res json :=
  match v with
  | JList l => match l with [] => inl IndexError | x :: _ => inr x end
  | JDict _ => inl KeyError
  | JStr s => match s with
              | EmptyString => inl IndexError
              | String c _ => inr (JStr (String c EmptyString))
              end
  | _ => inl TypeError
  end.

(** [v[k]] for a text key *)
Definition item (v : json) (k : string) : res json :=
  match v with
  | JDict d => match dict_get String.eqb d k with
               | Some x => inr x
               | None => inl KeyError
               end
  | _ => inl TypeError
  end.

(** [v.get(k, default)]; [v.get(k)] is [get v k JNull]. *)
Definition get (v : json) (k : string) (default : json) : res json :=
  match v with
  | JDict d => inr (dict_get_default String.eqb d k default)
  | _ => inl AttributeError
  end.

(** [v != 200] *)
Definition differs_from_200 (v : json) : bool :=
  match v with
  | JNum q => negb (Qeq_bool q (200 # 1))
  | _ => true
  end.

(** The tuple [None, None, None, None]. *)
Definition none4 : json * json * json * json := (JNull, JNull, JNull, JNull).

End Json.

Import Json.

(* ===================================================================== *)
(** ** Text typed by the user: [str.strip] *)
(* ===================================================================== *)

Module Unicode.

(** A [str], as the list of its code points. *)
Definition text : Type := list N.

(** [c.isspace()]: U+0009..U+000D, U+001C..U+0020, U+0085, U+00A0, U+1680,
    U+2000..U+200A, U+2028, U+2029, U+202F, U+205F and U+3000. *)
Definition isspace (c : N) : bool :=
  (((9 <=? c) && (c <=? 13)) || ((28 <=? c) && (c <=? 32))
   || (c =? 133) || (c =? 160) || (c =? 5760)
   || ((8192 <=? c) && (c <=? 8202))
   || (c =? 8232) || (c =? 8233) || (c =? 8239) || (c =? 8287)
   || (c =? 12288))%N.

(** [s.strip()]: without its leading and trailing whitespace. *)
Fixpoint lstrip (s : text) : text :=
  match s with
  | [] => []
  | c :: r => if isspace c then lstrip r else s
  end.
Fixpoint rstrip (s : text) : text :=
  match s with
  | [] => []
  | c :: r =>
      match rstrip r with
      | [] => if isspace c then [] else [c]
      | r' => c :: r'
      end
  end.
Definition strip (s : text) : text := rstrip (lstrip s).

(** [bool(s)] *)
Definition truthy (s : text) : bool :=
  match s with [] => false | _ :: _ => true end.

(** Every code point of [s] is whitespace. *)
Definition blank (s : text) : bool := forallb isspace s.

(** The code points of an ASCII text. *)
Fixpoint of_string (s : string) : text :=
  match s with
  | EmptyString => []
  | String c r => N_of_ascii c :: of_string r
  end.

End Unicode.

(* ===================================================================== *)
(** ** Session state of [src/update.py] *)
(* ===================================================================== *)

Module Session.

Section Payload.
(** What [get_weather_data] returns when it does not return [None]: a
    dictionary with its four keys, hence truthy. *)
Variable all_data : Type.

(** [st.session_state]; an attribute that has not been assigned yet is
    [None] in [country], [lat] and [lon]. *)
Record state : Type := mk_state
  { theme : string;
    city_name : json;
    weather_data : option all_data;
    city_search_done : bool;
    country : option json;
    lat : option json;
    lon : option json }.

(** The defaults written when the keys are missing. *)
Definition initial : state :=
  {| theme := "light"; city_name := JStr "Anantapur"; weather_data := None;
     city_search_done := false; country := None; lat := None; lon := None |}.

Definition toggle_theme (st : state) : state :=
  {| theme := if String.eqb (theme st) "light" then "dark" else "light";
     city_name := city_name st; weather_data := weather_data st;
     city_search_done := city_search_done st; country := country st;
     lat := lat st; lon := lon st |}.

(** The two failure branches: the dashboard is withdrawn. *)
Definition withdrawn (st : state) : state :=
  {| theme := theme st; city_name := city_name st; weather_data := None;
     city_search_done := false; country := country st;
     lat := lat st; lon := lon st |}.

(** [fetch_and_store_data(city_input)], given what the two cached fetch
    functions do at that moment: each returns or raises, and nothing here
    catches what they raise. *)
Definition fetch_and_store_data
    (get_coordinates : Unicode.text -> res (json * json * json * json))
    (get_weather_data : json -> json -> res (option all_data))
    (city_input : Unicode.text) (st : state) : res state :=
  if negb (Unicode.truthy (Unicode.strip city_input)) then inr st
  else
    found <~ get_coordinates city_input ;;
    let '(lat_, lon_, city_name_found, country_) := found in
    if is_none lat_ then inr (withdrawn st)
    else
      all_data_ <~ get_weather_data lat_ lon_ ;;
      match all_data_ with
      | None => inr (withdrawn st)
      | Some data =>
          inr {| theme := theme st;
                 city_name := city_name_found;
                 weather_data := Some data;
                 city_search_done := true;
                 country := Some country_;
                 lat := Some lat_;
                 lon := Some lon_ |}
      end.

(** The condition under which the dashboard is drawn, and whether drawing
    it finds the attributes it reads. *)
Definition dashboard_shown (st : state) : bool :=
  city_search_done st &&
  match weather_data st with Some _ => true | None => false end.

Definition attributes_set (st : state) : bool :=
  match country st, lat st, lon st with
  | Some _, Some _, Some _ => true
  | _, _, _ => false
  end.

(** What the user does: the theme button, or the fetch button with the
    text typed and what the two fetch functions do at that moment. *)
Inductive event : Type :=
| Toggle : event
| Fetch : (Unicode.text -> res (json * json * json * json)) ->
          (json -> json -> res (option all_data)) ->
          Unicode.text -> event.

(** One run of the script.  An exception that escapes
    [fetch_and_store_data] ends the run; the session keeps what had been
    assigned until then, which is nothing, the assignments coming after the
    two calls. *)
Definition step (st : state) (e : event) : state :=
  match e with
  | Toggle => toggle_theme st
  | Fetch get_coordinates get_weather_data city_input =>
      match fetch_and_store_data get_coordinates get_weather_data
              city_input st with
      | inr st' => st'
      | inl _ => st
      end
  end.

Definition run (events : list event) : state := fold_left step events initial.
End Payload.

Arguments theme {all_data} _.
Arguments city_name {all_data} _.
Arguments weather_data {all_data} _.
Arguments city_search_done {all_data} _.
Arguments country {all_data} _.
Arguments lat {all_data} _.
Arguments lon {all_data} _.
Arguments initial {all_data}.
Arguments toggle_theme {all_data} _.
Arguments withdrawn {all_data} _.
Arguments fetch_and_store_data {all_data} _ _ _ _.
Arguments dashboard_shown {all_data} _.
Arguments attributes_set {all_data} _.
Arguments Toggle {all_data}.
Arguments Fetch {all_data} _ _ _.
Arguments step {all_data} _ _.
Arguments run {all_data} _.

End Session.

(** What every step of the session keeps: one of the two themes, a
    dashboard that is marked done exactly when data is stored, and then
    with the attributes it reads. *)
Definition session_ok {all_data : Type} (st : Session.state all_data) : Prop :=
  (Session.theme st = "light" \/ Session.theme st = "dark") /\
  (Session.city_search_done st = true ->
   Session.weather_data st <> None /\ Session.attributes_set st = true) /\
  (Session.weather_data st <> None -> Session.city_search_done st = true).

(* ===================================================================== *)
(** ** The two fetch functions *)
(* ===================================================================== *)


Module Fetch.

(** [get_coordinates] of [src/update.py] and [src/new.py], as a function of
    what [requests.get(url).json()] does. *)
Definition get_coordinates (fetched : res json)
  : res (json * json * json * json) :=
  let body : res (option (json * json * json * json)) :=
    response <~ fetched ;;
    if truthy response then
      first <~ item0 response ;;
      probe <~ get first "lat" JNull ;;
      if negb (is_none probe) then
        e1 <~ item0 response ;; lat_ <~ item e1 "lat" ;;
        e2 <~ item0 response ;; lon_ <~ item e2 "lon" ;;
        e3 <~ item0 response ;; name_ <~ item e3 "name" ;;
        e4 <~ item0 response ;; country_ <~ get e4 "country" (JStr "") ;;
        inr (Some (lat_, lon_, name_, country_))
      else inr None
    else inr None in
  match body with
  | inr (Some t) => inr t
  | inr None => inr none4
  | inl RequestException | inl IndexError | inl KeyError => inr none4
  | inl e => inl e
  end.

(** [get_coordinates] of [src/App.py]. *)
Definition get_coordinates_app (fetched : res json)
  : res (json * json * json * json) :=
  let body : res (option (json * json * json * json)) :=
    response <~ fetched ;;
    if truthy response then
      e1 <~ item0 response ;; lat_ <~ item e1 "lat" ;;
      e2 <~ item0 response ;; lon_ <~ item e2 "lon" ;;
      e3 <~ item0 response ;; name_ <~ item e3 "name" ;;
      e4 <~ item0 response ;; country_ <~ get e4 "country" (JStr "") ;;
      inr (Some (lat_, lon_, name_, country_))
    else inr None in
  match body with
  | inr (Some t) => inr t
  | inr None => inr none4
  | inl RequestException | inl IndexError => inr none4
  | inl e => inl e
  end.

(** One [try: data[key] = requests.get(...).json()
    except RequestException: data[key] = None]. *)
Definition fetch_or_none (fetched : res json) : res json :=
  match fetched with
  | inr v => inr v
  | inl RequestException => inr JNull
  | inl e => inl e
  end.

(** [get_weather_data], the same in the three scripts, as a function of
    what the three requests do.  The result is the dictionary [data], or
    [None]. *)
Definition get_weather_data (current_fetch forecast_fetch aqi_fetch : res json)
  : res (option (list (string * json))) :=
  let data : list (string * json) := [] in
  data <~
    match current_fetch with
    | inr c =>
        let data := dict_set String.eqb data "current" c in
        tz <~ get c "timezone" (JNum 0) ;;
        inr (dict_set String.eqb data "timezone_offset" tz)
    | inl RequestException => inr (dict_set String.eqb data "current" JNull)
    | inl e => inl e
    end ;;
  forecast <~ fetch_or_none forecast_fetch ;;
  let data := dict_set String.eqb data "forecast" forecast in
  aqi <~ fetch_or_none aqi_fetch ;;
  let data := dict_set String.eqb data "aqi" aqi in
  current <~ item (JDict data) "current" ;;
  if is_none current then inr None
  else
    forecast <~ item (JDict data) "forecast" ;;
    if is_none forecast then inr None
    else
      cod <~ get current "cod" JNull ;;
      if differs_from_200 cod then inr None else inr (Some data).

End Fetch.


(* ===================================================================== *)
(** ** The air-quality card *)
(* ===================================================================== *)

Module Panel.

(** Whether a parsed value can be a dictionary key: lists and objects are
    unhashable. *)
Definition hashable (v : json) : bool :=
  match v with
  | JList _ | JDict _ => false
  | _ => true
  end.

(** Whether the key [k] of a table keyed by integers (or [None]) is the
    key found for the parsed value [v]: a number finds the integer it
    equals, a boolean the integer it equals as 0 or 1, [None] the key
    [None], and a text no key. *)
Definition key_matches (k : option Z) (v : json) : bool :=
  match k, v with
  | Some z, JNum q => Qeq_bool q (inject_Z z)
  | Some z, JBool b => z =? (if b then 1 else 0)
  | None, JNull => true
  | _, _ => false
  end.

(** [table.get(v, default)]; [TypeError] for an unhashable [v]. *)
Definition table_get (table : list (option Z * string)) (v : json)
    (default : string) : res string :=
  if hashable v then
    inr (match find (fun entry => key_matches (fst entry) v) table with
         | Some entry => snd entry
         | None => default
         end)
  else inl TypeError.

(** [get_aqi_category(aqi_value)] on a parsed value, for the two tables
    and the default colour of a script. *)
Definition get_aqi_category (aqi_map aqi_color_map : list (option Z * string))
    (default_color : string) (aqi_value : json) : res (string * string) :=
  category <~ table_get aqi_map aqi_value "Unknown" ;;
  color <~ table_get aqi_color_map aqi_value default_color ;;
  inr (category, color).

Definition categorize_update : json -> res (string * string) :=
  get_aqi_category Update.aqi_map Update.aqi_color_map "#333333".
Definition categorize_new : json -> res (string * string) :=
  get_aqi_category New.aqi_map New.aqi_color_map "#333333".
Definition categorize_app : json -> res (string * string) :=
  get_aqi_category App.aqi_map App.aqi_color_map "white".

(** The parsed value of an integer index, or of a missing one. *)
Definition json_of_index (k : option Z) : json :=
  match k with
  | Some z => JNum (inject_Z z)
  | None => JNull
  end.

(** The air-quality card, the same in the three scripts up to the tables of
    [get_aqi_category]: [Some (v, (category, color))] is the card drawn
    for [aqi_value = v], [None] the notice "AQI data unavailable.". *)
Definition aqi_card (categorize : json -> res (string * string))
    (aqi_data : json) : res (option (json * (string * string))) :=
  if truthy aqi_data then
    probe <~ get aqi_data "list" JNull ;;
    if truthy probe then
      entries <~ item aqi_data "list" ;;
      first <~ item0 entries ;;
      main <~ item first "main" ;;
      aqi_value <~ item main "aqi" ;;
      shown <~ categorize aqi_value ;;
      inr (Some (aqi_value, shown))
    else inr None
  else inr None.

(** [aqi_data = all_data.get('aqi')], then the card. *)
Definition aqi_panel (categorize : json -> res (string * string))
    (all_data : list (string * json))
  : res (option (json * (string * string))) :=
  aqi_card categorize (dict_get_default String.eqb all_data "aqi" JNull).

End Panel.

(* ===================================================================== *)
(** ** Concrete payloads *)
(* ===================================================================== *)

Module Payloads.

(** An entry of the geocoding answer. *)
Definition anantapur : list (string * json) :=
  [("name", JStr "Anantapur"); ("lat", JNum (1468 # 100));
   ("lon", JNum (7760 # 100)); ("country", JStr "IN")].

(** The object sent back for a wrong API key. *)
Definition invalid_key : list (string * json) :=
  [("cod", JNum (401 # 1)); ("message", JStr "Invalid API key")].

(** A current-weather answer and a forecast answer. *)
Definition current_ok : list (string * json) :=
  [("cod", JNum (200 # 1)); ("timezone", JNum (19800 # 1))].
Definition forecast_ok : json := JDict [("list", JList [])].

(** An air-quality answer with index 2. *)
Definition aqi_ok : json :=
  JDict [("coord", JDict []);
         ("list", JList [JDict [("main", JDict [("aqi", JNum (2 # 1))])]])].

(** An air-quality answer whose index is a list. *)
Definition aqi_list_index : json :=
  JDict [("list", JList [JDict [("main",
                                  JDict [("aqi", JList [JNum (1 # 1)])])]])].

(** A text of one no-break space and one ideographic space. *)
Definition wide_blank : Unicode.text := [160%N; 12288%N].

(** What [get_coordinates] returns for [anantapur]. *)
Definition anantapur_found : json * json * json * json :=
  (JNum (1468 # 100), JNum (7760 # 100), JStr "Anantapur", JStr "IN").

End Payloads.

(* ===================================================================== *)
(** ** Facts about the built-ins *)
(* ===================================================================== *)

Section MonadFacts.
Context {A B : Type}.

Lemma mapM_pure (f : A -> option B) (g : A -> B) (l : list A) :
  Forall (fun a => f a = Some (g a)) l -> mapM f l = Some (map g l).
Proof.
  induction 1 as [|a l Ha _ IH]; simpl; [reflexivity|].
  now rewrite Ha, IH.
Qed.

Lemma mapM_Forall2 (f : A -> option B) (l : list A) (r : list B) :
  mapM f l = Some r -> Forall2 (fun a b => f a = Some b) l r.
Proof.
  revert r; induction l as [|a l IH]; simpl; intros r H.
  - inversion H; constructor.
  - destruct (f a) eqn:Ha; simpl in H; [|discriminate].
    destruct (mapM f l) as [r'|]; simpl in H; [|discriminate].
    inversion H; subst; constructor; auto.
Qed.

Lemma mapM_ext (f g : A -> option B) (l : list A) :
  (forall a, f a = g a) -> mapM f l = mapM g l.
Proof.
  intros E; induction l as [|a l IH]; simpl; [reflexivity|].
  now rewrite E, IH.
Qed.
End MonadFacts.

Lemma mapM_map {A B C : Type} (f : B -> option C) (g : A -> B) (l : list A) :
  mapM f (map g l) = mapM (fun a => f (g a)) l.
Proof.
  induction l as [|a l IH]; simpl; [reflexivity|]. now rewrite IH.
Qed.

Lemma Forall_firstn {A : Type} (P : A -> Prop) (n : nat) (l : list A) :
  Forall P l -> Forall P (firstn n l).
Proof.
  intros H; revert n; induction H; intros [|n]; simpl; constructor; auto.
Qed.

Lemma Forall_slice_to {A : Type} (P : A -> Prop) (l : list A) (n : Z) :
  Forall P l -> Forall P (slice_to l n).
Proof.
  intros H; unfold slice_to; destruct (0 <=? n); now apply Forall_firstn.
Qed.

Lemma slice_to_nonneg {A : Type} (l : list A) (n : Z) :
  0 <= n -> slice_to l n = firstn (Z.to_nat n) l.
Proof.
  intros H; unfold slice_to.
  destruct (Z.leb_spec 0 n); [reflexivity | lia].
Qed.

Lemma slice_to_nil {A : Type} (n : Z) : slice_to (@nil A) n = [].
Proof.
  unfold slice_to; destruct (0 <=? n); apply firstn_nil.
Qed.

(* ===================================================================== *)
(** ** Facts about [datetime] *)
(* ===================================================================== *)

Lemma weekday_bounds (ts : Z) : 0 <= weekday (of_seconds ts) < 7.
Proof. simpl; apply Z.mod_pos_bound; lia. Qed.

Lemma hour_bounds (ts : Z) : 0 <= hour (of_seconds ts) < 24.
Proof.
  simpl.
  pose proof (Z.mod_pos_bound ts 86400 ltac:(lia)) as H.
  split; [apply Z.div_pos; lia | apply Z.div_lt_upper_bound; lia].
Qed.

(** The weekday abbreviation is one of the seven names. *)
Lemma directive_a_cases (ts : Z) :
  In (directive (of_seconds ts) "a") day_abbr.
Proof.
  pose proof (weekday_bounds ts) as H.
  cbn [directive Ascii.eqb Bool.eqb].
  remember (weekday (of_seconds ts)) as w eqn:E; clear E.
  assert (C : w = 0 \/ w = 1 \/ w = 2 \/ w = 3 \/ w = 4 \/ w = 5 \/ w = 6)
    by lia.
  destruct C as [->|[->|[->|[->|[->|[->| ->]]]]]]; simpl; tauto.
Qed.

Lemma append_empty_r (s : string) : (s ++ "")%string = s.
Proof. induction s as [|c s IH]; simpl; [reflexivity | now rewrite IH]. Qed.

Lemma strftime_a (d : datetime) : strftime d "%a" = directive d "a".
Proof. cbn [strftime Ascii.eqb Bool.eqb]. apply append_empty_r. Qed.

Lemma strftime_a_cases (ts : Z) : In (strftime (of_seconds ts) "%a") day_abbr.
Proof. rewrite strftime_a; apply directive_a_cases. Qed.

(** The format of [src/update.py] is the weekday, a blank and the format of
    the other two scripts. *)
Lemma strftime_a_I_p (d : datetime) :
  strftime d "%a %I %p"
  = (strftime d "%a" ++ String " " (strftime d "%I %p"))%string.
Proof. rewrite strftime_a. reflexivity. Qed.

(** A label that starts with a weekday has no leading zero to strip. *)
Lemma lstrip_day_abbr (x rest : string) :
  In x day_abbr -> lstrip "0" (x ++ rest) = (x ++ rest)%string.
Proof.
  intros H; simpl in H.
  repeat (destruct H as [<-|H]; [reflexivity|]); contradiction.
Qed.

Lemma drop_day_abbr (x rest : string) :
  In x day_abbr -> Spec.drop 4 (x ++ String " " rest) = rest.
Proof.
  intros H; simpl in H.
  repeat (destruct H as [<-|H]; [reflexivity|]); contradiction.
Qed.

Lemma update_label_keeps_zero (ts : Z) :
  lstrip "0" (strftime (of_seconds ts) "%a %I %p")
  = strftime (of_seconds ts) "%a %I %p".
Proof.
  rewrite strftime_a_I_p. apply lstrip_day_abbr, strftime_a_cases.
Qed.

(* ===================================================================== *)
(** ** The hourly slice *)
(* ===================================================================== *)

Lemma update_hourly_item (off : Z) (s : ForecastSample) :
  Update.hourly_item off s
  = if representable (dt s + off)
    then Some (Spec.point "%a %I %p" off s) else None.
Proof.
  unfold Update.hourly_item, fromtimestamp_utc, Spec.point.
  destruct (representable (dt s + off)); cbn [bind]; [|reflexivity].
  now rewrite update_label_keeps_zero.
Qed.

Lemma update_hourly_result (samples : list ForecastSample) (off w : Z)
    (pts : list HourlyPoint) :
  Update.hourly_forecast samples off w = Some pts ->
  pts = map (Spec.point "%a %I %p" off) (slice_to samples (w / 3)).
Proof.
  unfold Update.hourly_forecast. intros H. apply mapM_Forall2 in H.
  induction H as [|s p l r Hs _ IH]; simpl; [reflexivity|].
  rewrite update_hourly_item in Hs.
  destruct (representable (dt s + off)); [|discriminate].
  inversion Hs; subst. now f_equal.
Qed.

Lemma update_hourly_in_range (samples : list ForecastSample) (off w : Z) :
  Forall (Spec.in_range off) (slice_to samples (w / 3)) ->
  Update.hourly_forecast samples off w
  = Some (map (Spec.point "%a %I %p" off) (slice_to samples (w / 3))).
Proof.
  intros H; unfold Update.hourly_forecast.
  apply mapM_pure.
  eapply Forall_impl; [|exact H].
  intros s Hs; rewrite update_hourly_item.
  unfold Spec.in_range in Hs; now rewrite Hs.
Qed.

(** The naive conversion accepts exactly the instants of [host_range], and
    then gives the wall-clock fields of the host. *)
Lemma fromtimestamp_host_range (tzlocal : Z -> Z) (ts : Z) :
  fromtimestamp tzlocal ts
  = if host_range tzlocal ts
    then Some (of_seconds (ts + tzlocal ts)) else None.
Proof.
  unfold fromtimestamp, host_range, local, max_fold_seconds. cbv zeta.
  replace (ts + tzlocal ts - (ts - 86400 + tzlocal (ts - 86400)) - 86400)
    with (tzlocal ts - tzlocal (ts - 86400)) by lia.
  destruct (representable (ts + tzlocal ts)); [|reflexivity].
  destruct (representable (ts - 86400 + tzlocal (ts - 86400)));
    [|reflexivity].
  cbn [andb].
  destruct (Z.ltb_spec (tzlocal ts - tzlocal (ts - 86400)) 0) as [L|L].
  - replace (0 <=? tzlocal ts - tzlocal (ts - 86400)) with false
      by (symmetry; apply Z.leb_gt; exact L).
    cbn [orb].
    now destruct (representable _).
  - replace (0 <=? tzlocal ts - tzlocal (ts - 86400)) with true
      by (symmetry; apply Z.leb_le; exact L).
    reflexivity.
Qed.

(** On a host at a fixed offset from UTC the accepted instants are those
    whose wall-clock time is at least one day into year 1 and within year
    9999. *)
Lemma host_range_fixed (off ts : Z) :
  host_range (fun _ => off) ts = true <->
  min_timestamp + 86400 <= ts + off <= max_timestamp.
Proof.
  unfold host_range, representable, min_timestamp, max_timestamp. cbv zeta.
  replace (off - off) with 0 by lia. cbn [Z.leb Z.compare orb].
  rewrite !andb_true_r, !andb_true_iff, !Z.leb_le. lia.
Qed.
(* ===================================================================== *)
(** ** Facts about dictionaries *)
(* ===================================================================== *)

Section DictFacts.
Context {K V : Type}.
Variable eqb : K -> K -> bool.
Hypothesis eqb_spec : forall a b, reflect (a = b) (eqb a b).

Lemma dict_get_set_eq (d : list (K * V)) (k : K) (v : V) :
  dict_get eqb (dict_set eqb d k v) k = Some v.
Proof.
  induction d as [|[k' v'] d IH]; simpl.
  - destruct (eqb_spec k k); congruence.
  - destruct (eqb_spec k' k) as [E|N]; simpl.
    + destruct (eqb_spec k' k); congruence.
    + destruct (eqb_spec k' k); congruence.
Qed.

Lemma dict_get_set_ne (d : list (K * V)) (k k' : K) (v : V) :
  k <> k' -> dict_get eqb (dict_set eqb d k v) k' = dict_get eqb d k'.
Proof.
  intros N; induction d as [|[k0 v0] d IH]; simpl.
  - destruct (eqb_spec k k'); congruence.
  - destruct (eqb_spec k0 k) as [E|N0]; simpl.
    + subst k0. destruct (eqb_spec k k'); congruence.
    + destruct (eqb_spec k0 k'); congruence.
Qed.

Lemma dict_contains_keys (d : list (K * V)) (k : K) :
  dict_contains eqb d k = true <-> In k (map fst d).
Proof.
  unfold dict_contains; induction d as [|[k' v'] d IH]; simpl.
  - split; [discriminate | contradiction].
  - destruct (eqb_spec k' k) as [E|N].
    + split; auto.
    + rewrite IH; split; [auto | intros [E|H]; [contradiction | exact H]].
Qed.

Lemma dict_contains_set (d : list (K * V)) (k : K) (v : V) :
  dict_contains eqb (dict_set eqb d k v) k = true.
Proof. unfold dict_contains; now rewrite dict_get_set_eq. Qed.

Lemma dict_keys_set (d : list (K * V)) (k : K) (v : V) :
  map fst (dict_set eqb d k v)
  = if dict_contains eqb d k then map fst d else map fst d ++ [k].
Proof.
  unfold dict_contains; induction d as [|[k' v'] d IH]; simpl.
  - reflexivity.
  - destruct (eqb_spec k' k) as [E|N]; simpl; [reflexivity|].
    rewrite IH. now destruct (dict_get eqb d k).
Qed.

Lemma dict_get_of_In (d : list (K * V)) (k : K) (v : V) :
  NoDup (map fst d) -> In (k, v) d -> dict_get eqb d k = Some v.
Proof.
  induction d as [|[k' v'] d IH]; simpl; intros ND H; [contradiction|].
  inversion ND as [|? ? Hk ND']; subst.
  destruct H as [E|H].
  - inversion E; subst. destruct (eqb_spec k k); congruence.
  - destruct (eqb_spec k' k) as [E|N].
    + subst k'. exfalso; apply Hk. now apply (in_map fst _ (k, v)).
    + now apply IH.
Qed.
End DictFacts.

(* ===================================================================== *)
(** ** Facts about first appearance and day buckets *)
(* ===================================================================== *)

Lemma first_seen_In (k : string) (l : list string) :
  In k (Spec.first_seen l) <-> In k l.
Proof.
  unfold Spec.first_seen. now rewrite <- in_rev, nodup_In, <- in_rev.
Qed.

Lemma first_seen_NoDup (l : list string) : NoDup (Spec.first_seen l).
Proof. apply NoDup_rev, NoDup_nodup. Qed.

Lemma first_seen_snoc_old (k : string) (l : list string) :
  In k l -> Spec.first_seen (l ++ [k]) = Spec.first_seen l.
Proof.
  intros H; unfold Spec.first_seen.
  rewrite rev_app_distr; simpl.
  destruct (in_dec string_dec k (rev l)) as [_|N]; [reflexivity|].
  exfalso; apply N. now rewrite <- in_rev.
Qed.

Lemma first_seen_snoc_new (k : string) (l : list string) :
  ~ In k l -> Spec.first_seen (l ++ [k]) = Spec.first_seen l ++ [k].
Proof.
  intros H; unfold Spec.first_seen.
  rewrite rev_app_distr; simpl.
  destruct (in_dec string_dec k (rev l)) as [I|_]; [|reflexivity].
  exfalso; apply H. now rewrite in_rev.
Qed.

Lemma first_seen_app (l m : list string) :
  Spec.prefix_of (Spec.first_seen l) (Spec.first_seen (l ++ m)).
Proof.
  induction m as [|k m IH] using rev_ind.
  - exists []. now rewrite !app_nil_r.
  - destruct IH as [rest IH]. rewrite app_assoc.
    destruct (in_dec string_dec k (l ++ m)) as [I|N].
    + exists rest. now rewrite first_seen_snoc_old.
    + exists (rest ++ [k]).
      rewrite first_seen_snoc_new, IH by assumption. now rewrite app_assoc.
Qed.

Lemma prefix_of_firstn {A : Type} (n : nat) (xs ys : list A) :
  Spec.prefix_of xs ys -> Spec.prefix_of (firstn n xs) (firstn n ys).
Proof.
  intros [rest ->]. rewrite firstn_app.
  now exists (firstn (n - List.length xs) rest).
Qed.

Section BucketFacts.
Variable tzlocal : Z -> Z.

Lemma day_group_snoc (k : string) (p : list ForecastSample)
    (s : ForecastSample) :
  Spec.day_group tzlocal k (p ++ [s])
  = Spec.day_group tzlocal k p
    ++ (if String.eqb (Spec.day_key tzlocal s) k then [s] else []).
Proof. unfold Spec.day_group. now rewrite filter_app. Qed.

Lemma day_group_absent (k : string) (p : list ForecastSample) :
  ~ In k (map (Spec.day_key tzlocal) p) -> Spec.day_group tzlocal k p = [].
Proof.
  induction p as [|s p IH]; simpl; intros H; [reflexivity|].
  destruct (String.eqb_spec (Spec.day_key tzlocal s) k) as [E|N].
  - exfalso; apply H; now left.
  - apply IH. intros I; apply H; now right.
Qed.

Lemma noon_distance_bounds (s : ForecastSample) :
  0 <= Spec.noon_distance tzlocal s <= 12.
Proof.
  unfold Spec.noon_distance, Spec.local_datetime.
  pose proof (hour_bounds (dt s + tzlocal (dt s))). lia.
Qed.
End BucketFacts.
(* ===================================================================== *)
(** ** The five-day summary of [src/update.py] *)
(* ===================================================================== *)

Lemma fold_min_max (r : list Q) (x : Q) :
  (fold_left Qmin r x <= x)%Q /\ (x <= fold_left Qmax r x)%Q.
Proof.
  revert x; induction r as [|a r IH]; intros x; simpl.
  - split; apply Qle_refl.
  - destruct (IH (Qmin x a)) as [H1 _], (IH (Qmax x a)) as [_ H2]. split.
    + eapply Qle_trans; [exact H1 | apply Q.le_min_l].
    + eapply Qle_trans; [apply Q.le_max_l | exact H2].
Qed.

Lemma np_min_le_np_max (l : list Q) (mn mx : Q) :
  np_min l = Some mn -> np_max l = Some mx -> (mn <= mx)%Q.
Proof.
  destruct l as [|x r]; simpl; [discriminate|].
  intros Hn Hx; inversion Hn; inversion Hx; subst.
  destruct (fold_min_max r x). eapply Qle_trans; eassumption.
Qed.

Section UpdateDaily.
Variable tzlocal : Z -> Z.

Local Abbreviation day_key := (Spec.day_key tzlocal).
Local Abbreviation day_group := (Spec.day_group tzlocal).
Local Abbreviation noon_distance := (Spec.noon_distance tzlocal).
Local Abbreviation entry_ok := (Spec.entry_ok tzlocal).
Local Abbreviation daily_inv := (Spec.daily_inv tzlocal).
Local Abbreviation bucket_before := (Spec.bucket_before tzlocal).
Local Abbreviation bucket_after := (Spec.bucket_after tzlocal).

(** One iteration, in closed form. *)
Lemma update_daily_step (acc : list (string * Update.DayData))
    (item : ForecastSample) :
  Update.daily_step tzlocal acc item
  = if host_range tzlocal (dt item)
    then Some (dict_set String.eqb
                 (if dict_contains String.eqb acc (day_key item)
                  then acc
                  else dict_set String.eqb acc (day_key item)
                         (bucket_before acc item))
                 (day_key item)
                 (bucket_after (bucket_before acc item) item))
    else None.
Proof.
  unfold Update.daily_step. rewrite fromtimestamp_host_range.
  destruct (host_range tzlocal (dt item)); [|reflexivity].
  cbn [bind].
  change (of_seconds (dt item + tzlocal (dt item)))
    with (Spec.local_datetime tzlocal item).
  fold (day_key item).
  change (Z.abs (12 - hour (Spec.local_datetime tzlocal item)))
    with (noon_distance item).
  unfold Spec.bucket_before, dict_contains.
  destruct (dict_get String.eqb acc (day_key item)) as [data|] eqn:G.
  - rewrite G; cbn [bind]. unfold Spec.bucket_after; cbn.
    now destruct (noon_distance item <? Update.noon_diff data).
  - rewrite (dict_get_set_eq String.eqb String.eqb_spec); cbn [bind].
    unfold Spec.bucket_after; cbn.
    now destruct (noon_distance item <? 24).
Qed.

(** The bucket of the new sample satisfies the invariant afterwards. *)
Lemma bucket_after_ok (p : list ForecastSample)
    (acc : list (string * Update.DayData)) (item : ForecastSample) :
  daily_inv p acc ->
  entry_ok (p ++ [item]) (day_key item)
    (bucket_after (bucket_before acc item) item).
Proof.
  intros [Hkeys Hent].
  unfold Spec.entry_ok. rewrite day_group_snoc, String.eqb_refl.
  unfold Spec.bucket_before.
  destruct (dict_get String.eqb acc (day_key item)) as [data|] eqn:G.
  - destruct (Hent _ _ G) as [Ht (s0 & (pre & post & Hg & Hpre & Hpost) & Hi & Hn)].
    unfold Spec.bucket_after.
    destruct (Z.ltb_spec (noon_distance item) (Update.noon_diff data)) as [L|L];
      cbn [Update.temps Update.icon Update.noon_diff].
    + split; [now rewrite Ht, map_app|].
      exists item. split; [|auto].
      exists (day_group (day_key item) p), []. split; [reflexivity|].
      split; [|constructor].
      rewrite Hg. apply Forall_app; split; [|constructor].
      * eapply Forall_impl; [|exact Hpre]. cbv beta; intros; lia.
      * lia.
      * eapply Forall_impl; [|exact Hpost]. cbv beta; intros; lia.
    + split; [now rewrite Ht, map_app|].
      exists s0. split; [|auto].
      exists pre, (post ++ [item]). split; [|split].
      * rewrite Hg, <- app_assoc. reflexivity.
      * exact Hpre.
      * apply Forall_app; split; [exact Hpost|]. constructor; [lia|constructor].
  - assert (A : ~ In (day_key item) (map day_key p)).
    { rewrite <- first_seen_In, <- Hkeys.
      rewrite <- (dict_contains_keys String.eqb String.eqb_spec).
      unfold dict_contains; rewrite G; discriminate. }
    rewrite (day_group_absent _ _ _ A).
    pose proof (noon_distance_bounds tzlocal item) as B.
    unfold Spec.bucket_after; cbn [Update.noon_diff Update.temps Update.icon].
    destruct (Z.ltb_spec (noon_distance item) 24) as [L|L]; [|lia].
    cbn [Update.temps Update.icon Update.noon_diff].
    split; [reflexivity|].
    exists item. split; [|auto].
    exists [], []. repeat split; constructor.
Qed.

(** The other buckets are untouched. *)
Lemma entry_ok_other (p : list ForecastSample) (item : ForecastSample)
    (k : string) (e : Update.DayData) :
  day_key item <> k -> entry_ok p k e -> entry_ok (p ++ [item]) k e.
Proof.
  intros N H. unfold Spec.entry_ok in *. rewrite day_group_snoc.
  destruct (String.eqb_spec (day_key item) k) as [E|_]; [contradiction|].
  now rewrite app_nil_r.
Qed.

Lemma update_daily_step_inv (p : list ForecastSample)
    (acc acc' : list (string * Update.DayData)) (item : ForecastSample) :
  daily_inv p acc ->
  Update.daily_step tzlocal acc item = Some acc' ->
  daily_inv (p ++ [item]) acc'.
Proof.
  intros Inv H. pose proof (bucket_after_ok p acc item Inv) as Hnew.
  rewrite update_daily_step in H.
  destruct (host_range tzlocal (dt item)); [|discriminate].
  inversion H; subst acc'; clear H.
  destruct Inv as [Hkeys Hent].
  set (k := day_key item) in *.
  set (new := bucket_after (bucket_before acc item) item) in *.
  split.
  - rewrite map_app; cbn [map]; fold k.
    rewrite (dict_keys_set String.eqb String.eqb_spec).
    destruct (dict_contains String.eqb acc k) eqn:C.
    + rewrite C. rewrite first_seen_snoc_old; [exact Hkeys|].
      rewrite <- first_seen_In, <- Hkeys.
      now apply (dict_contains_keys String.eqb String.eqb_spec).
    + rewrite (dict_contains_set String.eqb String.eqb_spec).
      rewrite (dict_keys_set String.eqb String.eqb_spec), C.
      rewrite first_seen_snoc_new; [now rewrite Hkeys|].
      rewrite <- first_seen_In, <- Hkeys.
      rewrite <- (dict_contains_keys String.eqb String.eqb_spec), C.
      discriminate.
  - intros k' e G.
    destruct (string_dec k k') as [E|N].
    + subst k'. rewrite (dict_get_set_eq String.eqb String.eqb_spec) in G.
      inversion G; subst e. exact Hnew.
    + rewrite (dict_get_set_ne String.eqb String.eqb_spec) in G by exact N.
      apply entry_ok_other; [exact N|]. apply Hent.
      destruct (dict_contains String.eqb acc k); [exact G|].
      now rewrite (dict_get_set_ne String.eqb String.eqb_spec) in G.
Qed.

Lemma daily_inv_nil : daily_inv [] [].
Proof. split; [reflexivity | intros k e H; discriminate]. Qed.

Lemma update_daily_fold_inv (l p : list ForecastSample)
    (acc acc' : list (string * Update.DayData)) :
  daily_inv p acc ->
  foldM (Update.daily_step tzlocal) l acc = Some acc' ->
  daily_inv (p ++ l) acc'.
Proof.
  revert p acc; induction l as [|item l IH]; intros p acc Inv H; simpl in H.
  - inversion H; subst. now rewrite app_nil_r.
  - destruct (Update.daily_step tzlocal acc item) as [acc1|] eqn:S;
      [|discriminate].
    cbn [bind] in H.
    replace (p ++ item :: l) with ((p ++ [item]) ++ l)
      by now rewrite <- app_assoc.
    eapply IH; [|exact H]. eapply update_daily_step_inv; eassumption.
Qed.

Lemma update_daily_fold_total (l : list ForecastSample)
    (acc : list (string * Update.DayData)) :
  Forall (Spec.in_local_range tzlocal) l ->
  exists acc', foldM (Update.daily_step tzlocal) l acc = Some acc'.
Proof.
  intros H; revert acc; induction H as [|item l Hi _ IH]; intros acc; simpl.
  - now exists acc.
  - rewrite update_daily_step. unfold Spec.in_local_range in Hi.
    rewrite Hi; cbn [bind]. apply IH.
Qed.

(** Every bucket of the invariant holds at least one temperature. *)
Lemma entry_ok_row (p : list ForecastSample) (k : string)
    (e : Update.DayData) :
  entry_ok p k e -> exists r, Update.daily_row (k, e) = Some r.
Proof.
  intros [Ht (s0 & (pre & post & Hg & _) & _)].
  unfold Update.daily_row. rewrite Ht, Hg, map_app; cbn [map].
  destruct (map main_temp pre) as [|x r]; cbn; eauto.
Qed.

Lemma daily_inv_get (p : list ForecastSample)
    (acc : list (string * Update.DayData)) (k : string) (e : Update.DayData) :
  daily_inv p acc -> In (k, e) acc -> entry_ok p k e.
Proof.
  intros [Hkeys Hent] I. apply Hent.
  apply (dict_get_of_In String.eqb String.eqb_spec); [|exact I].
  rewrite Hkeys. apply first_seen_NoDup.
Qed.
End UpdateDaily.
(* ===================================================================== *)
(** ** Running two scripts side by side *)
(* ===================================================================== *)

Section Simulation.
Context {A1 A2 B : Type}.
Variable R : A1 -> A2 -> Prop.

Lemma foldM_sim (f1 : A1 -> B -> option A1) (f2 : A2 -> B -> option A2) :
  (forall a1 a2 b, R a1 a2 -> Spec.opt_rel R (f1 a1 b) (f2 a2 b)) ->
  forall l a1 a2, R a1 a2 -> Spec.opt_rel R (foldM f1 l a1) (foldM f2 l a2).
Proof.
  intros Hstep l; induction l as [|b l IH]; intros a1 a2 H; simpl.
  - exact H.
  - specialize (Hstep a1 a2 b H).
    destruct (f1 a1 b), (f2 a2 b); simpl in *; try contradiction; auto.
Qed.
End Simulation.

Section MapSimulation.
Context {A1 A2 B1 B2 : Type}.
Variable Rin : A1 -> A2 -> Prop.
Variable Rout : B1 -> B2 -> Prop.

Lemma mapM_sim (f1 : A1 -> option B1) (f2 : A2 -> option B2) :
  (forall x y, Rin x y -> Spec.opt_rel Rout (f1 x) (f2 y)) ->
  forall l1 l2, Forall2 Rin l1 l2 ->
    Spec.opt_rel (Forall2 Rout) (mapM f1 l1) (mapM f2 l2).
Proof.
  intros Hf l1 l2 H; induction H as [|x y l1 l2 Hxy _ IH]; simpl.
  - constructor.
  - specialize (Hf x y Hxy).
    destruct (f1 x), (f2 y); simpl in *; try contradiction; auto.
    destruct (mapM f1 l1), (mapM f2 l2); simpl in *; try contradiction; auto.
Qed.
End MapSimulation.

Lemma Forall2_firstn {A B : Type} (R : A -> B -> Prop) (n : nat)
    (l1 : list A) (l2 : list B) :
  Forall2 R l1 l2 -> Forall2 R (firstn n l1) (firstn n l2).
Proof.
  intros H; revert n; induction H; intros [|n]; simpl; constructor; auto.
Qed.

Lemma Forall2_map_eq {A B C : Type} (f : A -> C) (g : B -> C)
    (l1 : list A) (l2 : list B) :
  Forall2 (fun a b => f a = g b) l1 l2 -> map f l1 = map g l2.
Proof. induction 1; simpl; congruence. Qed.

Lemma Forall2_refl_same {A : Type} (R : A -> A -> Prop) (l : list A) :
  (forall a, R a a) -> Forall2 R l l.
Proof. intros H; induction l; constructor; auto. Qed.

Section DictSimulation.
Context {V1 V2 : Type}.
Variable R : V1 -> V2 -> Prop.

Lemma dict_rel_get (a : list (string * V1)) (b : list (string * V2))
    (k : string) :
  Spec.dict_rel R a b ->
  Spec.opt_rel R (dict_get String.eqb a k) (dict_get String.eqb b k).
Proof.
  induction 1 as [|[k1 v1] [k2 v2] a b [Hk Hv] _ IH]; simpl in *.
  - exact I.
  - subst k2. now destruct (String.eqb k1 k).
Qed.

Lemma dict_rel_contains (a : list (string * V1)) (b : list (string * V2))
    (k : string) :
  Spec.dict_rel R a b ->
  dict_contains String.eqb a k = dict_contains String.eqb b k.
Proof.
  intros H; apply (dict_rel_get _ _ k) in H. unfold dict_contains.
  destruct (dict_get String.eqb a k), (dict_get String.eqb b k);
    simpl in H; tauto.
Qed.

Lemma dict_rel_set (a : list (string * V1)) (b : list (string * V2))
    (k : string) (v1 : V1) (v2 : V2) :
  Spec.dict_rel R a b -> R v1 v2 ->
  Spec.dict_rel R (dict_set String.eqb a k v1) (dict_set String.eqb b k v2).
Proof.
  intros H Hv; induction H as [|[k1 w1] [k2 w2] a b [Hk Hw] Hab IH];
    simpl in *.
  - repeat constructor; auto.
  - subst k2. destruct (String.eqb k1 k); constructor; simpl; auto.
Qed.
End DictSimulation.

Section VariantsDaily.
Variable tzlocal : Z -> Z.

(** [src/App.py] and [src/update.py] fill their buckets in lockstep. *)
Lemma app_update_step (a : list (string * App.DayData))
    (u : list (string * Update.DayData)) (item : ForecastSample) :
  Spec.dict_rel Spec.same_temps a u ->
  Spec.opt_rel (Spec.dict_rel Spec.same_temps)
    (App.daily_step tzlocal a item) (Update.daily_step tzlocal u item).
Proof.
  intros H. unfold App.daily_step, Update.daily_step.
  destruct (fromtimestamp tzlocal (dt item)) as [d|]; cbn [bind]; [|exact I].
  rewrite (dict_rel_contains _ _ _ _ H).
  set (k := strftime d "%a").
  assert (H1 : Spec.dict_rel Spec.same_temps
            (if dict_contains String.eqb u k then a
             else dict_set String.eqb a k
                    {| App.temps := []; App.icon := weather_icon item |})
            (if dict_contains String.eqb u k then u
             else dict_set String.eqb u k
                    {| Update.temps := []; Update.icon := weather_icon item;
                       Update.noon_diff := 24 |})).
  { destruct (dict_contains String.eqb u k); [exact H|].
    apply dict_rel_set; [exact H | reflexivity]. }
  pose proof (dict_rel_get _ _ _ k H1) as G.
  match type of G with
  | Spec.opt_rel _ ?x ?y => destruct x as [da|], y as [du|]
  end; simpl in G; try contradiction; cbn [bind]; [|exact I].
  cbn [Update.temps Update.icon Update.noon_diff].
  unfold Spec.same_temps in G.
  destruct (Z.abs (12 - hour d) <? Update.noon_diff du); simpl;
    (apply dict_rel_set; [exact H1|]); unfold Spec.same_temps; simpl;
    now rewrite G.
Qed.

Lemma app_update_row (x : string * App.DayData) (y : string * Update.DayData) :
  fst x = fst y /\ Spec.same_temps (snd x) (snd y) ->
  Spec.opt_rel (fun r1 r2 => Spec.without_icon r1 = Spec.without_icon r2)
    (App.daily_row x) (Update.daily_row y).
Proof.
  destruct x as [k1 e1], y as [k2 e2]; simpl; intros [-> E].
  unfold Spec.same_temps in E.
  unfold App.daily_row, Update.daily_row. rewrite E.
  destruct (np_max (Update.temps e2)); cbn [bind]; [|exact I].
  destruct (np_min (Update.temps e2)); cbn [bind]; [|exact I].
  reflexivity.
Qed.

(** Up to the icon, the two scripts produce the same five-day summary. *)
Lemma app_update_daily (samples : list ForecastSample) :
  option_map (map Spec.without_icon) (App.daily_forecast tzlocal samples)
  = option_map (map Spec.without_icon)
      (Update.daily_forecast tzlocal samples).
Proof.
  unfold App.daily_forecast, Update.daily_forecast,
    App.daily_data, Update.daily_data.
  pose proof (foldM_sim (Spec.dict_rel Spec.same_temps)
                (App.daily_step tzlocal) (Update.daily_step tzlocal)
                app_update_step samples [] [] (Forall2_nil _)) as F.
  destruct (foldM (App.daily_step tzlocal) samples []) as [a|],
           (foldM (Update.daily_step tzlocal) samples []) as [u|];
    simpl in F; try contradiction; cbn [bind]; [|reflexivity].
  pose proof (mapM_sim _ _ _ _ app_update_row _ _
                (Forall2_firstn _ 5 _ _ F)) as M.
  change (slice_to a 5) with (firstn 5 a).
  change (slice_to u 5) with (firstn 5 u).
  destruct (mapM App.daily_row (firstn 5 a)),
           (mapM Update.daily_row (firstn 5 u));
    simpl in M; try contradiction; simpl; [|reflexivity].
  f_equal. now apply Forall2_map_eq.
Qed.

(** [src/App.py] and [src/new.py] fill their buckets identically. *)
Lemma app_new_step (a : list (string * App.DayData))
    (n : list (string * New.DayData)) (item : ForecastSample) :
  Spec.dict_rel Spec.same_bucket a n ->
  Spec.opt_rel (Spec.dict_rel Spec.same_bucket)
    (App.daily_step tzlocal a item) (New.daily_step tzlocal n item).
Proof.
  intros H. unfold App.daily_step, New.daily_step.
  destruct (fromtimestamp tzlocal (dt item)) as [d|]; cbn [bind]; [|exact I].
  rewrite (dict_rel_contains _ _ _ _ H).
  set (k := strftime d "%a").
  assert (H1 : Spec.dict_rel Spec.same_bucket
            (if dict_contains String.eqb n k then a
             else dict_set String.eqb a k
                    {| App.temps := []; App.icon := weather_icon item |})
            (if dict_contains String.eqb n k then n
             else dict_set String.eqb n k
                    {| New.temps := []; New.icon := weather_icon item |})).
  { destruct (dict_contains String.eqb n k); [exact H|].
    apply dict_rel_set; [exact H | split; reflexivity]. }
  pose proof (dict_rel_get _ _ _ k H1) as G.
  match type of G with
  | Spec.opt_rel _ ?x ?y => destruct x as [da|], y as [dn|]
  end; simpl in G; try contradiction; cbn [bind]; [|exact I].
  destruct G as [Gt Gi]. simpl.
  apply dict_rel_set; [exact H1|]. split; simpl; congruence.
Qed.

Lemma app_new_row (x : string * App.DayData) (y : string * New.DayData) :
  fst x = fst y /\ Spec.same_bucket (snd x) (snd y) ->
  Spec.opt_rel eq (App.daily_row x) (New.daily_row y).
Proof.
  destruct x as [k1 e1], y as [k2 e2]; simpl; intros [-> [Et Ei]].
  unfold App.daily_row, New.daily_row. rewrite Et, Ei.
  destruct (np_max (New.temps e2)); cbn [bind]; [|exact I].
  destruct (np_min (New.temps e2)); cbn [bind]; [|exact I].
  reflexivity.
Qed.

Lemma app_new_daily (samples : list ForecastSample) :
  App.daily_forecast tzlocal samples = New.daily_forecast tzlocal samples.
Proof.
  unfold App.daily_forecast, New.daily_forecast,
    App.daily_data, New.daily_data.
  pose proof (foldM_sim (Spec.dict_rel Spec.same_bucket)
                (App.daily_step tzlocal) (New.daily_step tzlocal)
                app_new_step samples [] [] (Forall2_nil _)) as F.
  destruct (foldM (App.daily_step tzlocal) samples []) as [a|],
           (foldM (New.daily_step tzlocal) samples []) as [n|];
    simpl in F; try contradiction; cbn [bind]; [|reflexivity].
  pose proof (mapM_sim _ _ _ _ app_new_row _ _
                (Forall2_firstn _ 5 _ _ F)) as M.
  change (slice_to a 5) with (firstn 5 a).
  change (slice_to n 5) with (firstn 5 n).
  destruct (mapM App.daily_row (firstn 5 a)),
           (mapM New.daily_row (firstn 5 n));
    simpl in M; try contradiction; simpl; [|reflexivity].
  f_equal. clear -M. induction M; congruence.
Qed.
End VariantsDaily.
(* ===================================================================== *)
(** ** Results of the five-day summary *)
(* ===================================================================== *)

Lemma mapM_total {A B : Type} (f : A -> option B) (l : list A) :
  Forall (fun a => exists b, f a = Some b) l -> exists r, mapM f l = Some r.
Proof.
  induction 1 as [|a l [b Hb] _ [r IH]]; simpl.
  - now exists [].
  - rewrite Hb, IH; simpl. now exists (b :: r).
Qed.

Lemma Forall2_In_r {A B : Type} (R : A -> B -> Prop) (l1 : list A)
    (l2 : list B) (b : B) :
  Forall2 R l1 l2 -> In b l2 -> exists a, In a l1 /\ R a b.
Proof.
  induction 1 as [|x y l1 l2 Hxy _ IH]; simpl; [contradiction|].
  intros [<-|I].
  - exists x; auto.
  - destruct (IH I) as (a & Ia & Ha). exists a; auto.
Qed.

Lemma update_daily_row_fields (k : string) (e : Update.DayData)
    (r : DailySummary) :
  Update.daily_row (k, e) = Some r ->
  day r = k /\ day_icon r = Update.icon e /\
  np_max (Update.temps e) = Some (temp_max r) /\
  np_min (Update.temps e) = Some (temp_min r).
Proof.
  unfold Update.daily_row.
  destruct (np_max (Update.temps e)); cbn [bind]; [|discriminate].
  destruct (np_min (Update.temps e)); cbn [bind]; [|discriminate].
  intros H; inversion H; subst; auto.
Qed.

Lemma without_icon_day (rows1 rows2 : list DailySummary) :
  map Spec.without_icon rows1 = map Spec.without_icon rows2 ->
  map day rows1 = map day rows2.
Proof.
  revert rows2; induction rows1 as [|r1 rows1 IH]; intros [|r2 rows2];
    simpl; intros H; try discriminate; [reflexivity|].
  inversion H. f_equal; auto.
Qed.

Lemma without_icon_min_max (rows1 rows2 : list DailySummary) :
  map Spec.without_icon rows1 = map Spec.without_icon rows2 ->
  Forall (fun r => (temp_min r <= temp_max r)%Q) rows1 ->
  Forall (fun r => (temp_min r <= temp_max r)%Q) rows2.
Proof.
  revert rows2; induction rows1 as [|r1 rows1 IH]; intros [|r2 rows2];
    simpl; intros H F; try discriminate; constructor.
  - inversion H; inversion F; subst. congruence.
  - inversion H; inversion F; subst. auto.
Qed.

Section DailyResults.
Variable tzlocal : Z -> Z.

Lemma update_daily_forecast_inv (samples : list ForecastSample)
    (rows : list DailySummary) :
  Update.daily_forecast tzlocal samples = Some rows ->
  exists dd,
    Spec.daily_inv tzlocal samples dd /\
    Forall2 (fun entry r => Update.daily_row entry = Some r)
            (firstn 5 dd) rows.
Proof.
  unfold Update.daily_forecast, Update.daily_data.
  destruct (foldM (Update.daily_step tzlocal) samples []) as [dd|] eqn:F;
    cbn [bind]; [|discriminate].
  intros M. exists dd. split.
  - apply (update_daily_fold_inv tzlocal samples [] [] dd);
      [apply daily_inv_nil | exact F].
  - now apply mapM_Forall2.
Qed.

Lemma update_daily_forecast_total (samples : list ForecastSample) :
  Forall (Spec.in_local_range tzlocal) samples ->
  exists rows, Update.daily_forecast tzlocal samples = Some rows.
Proof.
  intros H. unfold Update.daily_forecast, Update.daily_data.
  destruct (update_daily_fold_total tzlocal samples [] H) as [dd F].
  rewrite F; cbn [bind].
  apply mapM_total, Forall_forall. intros [k e] I.
  apply (entry_ok_row tzlocal samples).
  apply (daily_inv_get tzlocal samples dd).
  - apply (update_daily_fold_inv tzlocal samples [] [] dd);
      [apply daily_inv_nil | exact F].
  - change (slice_to dd 5) with (firstn 5 dd) in I.
    rewrite <- (firstn_skipn 5 dd). apply in_or_app; now left.
Qed.

Lemma update_daily_days (samples : list ForecastSample)
    (rows : list DailySummary) :
  Update.daily_forecast tzlocal samples = Some rows ->
  map day rows
  = firstn 5 (Spec.first_seen (map (Spec.day_key tzlocal) samples)).
Proof.
  intros H. destruct (update_daily_forecast_inv _ _ H) as (dd & [Hk _] & F).
  rewrite <- Hk, firstn_map.
  symmetry. apply Forall2_map_eq.
  eapply Forall2_impl; [|exact F].
  intros [k e] r Hr. now destruct (update_daily_row_fields _ _ _ Hr) as [-> _].
Qed.

Lemma update_daily_rows (samples : list ForecastSample)
    (rows : list DailySummary) (r : DailySummary) :
  Update.daily_forecast tzlocal samples = Some rows -> In r rows ->
  exists e,
    Spec.entry_ok tzlocal samples (day r) e /\
    day_icon r = Update.icon e /\
    np_max (Update.temps e) = Some (temp_max r) /\
    np_min (Update.temps e) = Some (temp_min r).
Proof.
  intros H I. destruct (update_daily_forecast_inv _ _ H) as (dd & Inv & F).
  destruct (Forall2_In_r _ _ _ _ F I) as ([k e] & Ie & Hr).
  destruct (update_daily_row_fields _ _ _ Hr) as (Hd & Hi & Hx & Hn).
  exists e. subst k. split; [|auto].
  apply (daily_inv_get tzlocal samples dd); [exact Inv|].
  rewrite <- (firstn_skipn 5 dd). apply in_or_app; now left.
Qed.
End DailyResults.
(* ===================================================================== *)
(** ** Hourly slice: window and labels *)
(* ===================================================================== *)

(** C6.  For every sample list and every offset, whenever the hourly loop
    of [src/update.py] returns, a window of 24 hours yields the first eight
    samples in input order, hence [min 8 (length samples)] points, and a
    window of 9 hours the first three, hence [min 3 (length samples)]
    points; and it does return when [datetime] can represent the shifted
    timestamps. *)
Theorem hourly_window_count (samples : list ForecastSample) (off : Z) :
  (forall pts,
     Update.hourly_forecast samples off 24 = Some pts ->
     pts = map (Spec.point "%a %I %p" off) (firstn 8 samples) /\
     List.length pts = Nat.min 8 (List.length samples)) /\
  (forall pts,
     Update.hourly_forecast samples off 9 = Some pts ->
     pts = map (Spec.point "%a %I %p" off) (firstn 3 samples) /\
     List.length pts = Nat.min 3 (List.length samples)) /\
  (Forall (Spec.in_range off) samples ->
   exists day_pts short_pts,
     Update.hourly_forecast samples off 24 = Some day_pts /\
     Update.hourly_forecast samples off 9 = Some short_pts).
Proof.
  split; [|split].
  - intros pts H. apply update_hourly_result in H.
    change (slice_to samples (24 / 3)) with (firstn 8 samples) in H.
    subst pts. split; [reflexivity|]. now rewrite length_map, length_firstn.
  - intros pts H. apply update_hourly_result in H.
    change (slice_to samples (9 / 3)) with (firstn 3 samples) in H.
    subst pts. split; [reflexivity|]. now rewrite length_map, length_firstn.
  - intros H.
    exists (map (Spec.point "%a %I %p" off) (slice_to samples (24 / 3))),
           (map (Spec.point "%a %I %p" off) (slice_to samples (9 / 3))).
    split; apply update_hourly_in_range; now apply Forall_slice_to.
Qed.

Lemma hourly_window_count_witness :
  (Update.hourly_forecast (Scenario.daily_midnights 10 0) 19800 24
   = Some (map (Spec.point "%a %I %p" 19800)
               (firstn 8 (Scenario.daily_midnights 10 0))) /\
   List.length (map (Spec.point "%a %I %p" 19800)
                    (firstn 8 (Scenario.daily_midnights 10 0))) = 8%nat) /\
  (Update.hourly_forecast Scenario.one_day 0 9
   = Some (map (Spec.point "%a %I %p" 0) (firstn 3 Scenario.one_day)) /\
   List.length (map (Spec.point "%a %I %p" 0) (firstn 3 Scenario.one_day))
   = 3%nat) /\
  (Forall (Spec.in_range 19800) (Scenario.daily_midnights 10 0) /\
   exists day_pts short_pts,
     Update.hourly_forecast (Scenario.daily_midnights 10 0) 19800 24
       = Some day_pts /\
     Update.hourly_forecast (Scenario.daily_midnights 10 0) 19800 9
       = Some short_pts).
Proof.
  split; [|split].
  - split; [reflexivity|].
    apply (proj1 (hourly_window_count (Scenario.daily_midnights 10 0) 19800)).
    reflexivity.
  - split; [reflexivity|].
    apply (proj1 (proj2 (hourly_window_count Scenario.one_day 0))).
    reflexivity.
  - split; [repeat constructor|].
    apply (proj2 (proj2
             (hourly_window_count (Scenario.daily_midnights 10 0) 19800))).
    repeat constructor.
Defined.

(** C2.  What [src/update.py] computes where the specification expects
    ["Thu 2 PM"] and labels up to ["Thu 9 PM"]: the weekday comes first, so
    [lstrip('0')] finds no zero to strip and the two-digit hour stays.  The
    loop of [src/App.py], without the weekday, does strip it. *)
Theorem hour_label_keeps_leading_zero :
  option_map (map hour_label)
    (Update.hourly_forecast [Scenario.two_pm] 0 24) = Some ["Thu 02 PM"] /\
  option_map (map hour_label)
    (Update.hourly_forecast Scenario.one_day 0 24)
  = Some ["Thu 12 AM"; "Thu 03 AM"; "Thu 06 AM"; "Thu 09 AM";
          "Thu 12 PM"; "Thu 03 PM"; "Thu 06 PM"; "Thu 09 PM"] /\
  option_map (map hour_label)
    (App.hourly_forecast Scenario.one_day 0)
  = Some ["12 AM"; "3 AM"; "6 AM"; "9 AM"; "12 PM"; "3 PM"; "6 PM"; "9 PM"].
Proof. repeat split; vm_compute; reflexivity. Qed.

(* ===================================================================== *)
(** ** UTC offset display *)
(* ===================================================================== *)

(** C3, as stated, fails on its first example: 19800 seconds are five hours
    and thirty minutes. *)
Lemma offset_display_19800_not_whole_hour :
  Update.offset_display 19800 <> "UTC+05:00".
Proof. vm_compute; discriminate. Qed.

(** C3, amended.  An offset of [h] hours, [m] minutes and [s] seconds east
    of Greenwich, [h] below 100, is displayed as [UTC+hh:mm]; an offset of
    [h] whole hours west as [UTC-hh:00]; 19800, -18000 and 0 give
    [UTC+05:30], [UTC-05:00] and [UTC+00:00]; [src/App.py] computes the same
    string. *)
Theorem offset_display_hours_minutes :
  (forall h m s, 0 <= h < 100 -> 0 <= m < 60 -> 0 <= s < 60 ->
     Update.offset_display (3600 * h + 60 * m + s)
     = ("UTC+" ++ format_02d h ++ ":" ++ format_02d m)%string) /\
  (forall h, 0 < h < 100 ->
     Update.offset_display (- (3600 * h))
     = ("UTC-" ++ format_02d h ++ ":00")%string) /\
  Update.offset_display 19800 = "UTC+05:30" /\
  Update.offset_display (-18000) = "UTC-05:00" /\
  Update.offset_display 0 = "UTC+00:00" /\
  (forall tz, App.offset_display tz = Update.offset_display tz).
Proof.
  repeat split; try reflexivity.
  - intros h m s Hh Hm Hs.
    unfold Update.offset_display; cbv zeta.
    set (tz := 3600 * h + 60 * m + s).
    assert (Htz : 0 <= tz) by (unfold tz; lia).
    destruct (Z.leb_spec 0 tz); [|lia].
    assert (Hmod : tz mod 3600 = 60 * m + s).
    { symmetry; apply (Z.mod_unique_pos _ _ h); unfold tz; lia. }
    assert (Hdiv : tz / 3600 = h).
    { symmetry; apply (Z.div_unique_pos _ _ _ (60 * m + s)); unfold tz; lia. }
    rewrite Hmod, !Z.quot_div_nonneg, Hdiv by lia.
    replace ((60 * m + s) / 60) with m
      by (apply (Z.div_unique_pos _ _ _ s); lia).
    now rewrite !Z.abs_eq by lia.
  - intros h Hh.
    unfold Update.offset_display; cbv zeta.
    destruct (Z.leb_spec 0 (- (3600 * h))); [lia|].
    replace (- (3600 * h)) with ((- h) * 3600) by lia.
    rewrite Z.quot_mul, Z.mod_mul by lia.
    replace (Z.abs (- h)) with h by lia.
    reflexivity.
Qed.

Lemma offset_display_hours_minutes_witness :
  (0 <= 5 < 100 /\ 0 <= 45 < 60 /\ 0 <= 0 < 60 /\
   Update.offset_display 20700 = "UTC+05:45") /\
  (0 < 9 < 100 /\ Update.offset_display (-32400) = "UTC-09:00").
Proof.
  split.
  - split; [lia|]. split; [lia|]. split; [lia|].
    apply (proj1 offset_display_hours_minutes 5 45 0); lia.
  - split; [lia|].
    apply (proj1 (proj2 offset_display_hours_minutes) 9); lia.
Defined.

(* ===================================================================== *)
(** ** Air-quality category *)
(* ===================================================================== *)

(** C9.  [get_aqi_category] maps 1..5 to Good, Fair, Moderate, Poor and
    Very Poor, each with its colour, and every other value, [None]
    included, to Unknown with the neutral colour; it is a total function.
    3 gives Moderate and 9 gives Unknown.  [src/App.py] has the same labels
    with its own colours. *)
Theorem get_aqi_category_table :
  map Update.get_aqi_category [Some 1; Some 2; Some 3; Some 4; Some 5]
  = [("Good", "#00aa00"); ("Fair", "#aaaa00"); ("Moderate", "#cc5500");
     ("Poor", "#cc0000"); ("Very Poor", "#77004c")] /\
  (forall v, (forall i, 1 <= i <= 5 -> v <> Some i) ->
     Update.get_aqi_category v = ("Unknown", "#333333") /\
     App.get_aqi_category v = ("Unknown", "white")) /\
  Update.get_aqi_category (Some 9) = ("Unknown", "#333333") /\
  Update.get_aqi_category None = ("Unknown", "#333333") /\
  (forall v, New.get_aqi_category v = Update.get_aqi_category v) /\
  (forall v, fst (App.get_aqi_category v) = fst (Update.get_aqi_category v)).
Proof.
  repeat split; try reflexivity.
  - destruct v as [z|]; [|reflexivity].
    assert (N : forall k, 1 <= k <= 5 -> k <> z).
    { intros k Hk ->; now apply (H z). }
    unfold Update.get_aqi_category, dict_get_default,
      Update.aqi_map, Update.aqi_color_map; cbn [dict_get opt_Z_eqb].
    repeat match goal with
           | |- context [?a =? z] =>
               destruct (Z.eqb_spec a z); [now apply N in e; [|lia]|]
           end.
    reflexivity.
  - destruct v as [z|]; [|reflexivity].
    assert (N : forall k, 1 <= k <= 5 -> k <> z).
    { intros k Hk ->; now apply (H z). }
    unfold App.get_aqi_category, dict_get_default,
      App.aqi_map, App.aqi_color_map; cbn [dict_get opt_Z_eqb].
    repeat match goal with
           | |- context [?a =? z] =>
               destruct (Z.eqb_spec a z); [now apply N in e; [|lia]|]
           end.
    reflexivity.
Qed.

Lemma get_aqi_category_table_witness :
  (forall i, 1 <= i <= 5 -> Some 9 <> Some i) /\
  Update.get_aqi_category (Some 9) = ("Unknown", "#333333") /\
  App.get_aqi_category (Some 9) = ("Unknown", "white").
Proof.
  assert (H : forall i, 1 <= i <= 5 -> Some 9 <> Some i)
    by (intros i Hi E; inversion E; lia).
  split; [exact H|].
  exact (proj1 (proj2 get_aqi_category_table) (Some 9) H).
Defined.
(* ===================================================================== *)
(** ** Five-day summary: icon, order, truncation, bounds *)
(* ===================================================================== *)

(** C4.  In every summary that [src/update.py] returns, the icon of a day is
    the icon of the first sample of that day's bucket at minimal distance
    from noon, the hour being that of the timestamp itself on the host
    clock: earlier samples of the bucket are strictly farther from noon and
    later ones are not nearer.  The summary is returned whenever
    [datetime.fromtimestamp] accepts the timestamps on the host.  Hence two
    samples of one day at hours 9 and 15 yield the icon of the first. *)
Theorem representative_icon_closest_to_noon (tzlocal : Z -> Z) :
  (forall samples rows,
     Update.daily_forecast tzlocal samples = Some rows ->
     Forall (fun r =>
               exists s0,
                 Spec.first_closest_to_noon tzlocal
                   (Spec.day_group tzlocal (day r) samples) s0 /\
                 day_icon r = weather_icon s0) rows) /\
  (forall samples,
     Forall (Spec.in_local_range tzlocal) samples ->
     exists rows, Update.daily_forecast tzlocal samples = Some rows) /\
  (forall s1 s2,
     Spec.in_local_range tzlocal s1 -> Spec.in_local_range tzlocal s2 ->
     Spec.day_key tzlocal s1 = Spec.day_key tzlocal s2 ->
     hour (Spec.local_datetime tzlocal s1) = 9 ->
     hour (Spec.local_datetime tzlocal s2) = 15 ->
     exists r,
       Update.daily_forecast tzlocal [s1; s2] = Some [r] /\
       day_icon r = weather_icon s1).
Proof.
  assert (General : forall samples rows,
     Update.daily_forecast tzlocal samples = Some rows ->
     Forall (fun r =>
               exists s0,
                 Spec.first_closest_to_noon tzlocal
                   (Spec.day_group tzlocal (day r) samples) s0 /\
                 day_icon r = weather_icon s0) rows).
  { intros samples rows E.
    apply Forall_forall; intros r I.
    destruct (update_daily_rows tzlocal samples rows r E I)
      as (e & (_ & s0 & Hs0 & Hi & _) & Hr & _).
    exists s0; split; [exact Hs0 | congruence]. }
  split; [exact General|].
  split; [apply update_daily_forecast_total|].
  intros s1 s2 R1 R2 K H9 H15.
  destruct (update_daily_forecast_total tzlocal [s1; s2]) as [rows E];
    [now repeat constructor|].
  pose proof (General _ _ E) as F.
  pose proof (update_daily_days tzlocal _ _ E) as D.
  cbn [map] in D. rewrite <- K in D.
  change [Spec.day_key tzlocal s1; Spec.day_key tzlocal s1]
    with ([Spec.day_key tzlocal s1] ++ [Spec.day_key tzlocal s1]) in D.
  rewrite first_seen_snoc_old in D by now left.
  cbn in D.
  destruct rows as [|r [|r' rows]]; try discriminate.
  exists r; split; [exact E|].
  inversion D as [Dr].
  inversion F as [|? ? (s0 & (pre & post & G & Hpre & _) & Hi) _].
  subst. rewrite Hi. f_equal.
  unfold Spec.day_group in G; cbn [filter] in G.
  rewrite Dr, <- K, String.eqb_refl in G.
  destruct pre as [|a [|b pre]]; cbn in G.
  - now inversion G.
  - inversion G; subst. inversion Hpre as [|? ? L _]; subst.
    unfold Spec.noon_distance in L. rewrite H9, H15 in L. simpl in L. lia.
  - inversion G as [[Ea Eb G']]. now destruct pre.
Qed.

Lemma representative_icon_closest_to_noon_witness :
  (Update.daily_forecast Scenario.utc_host Scenario.one_day
   = Some [Scenario.thursday_row "03d"] /\
   Forall (fun r =>
             exists s0,
               Spec.first_closest_to_noon Scenario.utc_host
                 (Spec.day_group Scenario.utc_host (day r) Scenario.one_day)
                 s0 /\
               day_icon r = weather_icon s0)
          [Scenario.thursday_row "03d"]) /\
  (Forall (Spec.in_local_range Scenario.utc_host) Scenario.one_day /\
   exists rows,
     Update.daily_forecast Scenario.utc_host Scenario.one_day = Some rows) /\
  (hour (Spec.local_datetime Scenario.utc_host Scenario.nine_am) = 9 /\
   hour (Spec.local_datetime Scenario.utc_host Scenario.three_pm) = 15 /\
   exists r,
     Update.daily_forecast Scenario.utc_host
       [Scenario.nine_am; Scenario.three_pm] = Some [r] /\
     day_icon r = "02d").
Proof.
  pose proof (representative_icon_closest_to_noon Scenario.utc_host)
    as (Hicon & Htotal & Htie).
  split; [|split].
  - split; [reflexivity|]. apply (Hicon Scenario.one_day). reflexivity.
  - split; [repeat constructor|].
    apply (Htotal Scenario.one_day). repeat constructor.
  - split; [reflexivity|]. split; [reflexivity|].
    apply (Htie Scenario.nine_am Scenario.three_pm); reflexivity.
Defined.

(** C8.  Every summary that [src/update.py] returns lists the days in the
    order in which their keys first appear among the samples and keeps the
    first five of them, whatever the number of distinct keys; samples that
    come later never displace a day already listed.  [src/App.py] lists the
    same days.  The summary is returned whenever [datetime.fromtimestamp]
    accepts the timestamps on the host. *)
Theorem daily_first_seen_order (tzlocal : Z -> Z)
    (samples : list ForecastSample) :
  (forall rows,
     Update.daily_forecast tzlocal samples = Some rows ->
     map day rows
     = firstn 5 (Spec.first_seen (map (Spec.day_key tzlocal) samples)) /\
     (List.length rows <= 5)%nat /\
     option_map (map day) (App.daily_forecast tzlocal samples)
     = Some (map day rows) /\
     (forall more rows',
        Update.daily_forecast tzlocal (samples ++ more) = Some rows' ->
        Spec.prefix_of (map day rows) (map day rows'))) /\
  (Forall (Spec.in_local_range tzlocal) samples ->
   exists rows, Update.daily_forecast tzlocal samples = Some rows).
Proof.
  split; [|apply update_daily_forecast_total].
  intros rows E.
  pose proof (update_daily_days tzlocal _ _ E) as D.
  split; [exact D|]. split; [|split].
  - rewrite <- (length_map day), D. apply firstn_le_length.
  - pose proof (app_update_daily tzlocal samples) as S. rewrite E in S.
    destruct (App.daily_forecast tzlocal samples) as [rows_app|];
      simpl in S; [|discriminate].
    inversion S as [S']. simpl. f_equal. now apply without_icon_day.
  - intros more rows' E'.
    rewrite D, (update_daily_days tzlocal _ _ E'), map_app.
    apply prefix_of_firstn, first_seen_app.
Qed.

Lemma daily_first_seen_order_witness :
  (Update.daily_forecast Scenario.utc_host (Scenario.daily_midnights 10 0)
   = Some Scenario.five_rows /\
   map day Scenario.five_rows
   = firstn 5 (Spec.first_seen
                 (map (Spec.day_key Scenario.utc_host)
                      (Scenario.daily_midnights 10 0)))) /\
  (Forall (Spec.in_local_range Scenario.utc_host)
          (Scenario.daily_midnights 10 0) /\
   exists rows,
     Update.daily_forecast Scenario.utc_host (Scenario.daily_midnights 10 0)
     = Some rows).
Proof.
  split.
  - split; [reflexivity|].
    apply (proj1 (daily_first_seen_order Scenario.utc_host
                    (Scenario.daily_midnights 10 0))).
    reflexivity.
  - split; [repeat constructor|].
    apply (proj2 (daily_first_seen_order Scenario.utc_host
                    (Scenario.daily_midnights 10 0))).
    repeat constructor.
Defined.

(** C10.  Every row of a summary returned by [src/update.py] or by
    [src/App.py] has [temp_min <= temp_max]: both are taken over the same
    non-empty list of temperatures of the bucket.  For a non-empty list of
    samples whose timestamps [datetime.fromtimestamp] accepts on the host
    the summary is returned and is not empty. *)
Theorem daily_min_le_max (tzlocal : Z -> Z) (samples : list ForecastSample) :
  (forall rows,
     Update.daily_forecast tzlocal samples = Some rows ->
     Forall (fun r => (temp_min r <= temp_max r)%Q) rows) /\
  (forall rows,
     App.daily_forecast tzlocal samples = Some rows ->
     Forall (fun r => (temp_min r <= temp_max r)%Q) rows) /\
  (samples <> [] ->
   Forall (Spec.in_local_range tzlocal) samples ->
   exists rows,
     Update.daily_forecast tzlocal samples = Some rows /\ rows <> []).
Proof.
  assert (M : forall rows,
     Update.daily_forecast tzlocal samples = Some rows ->
     Forall (fun r => (temp_min r <= temp_max r)%Q) rows).
  { intros rows E. apply Forall_forall; intros r I.
    destruct (update_daily_rows tzlocal samples rows r E I)
      as (e & _ & _ & Hx & Hn).
    eapply np_min_le_np_max; eassumption. }
  split; [exact M|]. split.
  - intros rows_app E.
    pose proof (app_update_daily tzlocal samples) as S. rewrite E in S.
    destruct (Update.daily_forecast tzlocal samples) as [rows|];
      simpl in S; [|discriminate].
    inversion S as [S'].
    eapply without_icon_min_max; [symmetry; exact S' | now apply M].
  - intros NE H.
    destruct (update_daily_forecast_total tzlocal samples H) as [rows E].
    exists rows. split; [exact E|].
    intros ->. pose proof (update_daily_days tzlocal _ _ E) as D.
    destruct samples as [|s samples]; [now apply NE|].
    assert (I : In (Spec.day_key tzlocal s)
                  (Spec.first_seen
                     (map (Spec.day_key tzlocal) (s :: samples))))
      by (apply first_seen_In; now left).
    destruct (Spec.first_seen (map (Spec.day_key tzlocal) (s :: samples)));
      [contradiction | discriminate].
Qed.

Lemma daily_min_le_max_witness :
  (Update.daily_forecast Scenario.utc_host Scenario.one_day
   = Some [Scenario.thursday_row "03d"] /\
   Forall (fun r => (temp_min r <= temp_max r)%Q)
          [Scenario.thursday_row "03d"]) /\
  (App.daily_forecast Scenario.utc_host Scenario.one_day
   = Some [Scenario.thursday_row "01n"] /\
   Forall (fun r => (temp_min r <= temp_max r)%Q)
          [Scenario.thursday_row "01n"]) /\
  (Scenario.one_day <> [] /\
   Forall (Spec.in_local_range Scenario.utc_host) Scenario.one_day /\
   exists rows,
     Update.daily_forecast Scenario.utc_host Scenario.one_day = Some rows /\
     rows <> []).
Proof.
  pose proof (daily_min_le_max Scenario.utc_host Scenario.one_day)
    as (Hupdate & Happ & Htotal).
  split; [|split].
  - split; [reflexivity|]. apply Hupdate. reflexivity.
  - split; [reflexivity|]. apply Happ. reflexivity.
  - split; [discriminate|]. split; [repeat constructor|].
    apply Htotal; [discriminate | repeat constructor].
Defined.
(* ===================================================================== *)
(** ** Offset asymmetry, degraded inputs, and the three scripts *)
(* ===================================================================== *)

Lemma slice_to_map {A B : Type} (f : A -> B) (l : list A) (n : Z) :
  slice_to (map f l) n = map f (slice_to l n).
Proof.
  unfold slice_to. rewrite length_map.
  destruct (0 <=? n); apply firstn_map.
Qed.

(** The hourly slice sees a sample only through [dt + offset]. *)
Lemma update_hourly_delay (samples : list ForecastSample) (off w k : Z) :
  Update.hourly_forecast (map (Spec.delay k) samples) (off - k) w
  = Update.hourly_forecast samples off w.
Proof.
  unfold Update.hourly_forecast. rewrite slice_to_map, mapM_map.
  apply mapM_ext. intros s. unfold Update.hourly_item; cbn [Spec.delay dt
    main_temp weather_description weather_icon].
  now replace (dt s + k + (off - k)) with (dt s + off) by lia.
Qed.

(** C5.  In [src/update.py] the key under which a sample is grouped is the
    weekday of its timestamp alone, read on the host clock: the location
    offset does not enter.  The label of the same sample in the hourly slice
    is the weekday and hour of timestamp plus offset, and depends on the two
    only through their sum.  This holds for every list of samples and every
    offset for which the loops return, which they do whenever [datetime]
    can represent the shifted instants of the window and
    [datetime.fromtimestamp] accepts the timestamps on the host. *)
Theorem grouping_key_ignores_offset (tzlocal : Z -> Z)
    (samples : list ForecastSample) (off w : Z) :
  (forall pts,
     Update.hourly_forecast samples off w = Some pts ->
     map hour_label pts
     = map (fun s => strftime (of_seconds (dt s + off)) "%a %I %p")
           (slice_to samples (w / 3))) /\
  (forall rows,
     Update.daily_forecast tzlocal samples = Some rows ->
     map day rows
     = firstn 5 (Spec.first_seen
                   (map (fun s =>
                           strftime (of_seconds (dt s + tzlocal (dt s))) "%a")
                        samples))) /\
  (forall k,
     Update.hourly_forecast (map (Spec.delay k) samples) (off - k) w
     = Update.hourly_forecast samples off w) /\
  (Forall (Spec.in_range off) samples ->
   Forall (Spec.in_local_range tzlocal) samples ->
   exists pts rows,
     Update.hourly_forecast samples off w = Some pts /\
     Update.daily_forecast tzlocal samples = Some rows).
Proof.
  split; [|split; [|split]].
  - intros pts H. apply update_hourly_result in H. subst pts.
    now rewrite map_map.
  - intros rows E. exact (update_daily_days tzlocal _ _ E).
  - intros k. apply update_hourly_delay.
  - intros Hh Hd.
    destruct (update_daily_forecast_total tzlocal samples Hd) as [rows E].
    exists (map (Spec.point "%a %I %p" off) (slice_to samples (w / 3))), rows.
    split; [|exact E].
    apply update_hourly_in_range. now apply Forall_slice_to.
Qed.

Lemma grouping_key_ignores_offset_witness :
  (Update.hourly_forecast [Scenario.late_evening] 3600 24
   = Some [{| hour_label := "Fri 12 AM"; hourly_temp := 19 # 1;
              condition := "Light Rain"; hourly_icon := "01n" |}] /\
   map hour_label
     [{| hour_label := "Fri 12 AM"; hourly_temp := 19 # 1;
         condition := "Light Rain"; hourly_icon := "01n" |}]
   = ["Fri 12 AM"]) /\
  (Update.daily_forecast Scenario.utc_host
     [Scenario.late_evening]
   = Some [{| day := "Thu"; temp_max := 19 # 1; temp_min := 19 # 1;
              day_icon := "01n" |}] /\
   map day
     [{| day := "Thu"; temp_max := 19 # 1; temp_min := 19 # 1;
         day_icon := "01n" |}]
   = ["Thu"]) /\
  (Forall (Spec.in_range 3600) [Scenario.late_evening] /\
   Forall (Spec.in_local_range Scenario.utc_host)
          [Scenario.late_evening] /\
   exists pts rows,
     Update.hourly_forecast [Scenario.late_evening] 3600 24
       = Some pts /\
     Update.daily_forecast Scenario.utc_host
       [Scenario.late_evening] = Some rows).
Proof.
  pose proof (grouping_key_ignores_offset Scenario.utc_host
                [Scenario.late_evening] 3600 24)
    as (Hlabel & Hkey & _ & Htotal).
  split; [|split].
  - split; [reflexivity|]. apply Hlabel. reflexivity.
  - split; [reflexivity|]. apply Hkey. reflexivity.
  - split; [repeat constructor|]. split; [repeat constructor|].
    apply Htotal; repeat constructor.
Defined.

(** C7, as stated, fails: the operations do raise on an input of the data
    model.  For a sample whose timestamp lies beyond year 9999 the
    conversion of the timestamp raises, in the hourly loop and in the
    five-day loop alike, in [src/update.py] and in [src/App.py]. *)
Lemma far_future_sample_raises :
  Update.hourly_forecast [Scenario.far_future] 0 24 = None /\
  App.hourly_forecast [Scenario.far_future] 0 = None /\
  Update.daily_forecast Scenario.utc_host [Scenario.far_future] = None /\
  App.daily_forecast Scenario.utc_host [Scenario.far_future] = None.
Proof. split; [|split; [|split]]; reflexivity. Qed.

(** C7, amended.  An empty list of samples gives an empty hourly slice, for
    every window, and an empty summary.  The window is one the slider
    delivers, a multiple of 3 from 3 to 48, so nothing is rounded: on
    samples whose shifted timestamps [datetime] can represent the slice is
    the first [w / 3] samples, and a slice that is returned is empty only
    when the list is.  The five-day loop returns on samples whose
    timestamps [datetime.fromtimestamp] accepts on the host. *)
Theorem empty_inputs_and_slider_windows (tzlocal : Z -> Z) :
  (forall off w, Update.hourly_forecast [] off w = Some []) /\
  (forall off, App.hourly_forecast [] off = Some []) /\
  Update.daily_forecast tzlocal [] = Some [] /\
  App.daily_forecast tzlocal [] = Some [] /\
  (forall samples off w,
     Spec.slider_window w -> Forall (Spec.in_range off) samples ->
     Update.hourly_forecast samples off w
     = Some (map (Spec.point "%a %I %p" off)
                 (firstn (Z.to_nat (w / 3)) samples))) /\
  (forall samples off w pts,
     Spec.slider_window w ->
     Update.hourly_forecast samples off w = Some pts ->
     (pts = [] <-> samples = [])) /\
  (forall samples,
     Forall (Spec.in_local_range tzlocal) samples ->
     exists rows, Update.daily_forecast tzlocal samples = Some rows).
Proof.
  split; [|split; [|split; [|split; [|split; [|split]]]]];
    try reflexivity.
  - intros off w. unfold Update.hourly_forecast. now rewrite slice_to_nil.
  - intros samples off w [Hw _] H.
    rewrite update_hourly_in_range by now apply Forall_slice_to.
    rewrite slice_to_nonneg; [reflexivity|]. apply Z.div_pos; lia.
  - intros samples off w pts [Hw _] E.
    apply update_hourly_result in E. subst pts.
    assert (D : 1 <= w / 3) by (apply Z.div_le_lower_bound; lia).
    rewrite slice_to_nonneg by lia.
    destruct (Z.to_nat (w / 3)) as [|n] eqn:N; [lia|].
    destruct samples as [|s l]; [tauto|].
    cbn [firstn map]. split; discriminate.
  - apply update_daily_forecast_total.
Qed.

Lemma empty_inputs_and_slider_windows_witness :
  (Spec.slider_window 9 /\ Forall (Spec.in_range 0) Scenario.one_day /\
   Update.hourly_forecast Scenario.one_day 0 9
   = Some (map (Spec.point "%a %I %p" 0) (firstn 3 Scenario.one_day))) /\
  (Spec.slider_window 3 /\
   Update.hourly_forecast [Scenario.two_pm] 0 3
   = Some [Spec.point "%a %I %p" 0 Scenario.two_pm] /\
   ([Spec.point "%a %I %p" 0 Scenario.two_pm] = [] <->
    [Scenario.two_pm] = [])) /\
  (Forall (Spec.in_local_range Scenario.utc_host) Scenario.one_day /\
   exists rows,
     Update.daily_forecast Scenario.utc_host Scenario.one_day = Some rows).
Proof.
  pose proof (empty_inputs_and_slider_windows Scenario.utc_host)
    as (_ & _ & _ & _ & Hwindow & Hempty & Htotal).
  assert (W9 : Spec.slider_window 9) by (split; [lia|reflexivity]).
  assert (W3 : Spec.slider_window 3) by (split; [lia|reflexivity]).
  split; [|split].
  - split; [exact W9|]. split; [repeat constructor|].
    apply (Hwindow Scenario.one_day 0 9); [exact W9 | repeat constructor].
  - split; [exact W3|]. split; [reflexivity|].
    apply (Hempty [Scenario.two_pm] 0 3); [exact W3 | reflexivity].
  - split; [repeat constructor|].
    apply (Htotal Scenario.one_day); repeat constructor.
Defined.

(** The hourly loops of [src/update.py] at 24 hours and of [src/App.py]
    differ in the label only. *)
Lemma update_app_hourly (samples : list ForecastSample) (off : Z) :
  Spec.opt_rel
    (Forall2 (fun u a =>
                Spec.without_label u = Spec.without_label a /\
                hour_label a = lstrip "0" (Spec.drop 4 (hour_label u))))
    (Update.hourly_forecast samples off 24)
    (App.hourly_forecast samples off).
Proof.
  unfold Update.hourly_forecast, App.hourly_forecast.
  change (24 / 3) with 8.
  apply (mapM_sim eq); [|apply Forall2_refl_same; reflexivity].
  intros s ? <-. rewrite update_hourly_item.
  unfold App.hourly_item, fromtimestamp_utc.
  destruct (representable (dt s + off)); cbn [bind Spec.opt_rel]; [|exact I].
  split; [reflexivity|].
  cbn [hour_label Spec.point]. rewrite strftime_a_I_p.
  now rewrite drop_day_abbr by apply strftime_a_cases.
Qed.

(** C1, as stated, fails: on eight samples of one day the hourly labels of
    [src/App.py] and [src/update.py] differ, and so do the icons of their
    summaries. *)
Lemma variants_differ_on_one_day :
  App.hourly_forecast Scenario.one_day 0
    <> Update.hourly_forecast Scenario.one_day 0 24 /\
  App.daily_forecast Scenario.utc_host Scenario.one_day
    <> Update.daily_forecast Scenario.utc_host Scenario.one_day.
Proof. split; vm_compute; discriminate. Qed.

(** C1, amended.  [src/App.py] and [src/new.py] compute the same hourly
    slice and the same summary.  [src/update.py], at a window of 24 hours,
    agrees with them on the temperatures, descriptions and icons of the
    slice and on the day, minimum and maximum of every summary row, in the
    same order; its labels carry the weekday in front of the label the
    others strip, and its summary icon is chosen by distance from noon.
    All three raise on the same inputs. *)
Theorem variants_agree_up_to_label_and_icon (tzlocal : Z -> Z)
    (samples : list ForecastSample) (off : Z) :
  App.hourly_forecast samples off = New.hourly_forecast samples off /\
  App.daily_forecast tzlocal samples = New.daily_forecast tzlocal samples /\
  option_map (map Spec.without_label) (Update.hourly_forecast samples off 24)
  = option_map (map Spec.without_label) (App.hourly_forecast samples off) /\
  Spec.opt_rel
    (Forall2 (fun u a => hour_label a
                         = lstrip "0" (Spec.drop 4 (hour_label u))))
    (Update.hourly_forecast samples off 24)
    (App.hourly_forecast samples off) /\
  option_map (map Spec.without_icon) (Update.daily_forecast tzlocal samples)
  = option_map (map Spec.without_icon) (App.daily_forecast tzlocal samples).
Proof.
  pose proof (update_app_hourly samples off) as H.
  split; [reflexivity|]. split; [apply app_new_daily|].
  split; [|split; [|symmetry; apply app_update_daily]].
  - destruct (Update.hourly_forecast samples off 24) as [u|],
             (App.hourly_forecast samples off) as [a|];
      simpl in *; try contradiction; [|reflexivity].
    f_equal. apply Forall2_map_eq.
    eapply Forall2_impl; [|exact H]. now intros ? ? [? _].
  - destruct (Update.hourly_forecast samples off 24) as [u|],
             (App.hourly_forecast samples off) as [a|];
      simpl in *; try contradiction; [|exact I].
    eapply Forall2_impl; [|exact H]. now intros ? ? [_ ?].
Qed.
(* ===================================================================== *)
(** ** Further properties of the five-day summary *)
(* ===================================================================== *)

Lemma fold_max_is_max (r : list Q) (x : Q) :
  Props.is_max_of (fold_left Qmax r x) (x :: r).
Proof.
  revert x; induction r as [|a r IH]; intros x; simpl.
  - split; [now left | constructor; [apply Qle_refl | constructor]].
  - destruct (IH (Qmax x a)) as [I F]. inversion F as [|? ? Hm Fr]; subst.
    assert (Lx : (x <= Qmax x a)%Q) by apply Q.le_max_l.
    assert (La : (a <= Qmax x a)%Q) by apply Q.le_max_r.
    split.
    + destruct I as [E|I]; [|now right; right].
      rewrite <- E. unfold Qmax, GenericMinMax.gmax.
      destruct (x ?= a)%Q; simpl; auto.
    + constructor; [eapply Qle_trans; eassumption|].
      constructor; [eapply Qle_trans; eassumption | exact Fr].
Qed.

Lemma fold_min_is_min (r : list Q) (x : Q) :
  Props.is_min_of (fold_left Qmin r x) (x :: r).
Proof.
  revert x; induction r as [|a r IH]; intros x; simpl.
  - split; [now left | constructor; [apply Qle_refl | constructor]].
  - destruct (IH (Qmin x a)) as [I F]. inversion F as [|? ? Hm Fr]; subst.
    assert (Lx : (Qmin x a <= x)%Q) by apply Q.le_min_l.
    assert (La : (Qmin x a <= a)%Q) by apply Q.le_min_r.
    split.
    + destruct I as [E|I]; [|now right; right].
      rewrite <- E. unfold Qmin, GenericMinMax.gmin.
      destruct (x ?= a)%Q; simpl; auto.
    + constructor; [eapply Qle_trans; eassumption|].
      constructor; [eapply Qle_trans; eassumption | exact Fr].
Qed.

Lemma np_max_is_max (l : list Q) (mx : Q) :
  np_max l = Some mx -> Props.is_max_of mx l.
Proof.
  destruct l as [|x r]; simpl; [discriminate|].
  intros H; inversion H; subst. apply fold_max_is_max.
Qed.

Lemma np_min_is_min (l : list Q) (mn : Q) :
  np_min l = Some mn -> Props.is_min_of mn l.
Proof.
  destruct l as [|x r]; simpl; [discriminate|].
  intros H; inversion H; subst. apply fold_min_is_min.
Qed.

(** A property of the rows that does not look at the icon passes from the
    summary of [src/update.py] to that of [src/App.py]. *)
Lemma app_rows_from_update (tzlocal : Z -> Z) (samples : list ForecastSample)
    (P : string * Q * Q -> Prop) :
  (forall rows, Update.daily_forecast tzlocal samples = Some rows ->
                Forall (fun r => P (Spec.without_icon r)) rows) ->
  forall rows, App.daily_forecast tzlocal samples = Some rows ->
               Forall (fun r => P (Spec.without_icon r)) rows.
Proof.
  intros H rows E.
  pose proof (app_update_daily tzlocal samples) as S. rewrite E in S.
  destruct (Update.daily_forecast tzlocal samples) as [rows'|];
    simpl in S; [|discriminate].
  inversion S as [S']. specialize (H rows' eq_refl).
  apply Forall_map. rewrite S'. now apply Forall_map.
Qed.

(** X1.  In every summary returned by [src/update.py] or [src/App.py], the
    maximum of a day is one of the temperatures of that day's samples and
    no sample of the day is warmer; likewise the minimum is one of them and
    none is colder. *)
Theorem daily_extremes_attained (tzlocal : Z -> Z)
    (samples : list ForecastSample) :
  (forall rows,
     Update.daily_forecast tzlocal samples = Some rows ->
     Forall (fun r =>
               Props.is_max_of (temp_max r)
                 (map main_temp (Spec.day_group tzlocal (day r) samples)) /\
               Props.is_min_of (temp_min r)
                 (map main_temp (Spec.day_group tzlocal (day r) samples)))
            rows) /\
  (forall rows,
     App.daily_forecast tzlocal samples = Some rows ->
     Forall (fun r =>
               Props.is_max_of (temp_max r)
                 (map main_temp (Spec.day_group tzlocal (day r) samples)) /\
               Props.is_min_of (temp_min r)
                 (map main_temp (Spec.day_group tzlocal (day r) samples)))
            rows).
Proof.
  assert (U : forall rows,
     Update.daily_forecast tzlocal samples = Some rows ->
     Forall (fun r =>
               Props.is_max_of (temp_max r)
                 (map main_temp (Spec.day_group tzlocal (day r) samples)) /\
               Props.is_min_of (temp_min r)
                 (map main_temp (Spec.day_group tzlocal (day r) samples)))
            rows).
  { intros rows E. apply Forall_forall; intros r I.
    destruct (update_daily_rows tzlocal samples rows r E I)
      as (e & (Ht & _) & _ & Hx & Hn).
    rewrite <- Ht. split; [now apply np_max_is_max | now apply np_min_is_min]. }
  split; [exact U|].
  exact (app_rows_from_update tzlocal samples
           (fun t =>
              Props.is_max_of (snd (fst t))
                (map main_temp (Spec.day_group tzlocal (fst (fst t)) samples))
              /\ Props.is_min_of (snd t)
                (map main_temp (Spec.day_group tzlocal (fst (fst t)) samples)))
           U).
Qed.

Lemma daily_extremes_attained_witness :
  (Update.daily_forecast Scenario.utc_host Scenario.one_day
   = Some [Scenario.thursday_row "03d"] /\
   Forall (fun r =>
             Props.is_max_of (temp_max r)
               (map main_temp
                  (Spec.day_group Scenario.utc_host (day r) Scenario.one_day))
             /\
             Props.is_min_of (temp_min r)
               (map main_temp
                  (Spec.day_group Scenario.utc_host (day r) Scenario.one_day)))
          [Scenario.thursday_row "03d"]) /\
  (App.daily_forecast Scenario.utc_host Scenario.one_day
   = Some [Scenario.thursday_row "01n"] /\
   Forall (fun r =>
             Props.is_max_of (temp_max r)
               (map main_temp
                  (Spec.day_group Scenario.utc_host (day r) Scenario.one_day))
             /\
             Props.is_min_of (temp_min r)
               (map main_temp
                  (Spec.day_group Scenario.utc_host (day r) Scenario.one_day)))
          [Scenario.thursday_row "01n"]).
Proof.
  pose proof (daily_extremes_attained Scenario.utc_host Scenario.one_day)
    as [Hupdate Happ].
  split.
  - split; [reflexivity|]. apply Hupdate. reflexivity.
  - split; [reflexivity|]. apply Happ. reflexivity.
Defined.
Section AppDaily.
Variable tzlocal : Z -> Z.

Local Abbreviation day_key := (Spec.day_key tzlocal).
Local Abbreviation day_group := (Spec.day_group tzlocal).

(** One iteration of Step 6 of [src/App.py], in closed form. *)
Lemma app_daily_step (acc : list (string * App.DayData))
    (item : ForecastSample) :
  App.daily_step tzlocal acc item
  = if host_range tzlocal (dt item)
    then
      let data :=
        match dict_get String.eqb acc (day_key item) with
        | Some data => data
        | None => {| App.temps := []; App.icon := weather_icon item |}
        end in
      Some (dict_set String.eqb
              (if dict_contains String.eqb acc (day_key item) then acc
               else dict_set String.eqb acc (day_key item) data)
              (day_key item)
              {| App.temps := App.temps data ++ [main_temp item];
                 App.icon := App.icon data |})
    else None.
Proof.
  unfold App.daily_step. rewrite fromtimestamp_host_range.
  destruct (host_range tzlocal (dt item)); [|reflexivity].
  cbn [bind].
  change (of_seconds (dt item + tzlocal (dt item)))
    with (Spec.local_datetime tzlocal item).
  fold (day_key item).
  unfold dict_contains.
  destruct (dict_get String.eqb acc (day_key item)) as [data|] eqn:G.
  - rewrite G; reflexivity.
  - rewrite (dict_get_set_eq String.eqb String.eqb_spec); reflexivity.
Qed.

Lemma app_daily_step_inv (p : list ForecastSample)
    (acc acc' : list (string * App.DayData)) (item : ForecastSample) :
  Props.app_daily_inv tzlocal p acc ->
  App.daily_step tzlocal acc item = Some acc' ->
  Props.app_daily_inv tzlocal (p ++ [item]) acc'.
Proof.
  intros [Hkeys Hent] H. rewrite app_daily_step in H.
  destruct (host_range tzlocal (dt item)); [|discriminate].
  cbv zeta in H. inversion H; subst acc'; clear H.
  set (k := day_key item) in *.
  assert (Hin : dict_contains String.eqb acc k = true
                <-> In k (map day_key p)).
  { rewrite <- first_seen_In, <- Hkeys.
    apply (dict_contains_keys String.eqb String.eqb_spec). }
  split.
  - rewrite map_app; cbn [map]; fold k.
    rewrite (dict_keys_set String.eqb String.eqb_spec).
    destruct (dict_contains String.eqb acc k) eqn:C.
    + rewrite C. rewrite first_seen_snoc_old; [exact Hkeys | now apply Hin].
    + rewrite (dict_contains_set String.eqb String.eqb_spec).
      rewrite (dict_keys_set String.eqb String.eqb_spec), C.
      rewrite first_seen_snoc_new; [now rewrite Hkeys|].
      intros I. apply Hin in I. discriminate.
  - intros k' e G.
    destruct (string_dec k k') as [E|N].
    + subst k'. rewrite (dict_get_set_eq String.eqb String.eqb_spec) in G.
      inversion G; subst e; clear G.
      unfold Props.app_entry_ok. rewrite day_group_snoc. fold k.
      rewrite String.eqb_refl. cbn [App.temps App.icon].
      destruct (dict_get String.eqb acc k) as [data|] eqn:G.
      * destruct (Hent _ _ G) as [Ht (s0 & rest & Hg & Hi)].
        split; [now rewrite Ht, map_app|].
        exists s0, (rest ++ [item]). rewrite Hg. split; [reflexivity | exact Hi].
      * assert (A : ~ In k (map day_key p)).
        { intros I. apply Hin in I. unfold dict_contains in I.
          rewrite G in I. discriminate. }
        rewrite (day_group_absent _ _ _ A). split; [reflexivity|].
        exists item, []. split; reflexivity.
    + rewrite (dict_get_set_ne String.eqb String.eqb_spec) in G by exact N.
      assert (G' : dict_get String.eqb acc k' = Some e).
      { destruct (dict_contains String.eqb acc k); [exact G|].
        now rewrite (dict_get_set_ne String.eqb String.eqb_spec) in G. }
      unfold Props.app_entry_ok. rewrite day_group_snoc. fold k.
      destruct (String.eqb_spec k k') as [E|_]; [contradiction|].
      rewrite app_nil_r. now apply Hent.
Qed.

Lemma app_daily_fold_inv (l p : list ForecastSample)
    (acc acc' : list (string * App.DayData)) :
  Props.app_daily_inv tzlocal p acc ->
  foldM (App.daily_step tzlocal) l acc = Some acc' ->
  Props.app_daily_inv tzlocal (p ++ l) acc'.
Proof.
  revert p acc; induction l as [|item l IH]; intros p acc Inv H; simpl in H.
  - inversion H; subst. now rewrite app_nil_r.
  - destruct (App.daily_step tzlocal acc item) as [acc1|] eqn:S;
      [|discriminate].
    cbn [bind] in H.
    replace (p ++ item :: l) with ((p ++ [item]) ++ l)
      by now rewrite <- app_assoc.
    eapply IH; [|exact H]. eapply app_daily_step_inv; eassumption.
Qed.
End AppDaily.

(** X2.  In every summary returned by [src/App.py] or [src/new.py] the icon
    of a day is the icon of the first sample of that day, in input order. *)
Theorem app_icon_first_of_day (tzlocal : Z -> Z)
    (samples : list ForecastSample) :
  (forall rows,
     App.daily_forecast tzlocal samples = Some rows ->
     Forall (fun r =>
               exists s0 rest,
                 Spec.day_group tzlocal (day r) samples = s0 :: rest /\
                 day_icon r = weather_icon s0) rows) /\
  (forall rows,
     New.daily_forecast tzlocal samples = Some rows ->
     Forall (fun r =>
               exists s0 rest,
                 Spec.day_group tzlocal (day r) samples = s0 :: rest /\
                 day_icon r = weather_icon s0) rows).
Proof.
  assert (A : forall rows,
     App.daily_forecast tzlocal samples = Some rows ->
     Forall (fun r =>
               exists s0 rest,
                 Spec.day_group tzlocal (day r) samples = s0 :: rest /\
                 day_icon r = weather_icon s0) rows).
  { intros rows E. unfold App.daily_forecast, App.daily_data in E.
    destruct (foldM (App.daily_step tzlocal) samples []) as [dd|] eqn:F;
      cbn [bind] in E; [|discriminate].
    assert (Inv : Props.app_daily_inv tzlocal samples dd).
    { apply (app_daily_fold_inv tzlocal samples [] [] dd); [|exact F].
      split; [reflexivity | intros k e H; discriminate]. }
    apply mapM_Forall2 in E. change (slice_to dd 5) with (firstn 5 dd) in E.
    apply Forall_forall; intros r I.
    destruct (Forall2_In_r _ _ _ _ E I) as ([k e] & Ie & Hr).
    unfold App.daily_row in Hr.
    destruct (np_max (App.temps e)); cbn [bind] in Hr; [|discriminate].
    destruct (np_min (App.temps e)); cbn [bind] in Hr; [|discriminate].
    inversion Hr; subst r; cbn [day day_icon].
    destruct Inv as [Hkeys Hent].
    destruct (Hent k e) as [_ (s0 & rest & Hg & Hi)]; [|eauto].
    apply (dict_get_of_In String.eqb String.eqb_spec).
    - rewrite Hkeys. apply first_seen_NoDup.
    - rewrite <- (firstn_skipn 5 dd). apply in_or_app; now left. }
  split; [exact A|].
  intros rows E. apply A. now rewrite app_new_daily.
Qed.

Lemma app_icon_first_of_day_witness :
  (App.daily_forecast Scenario.utc_host Scenario.one_day
   = Some [Scenario.thursday_row "01n"] /\
   Forall (fun r =>
             exists s0 rest,
               Spec.day_group Scenario.utc_host (day r) Scenario.one_day
               = s0 :: rest /\
               day_icon r = weather_icon s0)
          [Scenario.thursday_row "01n"]) /\
  (New.daily_forecast Scenario.utc_host Scenario.one_day
   = Some [Scenario.thursday_row "01n"] /\
   Forall (fun r =>
             exists s0 rest,
               Spec.day_group Scenario.utc_host (day r) Scenario.one_day
               = s0 :: rest /\
               day_icon r = weather_icon s0)
          [Scenario.thursday_row "01n"]).
Proof.
  pose proof (app_icon_first_of_day Scenario.utc_host Scenario.one_day)
    as [Happ Hnew].
  split.
  - split; [reflexivity|]. apply Happ. reflexivity.
  - split; [reflexivity|]. apply Hnew. reflexivity.
Defined.
Lemma weekday_week_later (ts n : Z) :
  weekday (of_seconds (ts + Props.week * n)) = weekday (of_seconds ts).
Proof.
  unfold Props.week, of_seconds; cbn [weekday].
  replace (ts + 604800 * n) with (ts + (7 * n) * 86400) by lia.
  rewrite Z.div_add by lia.
  replace (ts / 86400 + 7 * n + 3) with (ts / 86400 + 3 + n * 7) by lia.
  now rewrite Z.mod_add by lia.
Qed.

Lemma day_key_week_later (tzlocal : Z -> Z) (s : ForecastSample) (n : Z) :
  tzlocal (dt s + Props.week * n) = tzlocal (dt s) ->
  Spec.day_key tzlocal (Spec.delay (Props.week * n) s)
  = Spec.day_key tzlocal s.
Proof.
  intros T. unfold Spec.day_key, Spec.local_datetime.
  cbn [Spec.delay dt]. rewrite T, !strftime_a.
  unfold directive; cbn [Ascii.eqb Bool.eqb].
  replace (dt s + Props.week * n + tzlocal (dt s))
    with (dt s + tzlocal (dt s) + Props.week * n) by lia.
  now rewrite weekday_week_later.
Qed.

(** X3.  [daily_data] of [src/update.py] is keyed by weekday name: its keys
    are distinct names among Mon..Sun, so there are at most seven buckets,
    and two samples a whole number of weeks apart fall into the same bucket
    and give one summary row. *)
Theorem daily_buckets_by_weekday (tzlocal : Z -> Z) :
  (forall samples dd,
     Update.daily_data tzlocal samples = Some dd ->
     NoDup (map fst dd) /\ incl (map fst dd) day_abbr /\
     (List.length dd <= 7)%nat) /\
  (forall s n,
     tzlocal (dt s + Props.week * n) = tzlocal (dt s) ->
     Spec.in_local_range tzlocal s ->
     Spec.in_local_range tzlocal (Spec.delay (Props.week * n) s) ->
     exists r,
       Update.daily_forecast tzlocal [s; Spec.delay (Props.week * n) s]
       = Some [r]).
Proof.
  split.
  - intros samples dd E.
    assert (Inv : Spec.daily_inv tzlocal samples dd)
      by (apply (update_daily_fold_inv tzlocal samples [] [] dd);
          [apply daily_inv_nil | exact E]).
    destruct Inv as [Hkeys _].
    assert (ND : NoDup (map fst dd))
      by (rewrite Hkeys; apply first_seen_NoDup).
    assert (IN : incl (map fst dd) day_abbr).
    { intros k I. rewrite Hkeys, first_seen_In in I.
      apply in_map_iff in I. destruct I as (s & <- & _).
      apply strftime_a_cases. }
    split; [exact ND|]. split; [exact IN|].
    rewrite <- (length_map fst).
    exact (NoDup_incl_length ND IN).
  - intros s n T R1 R2.
    destruct (update_daily_forecast_total tzlocal
                [s; Spec.delay (Props.week * n) s]) as [rows E];
      [now repeat constructor|].
    pose proof (update_daily_days tzlocal _ _ E) as D.
    cbn [map] in D. rewrite (day_key_week_later tzlocal s n T) in D.
    change [Spec.day_key tzlocal s; Spec.day_key tzlocal s]
      with ([Spec.day_key tzlocal s] ++ [Spec.day_key tzlocal s]) in D.
    rewrite first_seen_snoc_old in D by now left.
    cbn in D.
    destruct rows as [|r [|r' rows]]; try discriminate.
    now exists r.
Qed.

Lemma daily_buckets_by_weekday_witness :
  (Update.daily_data Scenario.utc_host Scenario.one_day
   = Some Cases.thursday_bucket /\
   NoDup (map fst Cases.thursday_bucket) /\
   incl (map fst Cases.thursday_bucket) day_abbr /\
   (List.length Cases.thursday_bucket <= 7)%nat) /\
  (Spec.in_local_range Scenario.utc_host Scenario.two_pm /\
   Spec.in_local_range Scenario.utc_host
     (Spec.delay (Props.week * 1) Scenario.two_pm) /\
   exists r,
     Update.daily_forecast Scenario.utc_host Cases.two_weeks = Some [r]).
Proof.
  pose proof (daily_buckets_by_weekday Scenario.utc_host) as [Hkeys Hweek].
  split.
  - split; [reflexivity|].
    apply (Hkeys Scenario.one_day). reflexivity.
  - split; [reflexivity|]. split; [reflexivity|].
    apply (Hweek Scenario.two_pm 1); reflexivity.
Defined.

Lemma all_temps_set_new (d : list (string * Update.DayData)) (k : string)
    (e : Update.DayData) :
  dict_contains String.eqb d k = false ->
  Props.all_temps (dict_set String.eqb d k e)
  = Props.all_temps d ++ Update.temps e.
Proof.
  unfold dict_contains, Props.all_temps.
  induction d as [|[k' e'] d IH]; simpl; intros H.
  - now rewrite app_nil_r.
  - destruct (String.eqb k' k); [discriminate|]. simpl.
    now rewrite IH, app_assoc.
Qed.

Lemma all_temps_set_old (d : list (string * Update.DayData)) (k : string)
    (e0 e : Update.DayData) (t : Q) :
  dict_get String.eqb d k = Some e0 ->
  Update.temps e = Update.temps e0 ++ [t] ->
  Permutation (Props.all_temps (dict_set String.eqb d k e))
              (Props.all_temps d ++ [t]).
Proof.
  unfold Props.all_temps.
  induction d as [|[k' e'] d IH]; simpl; intros G T; [discriminate|].
  destruct (String.eqb k' k).
  - inversion G; subst e'. simpl. rewrite T, <- !app_assoc.
    apply Permutation_app_head. apply Permutation_app_comm.
  - simpl. rewrite <- app_assoc. apply Permutation_app_head. now apply IH.
Qed.

Lemma bucket_after_temps (tzlocal : Z -> Z) (data : Update.DayData)
    (item : ForecastSample) :
  Update.temps (Spec.bucket_after tzlocal data item)
  = Update.temps data ++ [main_temp item].
Proof.
  unfold Spec.bucket_after.
  now destruct (Spec.noon_distance tzlocal item <? Update.noon_diff data).
Qed.

Lemma update_daily_step_temps (tzlocal : Z -> Z)
    (acc acc' : list (string * Update.DayData)) (item : ForecastSample) :
  Update.daily_step tzlocal acc item = Some acc' ->
  Permutation (Props.all_temps acc') (Props.all_temps acc ++ [main_temp item]).
Proof.
  rewrite update_daily_step.
  destruct (host_range tzlocal (dt item)); [|discriminate].
  intros H; inversion H; subst acc'; clear H.
  set (k := Spec.day_key tzlocal item).
  destruct (dict_get String.eqb acc k) as [data|] eqn:G.
  - assert (B : Spec.bucket_before tzlocal acc item = data)
      by (unfold Spec.bucket_before; fold k; now rewrite G).
    unfold dict_contains; rewrite G, B.
    apply (all_temps_set_old _ _ data); [exact G | apply bucket_after_temps].
  - set (init := {| Update.temps := []; Update.icon := weather_icon item;
                    Update.noon_diff := 24 |}).
    assert (B : Spec.bucket_before tzlocal acc item = init)
      by (unfold Spec.bucket_before; fold k; now rewrite G).
    unfold dict_contains; rewrite G, B.
    eapply Permutation_trans.
    + apply (all_temps_set_old _ _ init);
        [apply (dict_get_set_eq String.eqb String.eqb_spec)
        | apply bucket_after_temps].
    + rewrite all_temps_set_new
        by (unfold dict_contains; now rewrite G).
      simpl. now rewrite app_nil_r.
Qed.

Lemma update_daily_fold_temps (tzlocal : Z -> Z) (l : list ForecastSample)
    (acc acc' : list (string * Update.DayData)) :
  foldM (Update.daily_step tzlocal) l acc = Some acc' ->
  Permutation (Props.all_temps acc') (Props.all_temps acc ++ map main_temp l).
Proof.
  revert acc; induction l as [|item l IH]; intros acc H; simpl in H.
  - inversion H; subst. now rewrite app_nil_r.
  - destruct (Update.daily_step tzlocal acc item) as [acc1|] eqn:S;
      [|discriminate].
    cbn [bind] in H. apply IH in H. apply update_daily_step_temps in S.
    eapply Permutation_trans; [exact H|].
    cbn [map].
    replace (Props.all_temps acc ++ main_temp item :: map main_temp l)
      with ((Props.all_temps acc ++ [main_temp item]) ++ map main_temp l)
      by now rewrite <- app_assoc.
    now apply Permutation_app_tail.
Qed.

(** X4.  Before its truncation to five days, [daily_data] of
    [src/update.py] holds the temperature of every sample exactly once: its
    buckets together are a rearrangement of the temperatures of the input,
    so no sample is lost or counted twice. *)
Theorem daily_data_keeps_every_sample (tzlocal : Z -> Z)
    (samples : list ForecastSample) (dd : list (string * Update.DayData)) :
  Update.daily_data tzlocal samples = Some dd ->
  Permutation (Props.all_temps dd) (map main_temp samples) /\
  List.length (Props.all_temps dd) = List.length samples.
Proof.
  intros E. apply update_daily_fold_temps in E. simpl in E.
  split; [exact E|].
  rewrite (Permutation_length E). apply length_map.
Qed.

Lemma daily_data_keeps_every_sample_witness :
  Update.daily_data Scenario.utc_host Cases.three_samples
  = Some Cases.three_bucket /\
  Permutation (Props.all_temps Cases.three_bucket)
              (map main_temp Cases.three_samples) /\
  List.length (Props.all_temps Cases.three_bucket)
  = List.length Cases.three_samples.
Proof.
  split; [reflexivity|].
  apply (daily_data_keeps_every_sample Scenario.utc_host
           Cases.three_samples Cases.three_bucket).
  reflexivity.
Defined.
(* ===================================================================== *)
(** ** When the loops raise *)
(* ===================================================================== *)

Lemma Forall_or_Exists_bool {A : Type} (f : A -> bool) (l : list A) :
  Forall (fun s => f s = true) l \/ Exists (fun s => f s = false) l.
Proof.
  induction l as [|s l [IH|IH]].
  - left; constructor.
  - destruct (f s) eqn:R.
    + left; now constructor.
    + right; now constructor.
  - right; now constructor 2.
Qed.

Lemma representable_cases (P : ForecastSample -> Z) (l : list ForecastSample) :
  Forall (fun s => representable (P s) = true) l \/
  Exists (fun s => representable (P s) = false) l.
Proof. apply (Forall_or_Exists_bool (fun s => representable (P s))). Qed.

Lemma out_of_local_range_fixed (off : Z) (s : ForecastSample) :
  Props.out_of_local_range (fun _ => off) s <->
  dt s + off < min_timestamp + 86400 \/ max_timestamp < dt s + off.
Proof.
  unfold Props.out_of_local_range.
  pose proof (host_range_fixed off (dt s)) as H.
  destruct (host_range (fun _ => off) (dt s)).
  - split; [discriminate|]. intros O.
    assert (R : min_timestamp + 86400 <= dt s + off <= max_timestamp)
      by now apply H.
    lia.
  - split; [|reflexivity]. intros _.
    destruct (Z.lt_ge_cases (dt s + off) (min_timestamp + 86400)) as [L|L];
      [now left|].
    destruct (Z.lt_ge_cases max_timestamp (dt s + off)) as [G|G];
      [now right|].
    assert (T : false = true) by (apply H; lia). discriminate.
Qed.

Lemma update_daily_fold_raises (tzlocal : Z -> Z) (l : list ForecastSample)
    (acc : list (string * Update.DayData)) :
  Exists (Props.out_of_local_range tzlocal) l ->
  foldM (Update.daily_step tzlocal) l acc = None.
Proof.
  intros H; revert acc; induction H as [s l Hs|s l _ IH]; intros acc; simpl.
  - rewrite update_daily_step. unfold Props.out_of_local_range in Hs.
    now rewrite Hs.
  - destruct (Update.daily_step tzlocal acc s); cbn [bind]; auto.
Qed.

(** X5.  The five-day loop inspects every sample: in all three scripts it
    raises exactly when [datetime.fromtimestamp] rejects the timestamp of
    some sample, wherever in the list, that is when the wall clock of the
    host at that instant, or at the instant one day earlier that the
    conversion also reads, is outside years 1..9999.  On a host at a fixed
    offset from UTC these are the samples whose wall-clock time is before
    0001-01-02T00:00:00 or after 9999-12-31T23:59:59. *)
Theorem daily_raises_exactly (tzlocal : Z -> Z)
    (samples : list ForecastSample) :
  (Update.daily_forecast tzlocal samples = None <->
   Exists (Props.out_of_local_range tzlocal) samples) /\
  (App.daily_forecast tzlocal samples = None <->
   Exists (Props.out_of_local_range tzlocal) samples) /\
  (New.daily_forecast tzlocal samples = None <->
   Exists (Props.out_of_local_range tzlocal) samples) /\
  (forall off s,
     Props.out_of_local_range (fun _ => off) s <->
     dt s + off < -62135510400 \/ 253402300799 < dt s + off).
Proof.
  assert (U : Update.daily_forecast tzlocal samples = None <->
              Exists (Props.out_of_local_range tzlocal) samples).
  { split.
    - intros N.
      destruct (Forall_or_Exists_bool
                  (fun s => host_range tzlocal (dt s)) samples)
        as [F|E]; [|exact E].
      destruct (update_daily_forecast_total tzlocal samples F) as [rows E].
      congruence.
    - intros E. unfold Update.daily_forecast, Update.daily_data.
      now rewrite update_daily_fold_raises. }
  assert (A : App.daily_forecast tzlocal samples = None <->
              Update.daily_forecast tzlocal samples = None).
  { pose proof (app_update_daily tzlocal samples) as S.
    destruct (App.daily_forecast tzlocal samples),
             (Update.daily_forecast tzlocal samples);
      simpl in S; try discriminate; split; auto; discriminate. }
  split; [exact U|]. split; [now rewrite A|].
  split; [rewrite <- app_new_daily; now rewrite A|].
  intros off s. apply out_of_local_range_fixed.
Qed.

Lemma daily_raises_exactly_witness :
  (Exists (Props.out_of_local_range Scenario.utc_host)
          (Scenario.daily_midnights 10 0 ++ [Scenario.far_future]) /\
   Update.daily_forecast Scenario.utc_host
     (Scenario.daily_midnights 10 0 ++ [Scenario.far_future]) = None) /\
  (dt Scenario.year_one + 0 < -62135510400 /\
   Props.out_of_local_range Scenario.utc_host Scenario.year_one /\
   App.daily_forecast Scenario.utc_host
     (Scenario.year_one :: Scenario.one_day) = None).
Proof.
  assert (E : Exists (Props.out_of_local_range Scenario.utc_host)
                (Scenario.daily_midnights 10 0 ++ [Scenario.far_future])).
  { apply Exists_app; right. constructor. reflexivity. }
  assert (L : dt Scenario.year_one + 0 < -62135510400)
    by (vm_compute; reflexivity).
  assert (O : Props.out_of_local_range Scenario.utc_host Scenario.year_one).
  { destruct (daily_raises_exactly Scenario.utc_host []) as (_ & _ & _ & H).
    apply (H 0 Scenario.year_one). left. exact L. }
  split.
  - split; [exact E|].
    apply (proj1 (daily_raises_exactly Scenario.utc_host
                    (Scenario.daily_midnights 10 0
                     ++ [Scenario.far_future]))).
    exact E.
  - split; [exact L|]. split; [exact O|].
    destruct (daily_raises_exactly Scenario.utc_host
                (Scenario.year_one :: Scenario.one_day))
      as (_ & Happ & _).
    apply Happ. constructor. exact O.
Defined.

Lemma update_hourly_raises (off : Z) (l : list ForecastSample) :
  Exists (Props.out_of_range off) l ->
  mapM (Update.hourly_item off) l = None.
Proof.
  induction 1 as [s l Hs|s l _ IH]; simpl.
  - rewrite update_hourly_item. unfold Props.out_of_range in Hs.
    now rewrite Hs.
  - destruct (Update.hourly_item off s); cbn [bind]; [|reflexivity].
    now rewrite IH.
Qed.

Lemma app_hourly_item (off : Z) (s : ForecastSample) :
  App.hourly_item off s
  = if representable (dt s + off)
    then Some {| hour_label :=
                   lstrip "0" (strftime (of_seconds (dt s + off)) "%I %p");
                 hourly_temp := main_temp s;
                 condition := title (weather_description s);
                 hourly_icon := weather_icon s |}
    else None.
Proof.
  unfold App.hourly_item, fromtimestamp_utc.
  now destruct (representable (dt s + off)).
Qed.

Lemma update_hourly_none_iff (samples : list ForecastSample) (off w : Z) :
  Update.hourly_forecast samples off w = None <->
  Exists (Props.out_of_range off) (slice_to samples (w / 3)).
Proof.
  split.
  - intros N.
    destruct (representable_cases (fun s => dt s + off)
                (slice_to samples (w / 3))) as [F|E]; [|exact E].
    rewrite (update_hourly_in_range samples off w F) in N. discriminate.
  - intros E. now apply update_hourly_raises.
Qed.

(** X6.  The hourly loop looks at the samples of its window only: it raises
    exactly when the timestamp of one of the first [hours_to_show // 3]
    samples, shifted by the offset, is outside what [datetime] can
    represent, and two lists that agree on the window give the same result.
    In [src/App.py] the window is the first eight samples. *)
Theorem hourly_raises_exactly (samples : list ForecastSample) (off w : Z) :
  (Update.hourly_forecast samples off w = None <->
   Exists (Props.out_of_range off) (slice_to samples (w / 3))) /\
  (App.hourly_forecast samples off = None <->
   Exists (Props.out_of_range off) (firstn 8 samples)) /\
  (forall samples',
     0 <= w ->
     firstn (Z.to_nat (w / 3)) samples' = firstn (Z.to_nat (w / 3)) samples ->
     Update.hourly_forecast samples' off w
     = Update.hourly_forecast samples off w).
Proof.
  split; [|split].
  - apply update_hourly_none_iff.
  - pose proof (update_app_hourly samples off) as S.
    assert (A : App.hourly_forecast samples off = None <->
                Update.hourly_forecast samples off 24 = None).
    { destruct (Update.hourly_forecast samples off 24),
               (App.hourly_forecast samples off);
        simpl in S; try contradiction; split; auto; discriminate. }
    rewrite A. split.
    + intros N.
      destruct (representable_cases (fun s => dt s + off) (firstn 8 samples))
        as [F|E]; [|exact E].
      rewrite (update_hourly_in_range samples off 24 F) in N. discriminate.
    + intros E. now apply update_hourly_raises.
  - intros samples' Hw E. unfold Update.hourly_forecast.
    rewrite !slice_to_nonneg by (apply Z.div_pos; lia). now rewrite E.
Qed.

Lemma hourly_raises_exactly_witness :
  (Exists (Props.out_of_range 0)
          (slice_to (Scenario.far_future :: Scenario.one_day) (9 / 3)) /\
   Update.hourly_forecast (Scenario.far_future :: Scenario.one_day) 0 9
   = None) /\
  (0 <= 24 /\
   firstn (Z.to_nat (24 / 3)) (Scenario.one_day ++ [Scenario.far_future])
   = firstn (Z.to_nat (24 / 3)) Scenario.one_day /\
   Update.hourly_forecast (Scenario.one_day ++ [Scenario.far_future]) 0 24
   = Update.hourly_forecast Scenario.one_day 0 24).
Proof.
  assert (E : Exists (Props.out_of_range 0)
                (slice_to (Scenario.far_future :: Scenario.one_day) (9 / 3)))
    by (constructor; reflexivity).
  split.
  - split; [exact E|].
    apply (proj1 (hourly_raises_exactly
                    (Scenario.far_future :: Scenario.one_day) 0 9)).
    exact E.
  - split; [lia|]. split; [reflexivity|].
    apply (proj2 (proj2 (hourly_raises_exactly Scenario.one_day 0 24)));
      [lia | reflexivity].
Defined.

Lemma firstn_prefix {A : Type} (n m : nat) (l : list A) :
  (n <= m)%nat -> Spec.prefix_of (firstn n l) (firstn m l).
Proof.
  revert m l; induction n as [|n IH]; intros m l L.
  - now exists (firstn m l).
  - destruct m as [|m]; [lia|]. destruct l as [|a l].
    + now exists [].
    + destruct (IH m l) as [rest R]; [lia|].
      exists rest. cbn [firstn]. now rewrite R.
Qed.

(** X7.  Widening the window of [src/update.py] only appends points: for
    [0 <= w1 <= w2], if the loop returns for [w2] it returns for [w1] too,
    and the points of [w1] are an initial segment of those of [w2]. *)
Theorem hourly_window_monotone (samples : list ForecastSample)
    (off w1 w2 : Z) (pts2 : list HourlyPoint) :
  0 <= w1 <= w2 ->
  Update.hourly_forecast samples off w2 = Some pts2 ->
  exists pts1,
    Update.hourly_forecast samples off w1 = Some pts1 /\
    Spec.prefix_of pts1 pts2.
Proof.
  intros Hw E2.
  assert (D : 0 <= w1 / 3 <= w2 / 3)
    by (split; [apply Z.div_pos; lia | apply Z.div_le_mono; lia]).
  destruct (firstn_prefix (Z.to_nat (w1 / 3)) (Z.to_nat (w2 / 3)) samples)
    as [rest R]; [lia|].
  destruct (Update.hourly_forecast samples off w1) as [pts1|] eqn:E1.
  - exists pts1; split; [reflexivity|].
    apply update_hourly_result in E1. apply update_hourly_result in E2.
    rewrite slice_to_nonneg in E1, E2 by lia.
    subst pts1 pts2. rewrite R, map_app. now eexists.
  - exfalso.
    apply (proj1 (update_hourly_none_iff samples off w1)) in E1.
    assert (E : Exists (Props.out_of_range off) (slice_to samples (w2 / 3))).
    { rewrite slice_to_nonneg in * by lia. rewrite R.
      apply Exists_app; now left. }
    apply (proj2 (update_hourly_none_iff samples off w2)) in E. congruence.
Qed.

Lemma hourly_window_monotone_witness :
  0 <= 9 <= 24 /\
  Update.hourly_forecast Scenario.one_day 0 24
  = Some (map (Spec.point "%a %I %p" 0) Scenario.one_day) /\
  exists pts1,
    Update.hourly_forecast Scenario.one_day 0 9 = Some pts1 /\
    Spec.prefix_of pts1 (map (Spec.point "%a %I %p" 0) Scenario.one_day).
Proof.
  split; [lia|]. split; [reflexivity|].
  apply (hourly_window_monotone Scenario.one_day 0 9 24); [lia | reflexivity].
Defined.
(* ===================================================================== *)
(** ** Clock labels, local time and the offset display *)
(* ===================================================================== *)

(** A boolean property checked on [0 .. hi - 1] holds on that range. *)
Lemma Z_range_check (P : Z -> bool) (hi : nat) (n : Z) :
  forallb P (map Z.of_nat (seq 0 hi)) = true ->
  0 <= n < Z.of_nat hi -> P n = true.
Proof.
  intros F H. rewrite forallb_forall in F. apply F.
  apply in_map_iff. exists (Z.to_nat n). split; [lia|].
  apply in_seq. lia.
Qed.

Lemma string_length_append (a b : string) :
  String.length (a ++ b) = (String.length a + String.length b)%nat.
Proof. induction a as [|c a IH]; simpl; [reflexivity | now rewrite IH]. Qed.

Lemma format_02d_length (n : Z) :
  0 <= n < 100 -> String.length (format_02d n) = 2%nat.
Proof.
  intros H. apply Nat.eqb_eq.
  apply (Z_range_check (fun n => String.length (format_02d n) =? 2)%nat 100);
    [vm_compute; reflexivity | lia].
Qed.

(** The format of [src/App.py] reads the hour of the day only. *)
Lemma strftime_I_p (d : datetime) :
  strftime d "%I %p"
  = String.append
      (format_02d (if hour d mod 12 =? 0 then 12 else hour d mod 12))
      (String " " (String.append (if hour d <? 12 then "AM" else "PM") "")).
Proof. reflexivity. Qed.

Lemma app_label_clock (ts : Z) :
  lstrip "0" (strftime (of_seconds ts) "%I %p")
  = Props.clock_label (hour (of_seconds ts)).
Proof.
  rewrite strftime_I_p.
  pose proof (hour_bounds ts) as B.
  remember (hour (of_seconds ts)) as h eqn:E; clear E.
  apply String.eqb_eq.
  apply (Z_range_check
           (fun h =>
              String.eqb
                (lstrip "0"
                   (String.append
                      (format_02d (if h mod 12 =? 0 then 12 else h mod 12))
                      (String " "
                         (String.append (if h <? 12 then "AM" else "PM")
                                        ""))))
                (Props.clock_label h)) 24);
    [vm_compute; reflexivity | lia].
Qed.

Lemma clock_label_no_zero (h : Z) :
  0 <= h < 24 ->
  exists c r, Props.clock_label h = String c r /\ c <> "0"%char.
Proof.
  intros H.
  pose proof (Z_range_check
                (fun h => match Props.clock_label h with
                          | String c _ => negb (Ascii.eqb c "0")
                          | EmptyString => false
                          end) 24 h) as C.
  cbv beta in C. specialize (C ltac:(vm_compute; reflexivity) ltac:(lia)). destruct (Props.clock_label h) as [|c r]; [discriminate|].
  exists c, r. split; [reflexivity|].
  intros ->. discriminate.
Qed.

Lemma app_labels_clock (samples : list ForecastSample) (off : Z)
    (pts : list HourlyPoint) :
  App.hourly_forecast samples off = Some pts ->
  Forall2 (fun s p =>
             hour_label p
             = Props.clock_label (hour (of_seconds (dt s + off))))
          (firstn 8 samples) pts.
Proof.
  intros E. unfold App.hourly_forecast in E.
  change (slice_to samples 8) with (firstn 8 samples) in E.
  apply mapM_Forall2 in E.
  eapply Forall2_impl; [|exact E]. intros s p Hp. cbv beta in Hp.
  rewrite app_hourly_item in Hp.
  destruct (representable (dt s + off)); [|discriminate].
  inversion Hp; subst p. cbn [hour_label]. apply app_label_clock.
Qed.

Lemma app_labels_map (samples : list ForecastSample) (off : Z)
    (pts : list HourlyPoint) :
  App.hourly_forecast samples off = Some pts ->
  map hour_label pts
  = map (fun s => Props.clock_label (hour (of_seconds (dt s + off))))
        (firstn 8 samples).
Proof.
  intros E. apply app_labels_clock in E.
  symmetry. apply Forall2_map_eq.
  eapply Forall2_impl; [|exact E]. intros s p Hp; now symmetry.
Qed.

(** X8.  In [src/App.py] and [src/new.py] every label of the hourly slice is
    the hour of the shifted timestamp on the 12-hour clock, written without
    padding, followed by AM or PM; it never starts with a zero. *)
Theorem app_labels_unpadded (samples : list ForecastSample) (off : Z)
    (pts : list HourlyPoint) :
  App.hourly_forecast samples off = Some pts
  \/ New.hourly_forecast samples off = Some pts ->
  map hour_label pts
  = map (fun s => Props.clock_label (hour (of_seconds (dt s + off))))
        (firstn 8 samples) /\
  Forall (fun p => exists c r,
                     hour_label p = String c r /\ c <> "0"%char) pts.
Proof.
  intros H.
  assert (E : App.hourly_forecast samples off = Some pts)
    by (destruct H as [H|H]; exact H).
  clear H. pose proof (app_labels_clock samples off pts E) as F.
  split.
  - now apply app_labels_map.
  - apply Forall_forall. intros p I.
    destruct (Forall2_In_r _ _ _ _ F I) as (s & _ & Hp).
    rewrite Hp. apply clock_label_no_zero, hour_bounds.
Qed.

Lemma app_labels_unpadded_witness :
  (App.hourly_forecast Scenario.one_day 0
   = Some (map (fun s => {| hour_label :=
                              Props.clock_label (hour (of_seconds (dt s)));
                            hourly_temp := main_temp s;
                            condition := "Light Rain";
                            hourly_icon := weather_icon s |})
               Scenario.one_day)
   \/ New.hourly_forecast Scenario.one_day 0
      = Some (map (fun s => {| hour_label :=
                                 Props.clock_label (hour (of_seconds (dt s)));
                               hourly_temp := main_temp s;
                               condition := "Light Rain";
                               hourly_icon := weather_icon s |})
                  Scenario.one_day)) /\
  map hour_label
    (map (fun s => {| hour_label :=
                        Props.clock_label (hour (of_seconds (dt s)));
                      hourly_temp := main_temp s;
                      condition := "Light Rain";
                      hourly_icon := weather_icon s |})
         Scenario.one_day)
  = ["12 AM"; "3 AM"; "6 AM"; "9 AM"; "12 PM"; "3 PM"; "6 PM"; "9 PM"].
Proof.
  assert (H : App.hourly_forecast Scenario.one_day 0
   = Some (map (fun s => {| hour_label :=
                              Props.clock_label (hour (of_seconds (dt s)));
                            hourly_temp := main_temp s;
                            condition := "Light Rain";
                            hourly_icon := weather_icon s |})
               Scenario.one_day)) by reflexivity.
  split; [left; exact H|].
  apply (app_labels_unpadded Scenario.one_day 0). left; exact H.
Defined.

(** [%I:%M %p] reads the hour and the minute only. *)
Lemma strftime_I_M_p (d : datetime) :
  strftime d "%I:%M %p"
  = String.append
      (format_02d (if hour d mod 12 =? 0 then 12 else hour d mod 12))
      (String ":"
         (String.append (format_02d (minute d))
            (String " "
               (String.append (if hour d <? 12 then "AM" else "PM") "")))).
Proof. reflexivity. Qed.

Lemma minute_bounds (ts : Z) : 0 <= minute (of_seconds ts) < 60.
Proof.
  unfold of_seconds; cbn [minute].
  pose proof (Z.mod_pos_bound ts 3600 ltac:(lia)) as H.
  split; [apply Z.div_pos; lia | apply Z.div_lt_upper_bound; lia].
Qed.

Lemma clock_days_later (ts n : Z) :
  hour (of_seconds (ts + 86400 * n)) = hour (of_seconds ts) /\
  minute (of_seconds (ts + 86400 * n)) = minute (of_seconds ts).
Proof.
  unfold of_seconds; cbn [hour minute]. split.
  - replace (ts + 86400 * n) with (ts + n * 86400) by lia.
    now rewrite Z.mod_add by lia.
  - replace (ts + 86400 * n) with (ts + (24 * n) * 3600) by lia.
    now rewrite Z.mod_add by lia.
Qed.

(** X9.  [format_local_time] sees its two arguments only through their
    sum, raises exactly when the sum is outside what [datetime] can
    represent, returns eight characters otherwise, and shows the same clock
    time for instants a whole number of days apart. *)
Theorem format_local_time_clock (timestamp offset : Z) :
  Update.format_local_time timestamp offset
  = Update.format_local_time (timestamp + offset) 0 /\
  App.format_local_time timestamp offset
  = Update.format_local_time timestamp offset /\
  (Update.format_local_time timestamp offset = None <->
   representable (timestamp + offset) = false) /\
  (forall text,
     Update.format_local_time timestamp offset = Some text ->
     String.length text = 8%nat) /\
  (forall n text,
     Update.format_local_time timestamp offset = Some text ->
     representable (timestamp + 86400 * n + offset) = true ->
     Update.format_local_time (timestamp + 86400 * n) offset = Some text).
Proof.
  unfold App.format_local_time, Update.format_local_time, fromtimestamp_utc.
  cbv zeta. rewrite Z.add_0_r.
  split; [reflexivity|]. split; [reflexivity|].
  destruct (representable (timestamp + offset)) eqn:R; cbn [bind].
  - split; [split; discriminate|]. split.
    + intros text H.
      replace text with (strftime (of_seconds (timestamp + offset)) "%I:%M %p")
        by congruence.
      clear H. rewrite strftime_I_M_p.
      pose proof (hour_bounds (timestamp + offset)) as Bh.
      pose proof (minute_bounds (timestamp + offset)) as Bm.
      set (h := hour (of_seconds (timestamp + offset))) in *.
      assert (B12 : 0 <= (if h mod 12 =? 0 then 12 else h mod 12) < 100).
      { pose proof (Z.mod_pos_bound h 12 ltac:(lia)).
        destruct (h mod 12 =? 0); lia. }
      rewrite string_length_append, format_02d_length by exact B12.
      cbn [String.length]. rewrite string_length_append, format_02d_length
        by lia.
      cbn [String.length]. rewrite string_length_append.
      now destruct (h <? 12).
    + intros n text H R'. rewrite R'; cbn [bind]. rewrite <- H. f_equal.
      replace (timestamp + 86400 * n + offset)
        with (timestamp + offset + 86400 * n) by lia.
      rewrite !strftime_I_M_p.
      destruct (clock_days_later (timestamp + offset) n) as [-> ->].
      reflexivity.
  - split; [split; reflexivity|]. split; [discriminate|].
    intros n text H; discriminate.
Qed.

Lemma format_local_time_clock_witness :
  Update.format_local_time 1700000000 19800 = Some "03:43 AM" /\
  String.length "03:43 AM" = 8%nat /\
  representable (1700000000 + 86400 * 3 + 19800) = true /\
  Update.format_local_time (1700000000 + 86400 * 3) 19800 = Some "03:43 AM".
Proof.
  pose proof (format_local_time_clock 1700000000 19800)
    as (_ & _ & _ & Hlen & Hday).
  split; [reflexivity|]. split; [apply Hlen; reflexivity|].
  split; [reflexivity|]. apply (Hday 3); reflexivity.
Defined.

(** X10.  The offset display shows a minus sign for every negative offset.
    West of Greenwich the minutes shown are the minutes left to the next
    full hour: an offset of [h] hours and [m] minutes west, [0 < m < 60],
    is displayed as [UTC-hh:(60-m)], which is the true offset only for
    half hours. *)
Theorem offset_display_west (tz : Z) :
  (tz < 0 -> exists rest,
     Update.offset_display tz = ("UTC-" ++ rest)%string) /\
  (0 <= tz -> exists rest,
     Update.offset_display tz = ("UTC+" ++ rest)%string) /\
  (forall h m,
     0 <= h < 100 -> 0 < m < 60 ->
     Update.offset_display (- (3600 * h + 60 * m))
     = ("UTC-" ++ format_02d h ++ ":" ++ format_02d (60 - m))%string) /\
  (forall h,
     0 <= h < 100 ->
     Update.offset_display (- (3600 * h + 1800))
     = ("UTC-" ++ format_02d h ++ ":30")%string).
Proof.
  assert (W : forall h m,
     0 <= h < 100 -> 0 < m < 60 ->
     Update.offset_display (- (3600 * h + 60 * m))
     = ("UTC-" ++ format_02d h ++ ":" ++ format_02d (60 - m))%string).
  { intros h m Hh Hm. unfold Update.offset_display; cbv zeta.
    set (t := - (3600 * h + 60 * m)).
    destruct (Z.leb_spec 0 t); [unfold t in *; lia|].
    assert (Hq : Z.quot t 3600 = - h).
    { unfold t. rewrite Z.quot_opp_l by lia. f_equal.
      rewrite Z.quot_div_nonneg by lia.
      symmetry; apply (Z.div_unique_pos _ _ _ (60 * m)); lia. }
    assert (Hmod : t mod 3600 = 60 * (60 - m)).
    { symmetry; apply (Z.mod_unique_pos _ _ (- h - 1)); unfold t; lia. }
    rewrite Hq, Hmod, Z.quot_div_nonneg by lia.
    replace (60 * (60 - m) / 60) with (60 - m)
      by (apply (Z.div_unique_pos _ _ _ 0); lia).
    replace (Z.abs (- h)) with h by lia.
    now replace (Z.abs (60 - m)) with (60 - m) by lia. }
  split; [|split; [|split; [exact W|]]].
  - intros H. unfold Update.offset_display; cbv zeta.
    destruct (Z.leb_spec 0 tz); [lia|]. eexists; reflexivity.
  - intros H. unfold Update.offset_display; cbv zeta.
    destruct (Z.leb_spec 0 tz); [|lia]. eexists; reflexivity.
  - intros h Hh.
    replace (3600 * h + 1800) with (3600 * h + 60 * 30) by lia.
    now rewrite W by lia.
Qed.

Lemma offset_display_west_witness :
  (-1800 < 0 /\ exists rest,
     Update.offset_display (-1800) = ("UTC-" ++ rest)%string) /\
  (0 <= 20700 /\ exists rest,
     Update.offset_display 20700 = ("UTC+" ++ rest)%string) /\
  (0 <= 9 < 100 /\ 0 < 45 < 60 /\
   Update.offset_display (-35100) = "UTC-09:15") /\
  (0 <= 3 < 100 /\ Update.offset_display (-12600) = "UTC-03:30").
Proof.
  split; [|split; [|split]].
  - split; [lia|]. apply (proj1 (offset_display_west (-1800))). lia.
  - split; [lia|]. apply (proj1 (proj2 (offset_display_west 20700))). lia.
  - split; [lia|]. split; [lia|].
    apply (proj1 (proj2 (proj2 (offset_display_west 0))) 9 45); lia.
  - split; [lia|].
    apply (proj2 (proj2 (proj2 (offset_display_west 0))) 3); lia.
Defined.
(* ===================================================================== *)
(** ** Labels of a three-hourly forecast *)
(* ===================================================================== *)

Lemma distinctb_NoDup (l : list string) : Props.distinctb l = true -> NoDup l.
Proof.
  induction l as [|x r IH]; simpl; intros H; [constructor|].
  apply andb_true_iff in H. destruct H as [H1 H2].
  constructor; [|now apply IH].
  intros I. apply negb_true_iff in H1.
  assert (E : existsb (String.eqb x) r = true)
    by (apply existsb_exists; exists x; split;
        [exact I | apply String.eqb_refl]).
  congruence.
Qed.

Lemma NoDup_map_injective {A B : Type} (f : A -> B) (l : list A) (x y : A) :
  NoDup (map f l) -> In x l -> In y l -> f x = f y -> x = y.
Proof.
  induction l as [|a l IH]; simpl; intros ND Ix Iy E; [contradiction|].
  inversion ND as [|? ? Ha ND']; subst.
  destruct Ix as [<-|Ix], Iy as [<-|Iy]; auto.
  - exfalso; apply Ha. rewrite E. now apply in_map.
  - exfalso; apply Ha. rewrite <- E. now apply in_map.
Qed.

Lemma in_Z_range (hi : nat) (c : Z) :
  0 <= c < Z.of_nat hi -> In c (map Z.of_nat (seq 0 hi)).
Proof.
  intros H. apply in_map_iff. exists (Z.to_nat c). split; [lia|].
  apply in_seq. lia.
Qed.

(** The hour of the week of an instant, counted from Monday 00:00. *)
Lemma week_hour_fields (ts : Z) :
  let c := (ts / 3600 + 72) mod 168 in
  weekday (of_seconds ts) = c / 24 /\ hour (of_seconds ts) = c mod 24.
Proof.
  cbv zeta. unfold of_seconds; cbn [weekday hour].
  pose proof (Z.div_mod ts 3600 ltac:(lia)) as E1.
  pose proof (Z.mod_pos_bound ts 3600 ltac:(lia)) as B1.
  set (H := ts / 3600) in *. set (r := ts mod 3600) in *.
  pose proof (Z.div_mod H 24 ltac:(lia)) as E2.
  pose proof (Z.mod_pos_bound H 24 ltac:(lia)) as B2.
  set (D := H / 24) in *. set (h := H mod 24) in *.
  assert (Hd : ts / 86400 = D)
    by (symmetry; apply (Z.div_unique_pos _ _ _ (3600 * h + r)); lia).
  assert (Hm : ts mod 86400 = 3600 * h + r)
    by (symmetry; apply (Z.mod_unique_pos _ _ D); lia).
  assert (Hh : (3600 * h + r) / 3600 = h)
    by (symmetry; apply (Z.div_unique_pos _ _ _ r); lia).
  pose proof (Z.div_mod (D + 3) 7 ltac:(lia)) as E3.
  pose proof (Z.mod_pos_bound (D + 3) 7 ltac:(lia)) as B3.
  set (q := (D + 3) / 7) in *. set (w := (D + 3) mod 7) in *.
  assert (Hc : (H + 72) mod 168 = 24 * w + h)
    by (symmetry; apply (Z.mod_unique_pos _ _ q); lia).
  rewrite Hd, Hm, Hh, Hc. split.
  - apply (Z.div_unique_pos _ _ _ h); lia.
  - apply (Z.mod_unique_pos _ _ w); lia.
Qed.

Lemma update_label_week (ts : Z) :
  strftime (of_seconds ts) "%a %I %p"
  = Props.week_label ((ts / 3600 + 72) mod 168).
Proof.
  destruct (week_hour_fields ts) as [Hw Hh]. unfold Props.week_label.
  rewrite <- Hw, <- Hh. reflexivity.
Qed.

Lemma clock_label_day (ts : Z) :
  Props.clock_label (hour (of_seconds ts))
  = Props.clock_label ((ts / 3600) mod 24).
Proof.
  destruct (week_hour_fields ts) as [_ Hh]. rewrite Hh. f_equal.
  set (H := ts / 3600).
  pose proof (Z.div_mod (H + 72) 168 ltac:(lia)) as E.
  pose proof (Z.mod_pos_bound (H + 72) 168 ltac:(lia)) as B.
  set (c := (H + 72) mod 168) in *. set (q := (H + 72) / 168) in *.
  pose proof (Z.div_mod c 24 ltac:(lia)) as E2.
  pose proof (Z.mod_pos_bound c 24 ltac:(lia)) as B2.
  apply (Z.mod_unique_pos _ _ (7 * q + c / 24 - 3)); lia.
Qed.

Lemma week_labels_NoDup : NoDup Props.week_labels.
Proof. apply distinctb_NoDup. vm_compute. reflexivity. Qed.

Lemma day_labels_NoDup : NoDup Props.day_labels.
Proof. apply distinctb_NoDup. vm_compute. reflexivity. Qed.

Lemma hours_later (ts k : Z) : (ts + 10800 * k) / 3600 = ts / 3600 + 3 * k.
Proof.
  replace (ts + 10800 * k) with (ts + (3 * k) * 3600) by lia.
  now rewrite Z.div_add by lia.
Qed.

(** Two instants less than a week apart, a multiple of three hours from one
    another, have different labels in [src/update.py]. *)
Lemma update_label_differs (ts k : Z) :
  0 < k < 56 ->
  strftime (of_seconds (ts + 10800 * k)) "%a %I %p"
  <> strftime (of_seconds ts) "%a %I %p".
Proof.
  intros Hk E. rewrite !update_label_week, hours_later in E.
  set (H := ts / 3600) in *.
  pose proof (Z.mod_pos_bound (H + 3 * k + 72) 168 ltac:(lia)) as B1.
  pose proof (Z.mod_pos_bound (H + 72) 168 ltac:(lia)) as B2.
  apply (NoDup_map_injective Props.week_label (map Z.of_nat (seq 0 168)))
    in E; [|exact week_labels_NoDup | now apply in_Z_range
            | now apply in_Z_range].
  pose proof (Z.div_mod (H + 3 * k + 72) 168 ltac:(lia)) as E1.
  pose proof (Z.div_mod (H + 72) 168 ltac:(lia)) as E2.
  rewrite E in E1. lia.
Qed.

(** Less than a day apart, the labels of [src/App.py] differ as well. *)
Lemma app_label_differs (ts k : Z) :
  0 < k < 8 ->
  Props.clock_label (hour (of_seconds (ts + 10800 * k)))
  <> Props.clock_label (hour (of_seconds ts)).
Proof.
  intros Hk E. rewrite !clock_label_day, hours_later in E.
  set (H := ts / 3600) in *.
  pose proof (Z.mod_pos_bound (H + 3 * k) 24 ltac:(lia)) as B1.
  pose proof (Z.mod_pos_bound H 24 ltac:(lia)) as B2.
  apply (NoDup_map_injective Props.clock_label (map Z.of_nat (seq 0 24)))
    in E; [|exact day_labels_NoDup | now apply in_Z_range
            | now apply in_Z_range].
  pose proof (Z.div_mod (H + 3 * k) 24 ltac:(lia)) as E1.
  pose proof (Z.div_mod H 24 ltac:(lia)) as E2.
  rewrite E in E1. lia.
Qed.

Lemma three_hourly_In (t0 : Z) (l : list ForecastSample) (s : ForecastSample) :
  Props.three_hourly t0 l -> In s l ->
  exists k, 0 <= k < Z.of_nat (List.length l) /\ dt s = t0 + 10800 * k.
Proof.
  revert t0; induction l as [|a l IH];
    cbn [Props.three_hourly In List.length]; intros t0 H I; [contradiction|].
  destruct H as [Ha Hl]. destruct I as [<-|I].
  - exists 0. split; lia.
  - destruct (IH _ Hl I) as (k & Hk & E). exists (k + 1). split; lia.
Qed.

Lemma three_hourly_firstn (t0 : Z) (n : nat) (l : list ForecastSample) :
  Props.three_hourly t0 l -> Props.three_hourly t0 (firstn n l).
Proof.
  revert t0 n; induction l as [|a l IH]; intros t0 [|n] H; simpl; auto.
  destruct H as [Ha Hl]. split; auto.
Qed.

(** Distinct labels along a three-hourly list, for any labelling that tells
    apart instants up to [bound] steps from one another. *)
Lemma three_hourly_NoDup (label : Z -> string) (bound : Z) (off : Z) :
  (forall ts k, 0 < k < bound ->
                label (ts + 10800 * k) <> label ts) ->
  forall l t0,
    Props.three_hourly t0 l -> Z.of_nat (List.length l) <= bound ->
    NoDup (map (fun s => label (dt s + off)) l).
Proof.
  intros D l; induction l as [|a l IH]; intros t0 H L; cbn [map];
    [constructor|].
  destruct H as [Ha Hl]. cbn [List.length] in L. constructor.
  - intros I. apply in_map_iff in I. destruct I as (s & E & I).
    destruct (three_hourly_In _ _ _ Hl I) as (k & Hk & Es).
    apply (D (dt a + off) (k + 1)); [lia|].
    rewrite <- E. f_equal. lia.
  - apply (IH (t0 + 10800)); [exact Hl | lia].
Qed.

(** X11.  When the samples are three hours apart, the labels of the hourly
    slice are pairwise distinct: in [src/update.py] for every window up to
    168 hours (the slider stops at 48), in [src/App.py] and [src/new.py]
    for their fixed eight samples.  The weekday in front is what keeps the
    labels apart beyond one day: without it the ninth sample repeats the
    label of the first. *)
Theorem three_hourly_labels_distinct (samples : list ForecastSample)
    (t0 off : Z) :
  Props.three_hourly t0 samples ->
  (forall w pts,
     0 <= w <= 168 ->
     Update.hourly_forecast samples off w = Some pts ->
     NoDup (map hour_label pts)) /\
  (forall pts,
     App.hourly_forecast samples off = Some pts ->
     NoDup (map hour_label pts)) /\
  (forall s1 s9,
     nth_error samples 0 = Some s1 -> nth_error samples 8 = Some s9 ->
     Props.clock_label (hour (of_seconds (dt s9 + off)))
     = Props.clock_label (hour (of_seconds (dt s1 + off)))).
Proof.
  intros T. split; [|split].
  - intros w pts Hw E. apply update_hourly_result in E. subst pts.
    rewrite map_map; cbn [hour_label Spec.point].
    assert (D : 0 <= w / 3 <= 56)
      by (split; [apply Z.div_pos; lia
                 | apply Z.div_le_upper_bound; lia]).
    rewrite slice_to_nonneg by lia.
    apply (three_hourly_NoDup
             (fun ts => strftime (of_seconds ts) "%a %I %p") 56 off
             update_label_differs _ t0).
    + now apply three_hourly_firstn.
    + pose proof (firstn_le_length (Z.to_nat (w / 3)) samples). lia.
  - intros pts E.
    rewrite (app_labels_map samples off pts E).
    apply (three_hourly_NoDup
             (fun ts => Props.clock_label (hour (of_seconds ts))) 8 off
             app_label_differs _ t0).
    + now apply three_hourly_firstn.
    + pose proof (firstn_le_length 8 samples). lia.
  - intros s1 s9 H1 H9.
    destruct (three_hourly_In t0 samples s1 T (nth_error_In _ _ H1))
      as (k1 & _ & _).
    assert (E1 : dt s1 = t0).
    { destruct samples as [|a l]; [discriminate|]. simpl in H1.
      inversion H1; subst. now destruct T. }
    assert (E9 : dt s9 = t0 + 10800 * 8).
    { clear - T H9. revert H9.
      do 8 (destruct samples as [|? samples]; [discriminate|];
            destruct T as [_ T]; cbn [nth_error]).
      destruct samples as [|a l]; [discriminate|]. simpl.
      intros [= <-]. destruct T as [-> _]. lia. }
    rewrite E1, E9, !clock_label_day.
    replace (t0 + 10800 * 8 + off) with (t0 + off + 24 * 3600) by lia.
    rewrite Z.div_add by lia.
    f_equal. replace (24) with (1 * 24) at 1 by lia.
    now rewrite Z.mod_add by lia.
Qed.

Lemma three_hourly_labels_distinct_witness :
  Props.three_hourly 0 (Cases.slots 16 0) /\
  (0 <= 48 <= 168 /\
   Update.hourly_forecast (Cases.slots 16 0) 19800 48
   = Some (map (Spec.point "%a %I %p" 19800) (Cases.slots 16 0)) /\
   NoDup (map hour_label
            (map (Spec.point "%a %I %p" 19800) (Cases.slots 16 0)))) /\
  (nth_error (Cases.slots 16 0) 0 = Some (Scenario.sample_at 0 (15 # 1) "04d")
   /\
   nth_error (Cases.slots 16 0) 8
   = Some (Scenario.sample_at 86400 (15 # 1) "04d") /\
   Props.clock_label (hour (of_seconds (86400 + 19800)))
   = Props.clock_label (hour (of_seconds (0 + 19800)))).
Proof.
  assert (T : Props.three_hourly 0 (Cases.slots 16 0))
    by (cbn; repeat split).
  pose proof (three_hourly_labels_distinct (Cases.slots 16 0) 0 19800 T)
    as (Hupdate & _ & Hninth).
  split; [exact T|]. split.
  - split; [lia|]. split; [reflexivity|].
    apply (Hupdate 48); [lia | reflexivity].
  - split; [reflexivity|]. split; [reflexivity|].
    apply (Hninth (Scenario.sample_at 0 (15 # 1) "04d")
                  (Scenario.sample_at 86400 (15 # 1) "04d")); reflexivity.
Defined.
(* ===================================================================== *)
(** ** Air quality, annotations and the session *)
(* ===================================================================== *)

(** X12.  [get_aqi_category] answers Unknown for exactly the values outside
    1..5, so the sentinel never hides a real category, and on 1..5 both the
    label and the colour identify the index. *)
Theorem get_aqi_category_faithful :
  (forall v,
     fst (Update.get_aqi_category v) = "Unknown" <->
     (forall i, 1 <= i <= 5 -> v <> Some i)) /\
  (forall i j,
     1 <= i <= 5 -> 1 <= j <= 5 ->
     fst (Update.get_aqi_category (Some i))
     = fst (Update.get_aqi_category (Some j))
     \/ snd (Update.get_aqi_category (Some i))
        = snd (Update.get_aqi_category (Some j))
     \/ snd (App.get_aqi_category (Some i))
        = snd (App.get_aqi_category (Some j)) ->
     i = j).
Proof.
  assert (C : forall i, 1 <= i <= 5 ->
                i = 1 \/ i = 2 \/ i = 3 \/ i = 4 \/ i = 5) by (intros; lia).
  split.
  - intros v; split.
    + intros U i Hi ->.
      destruct (C i Hi) as [->|[->|[->|[->| ->]]]]; discriminate.
    + intros H. destruct v as [z|]; [|reflexivity].
      assert (N : forall k, 1 <= k <= 5 -> k <> z)
        by (intros k Hk ->; now apply (H z)).
      unfold Update.get_aqi_category, dict_get_default, Update.aqi_map;
        cbn [dict_get opt_Z_eqb fst].
      repeat match goal with
             | |- context [?a =? z] =>
                 destruct (Z.eqb_spec a z); [now apply N in e; [|lia]|]
             end.
      reflexivity.
  - intros i j Hi Hj H.
    destruct (C i Hi) as [->|[->|[->|[->| ->]]]];
      destruct (C j Hj) as [->|[->|[->|[->| ->]]]];
      try reflexivity; exfalso;
      destruct H as [H|[H|H]]; vm_compute in H; discriminate.
Qed.

Lemma get_aqi_category_faithful_witness :
  (fst (Update.get_aqi_category (Some 0)) = "Unknown" /\
   forall i, 1 <= i <= 5 -> Some 0 <> Some i) /\
  (1 <= 4 <= 5 /\ 1 <= 4 <= 5 /\ 4 = 4).
Proof.
  split.
  - split; [reflexivity|].
    apply (proj1 (proj1 get_aqi_category_faithful (Some 0))). reflexivity.
  - split; [lia|]. split; [lia|].
    apply (proj2 get_aqi_category_faithful 4 4); [lia | lia |].
    left; reflexivity.
Defined.

Lemma isspace_title (c : ascii) :
  Text.isspace (to_upper c) = Text.isspace c /\
  Text.isspace (to_lower c) = Text.isspace c /\
  (Text.isspace c = true ->
   to_upper c = c /\ is_lower c || is_upper c = false).
Proof.
  destruct c as [[] [] [] [] [] [] [] []]; vm_compute;
    (split; [reflexivity|]; split; [reflexivity|]);
    intros H; try discriminate; split; reflexivity.
Qed.

Lemma take_word_title (b : bool) (s : string) :
  Text.take_word (title_from b s) = title_from b (Text.take_word s).
Proof.
  revert b; induction s as [|c r IH]; intros b; [reflexivity|].
  cbn [title_from Text.take_word].
  destruct (isspace_title c) as (Eu & El & _).
  assert (E : Text.isspace (if b then to_lower c else to_upper c)
              = Text.isspace c) by (destruct b; assumption).
  rewrite E. destruct (Text.isspace c); [reflexivity|].
  cbn [title_from]. now rewrite IH.
Qed.

(** The first word of the title-cased text is the title-cased first word. *)
Lemma first_word_title (s : string) :
  Text.first_word (title s) = option_map title (Text.first_word s).
Proof.
  unfold title. induction s as [|c r IH]; [reflexivity|].
  cbn [title_from Text.first_word].
  destruct (isspace_title c) as (Eu & _ & Hs). rewrite Eu.
  destruct (Text.isspace c) eqn:S.
  - destruct (Hs eq_refl) as [_ Hc]. rewrite Hc. exact IH.
  - cbn [option_map]. f_equal.
    change (String (to_upper c) (title_from (is_lower c || is_upper c) r))
      with (title_from false (String c r)).
    apply take_word_title.
Qed.

Lemma first_word_None (s : string) :
  Text.first_word s = None <-> Text.blank s = true.
Proof.
  induction s as [|c r IH]; cbn [Text.first_word Text.blank].
  - split; reflexivity.
  - destruct (Text.isspace c); simpl; [exact IH|].
    split; discriminate.
Qed.

Lemma mapM_None {A B : Type} (f : A -> option B) (l : list A) :
  mapM f l = None <-> Exists (fun a => f a = None) l.
Proof.
  induction l as [|a l IH]; simpl.
  - split; [discriminate | intros H; inversion H].
  - destruct (f a) eqn:Fa; cbn [bind].
    + destruct (mapM f l); cbn [bind].
      * split; [discriminate|]. intros H.
        inversion H as [? ? Ha|? ? Hl]; subst; [congruence|].
        apply IH in Hl. discriminate.
      * split; [|reflexivity]. intros _. right. now apply IH.
    + split; [|reflexivity]. intros _. now left.
Qed.

(** X13.  The annotation under each point of the hourly chart is the first
    word of the sample's description, title-cased.  Building the
    annotations raises exactly when a description of the window is empty or
    all whitespace. *)
Theorem annotation_is_first_word (samples : list ForecastSample)
    (off w : Z) (pts : list HourlyPoint) :
  Update.hourly_forecast samples off w = Some pts ->
  Chart.annotation_texts (map condition pts)
  = mapM (fun s => option_map title
                     (Text.first_word (weather_description s)))
         (slice_to samples (w / 3)) /\
  (Chart.annotation_texts (map condition pts) = None <->
   Exists (fun s => Text.blank (weather_description s) = true)
          (slice_to samples (w / 3))).
Proof.
  intros E. apply update_hourly_result in E. subst pts.
  assert (A : Chart.annotation_texts
                (map condition
                   (map (Spec.point "%a %I %p" off)
                        (slice_to samples (w / 3))))
              = mapM (fun s => option_map title
                                 (Text.first_word (weather_description s)))
                     (slice_to samples (w / 3))).
  { unfold Chart.annotation_texts. rewrite map_map, mapM_map.
    apply mapM_ext. intros s. cbn [condition Spec.point].
    apply first_word_title. }
  split; [exact A|].
  rewrite A, mapM_None.
  split; intros H; (eapply Exists_impl; [|exact H]); intros s Hs;
    cbv beta in *.
  - apply first_word_None.
    now destruct (Text.first_word (weather_description s)).
  - apply first_word_None in Hs. now rewrite Hs.
Qed.

Lemma annotation_is_first_word_witness :
  Update.hourly_forecast Scenario.one_day 0 9
  = Some (map (Spec.point "%a %I %p" 0) (firstn 3 Scenario.one_day)) /\
  Chart.annotation_texts
    (map condition
       (map (Spec.point "%a %I %p" 0) (firstn 3 Scenario.one_day)))
  = Some ["Light"; "Light"; "Light"].
Proof.
  split; [reflexivity|].
  apply (annotation_is_first_word Scenario.one_day 0 9). reflexivity.
Defined.
(* ===================================================================== *)
(** ** The session of [src/update.py] *)
(* ===================================================================== *)

Lemma rstrip_empty (s : Unicode.text) :
  Unicode.rstrip s = [] <-> Unicode.blank s = true.
Proof.
  induction s as [|c r IH]; cbn [Unicode.rstrip Unicode.blank forallb].
  - split; reflexivity.
  - fold (Unicode.blank r).
    destruct (Unicode.rstrip r) as [|c' r'] eqn:R.
    + assert (B : Unicode.blank r = true) by now apply IH.
      rewrite B, andb_true_r.
      destruct (Unicode.isspace c); split; try reflexivity; discriminate.
    + assert (B : Unicode.blank r = false).
      { apply not_true_is_false. intros B.
        apply (proj2 IH) in B. discriminate. }
      rewrite B, andb_false_r. split; discriminate.
Qed.

Lemma blank_lstrip (s : Unicode.text) :
  Unicode.blank (Unicode.lstrip s) = Unicode.blank s.
Proof.
  induction s as [|c r IH]; cbn [Unicode.lstrip Unicode.blank forallb];
    [reflexivity|].
  fold (Unicode.blank r).
  destruct (Unicode.isspace c) eqn:S; [exact IH|].
  cbn [Unicode.blank forallb]. now rewrite S.
Qed.

(** [not s.strip()] holds exactly for the texts made of whitespace. *)
Lemma strip_empty (s : Unicode.text) :
  negb (Unicode.truthy (Unicode.strip s)) = Unicode.blank s.
Proof.
  unfold Unicode.strip. rewrite <- blank_lstrip.
  destruct (Unicode.rstrip (Unicode.lstrip s)) as [|c r] eqn:E.
  - symmetry. now apply rstrip_empty.
  - cbn [Unicode.truthy negb].
    destruct (Unicode.blank (Unicode.lstrip s)) eqn:B; [|reflexivity].
    apply rstrip_empty in B. congruence.
Qed.

Section SessionFacts.
Context {all_data : Type}.

(** The three ways in which [fetch_and_store_data] ends on a text that is
    not blank, and the one on a blank text. *)
Lemma fetch_and_store_data_cases
    (gc : Unicode.text -> res (json * json * json * json))
    (gw : json -> json -> res (option all_data))
    (input : Unicode.text) (st : Session.state all_data) :
  (Unicode.blank input = true /\
   Session.fetch_and_store_data gc gw input st = inr st) \/
  (Unicode.blank input = false /\
   ((exists e,
       (gc input = inl e \/
        exists lat_ lon_ name_ country_,
          gc input = inr (lat_, lon_, name_, country_) /\
          lat_ <> JNull /\ gw lat_ lon_ = inl e) /\
       Session.fetch_and_store_data gc gw input st = inl e) \/
    (((exists lon_ name_ country_,
         gc input = inr (JNull, lon_, name_, country_)) \/
      exists lat_ lon_ name_ country_,
        gc input = inr (lat_, lon_, name_, country_) /\
        lat_ <> JNull /\ gw lat_ lon_ = inr None) /\
     Session.fetch_and_store_data gc gw input st
     = inr (Session.withdrawn st)) \/
    (exists lat_ lon_ name_ country_ d,
       gc input = inr (lat_, lon_, name_, country_) /\
       lat_ <> JNull /\ gw lat_ lon_ = inr (Some d) /\
       Session.fetch_and_store_data gc gw input st
       = inr {| Session.theme := Session.theme st;
                Session.city_name := name_;
                Session.weather_data := Some d;
                Session.city_search_done := true;
                Session.country := Some country_;
                Session.lat := Some lat_;
                Session.lon := Some lon_ |}))).
Proof.
  unfold Session.fetch_and_store_data. rewrite strip_empty.
  destruct (Unicode.blank input); [left; now split|].
  right. split; [reflexivity|].
  destruct (gc input) as [e|[[[lat_ lon_] name_] country_]] eqn:G;
    cbn [rbind].
  - left. exists e. split; [now left|reflexivity].
  - destruct lat_ as [|b|q|s|l|d] eqn:L; cbn [is_none];
      [right; left; split; [left; now exists lon_, name_, country_
                           |reflexivity]
      | | | | | ].
    all: destruct (gw _ lon_) as [e|[d'|]] eqn:W; cbn [rbind];
      [ left; exists e; split; [|reflexivity]; right;
        eexists _, lon_, name_, country_;
        split; [reflexivity|]; split; [discriminate|exact W]
      | right; right; eexists _, lon_, name_, country_, d';
        split; [reflexivity|]; split; [discriminate|];
        split; [exact W|reflexivity]
      | right; left; split; [|reflexivity]; right;
        eexists _, lon_, name_, country_;
        split; [reflexivity|]; split; [discriminate|exact W] ].
Qed.

Lemma session_ok_withdrawn (st : Session.state all_data) :
  session_ok st -> session_ok (Session.withdrawn st).
Proof.
  intros (Ht & _ & _). unfold session_ok; cbn.
  split; [exact Ht|]. split; [discriminate|].
  intros H; now contradiction H.
Qed.

Lemma session_ok_step (st : Session.state all_data)
    (e : Session.event all_data) :
  session_ok st -> session_ok (Session.step st e).
Proof.
  intros Ok. destruct e as [|gc gw input]; cbn [Session.step].
  - destruct Ok as (Ht & Hd & Hw).
    unfold Session.toggle_theme, session_ok, Session.attributes_set in *.
    cbn. repeat split; try tauto;
      try (destruct (String.eqb (Session.theme st) "light"); now auto);
      now apply Hd.
  - destruct (fetch_and_store_data_cases gc gw input st)
      as [[_ ->]|[_ [(e & _ & ->)|[[_ ->]|(la & lo & n & c & d & _ & _ & _
                                          & ->)]]]].
    + exact Ok.
    + exact Ok.
    + now apply session_ok_withdrawn.
    + destruct Ok as (Ht & _ & _).
      unfold session_ok, Session.attributes_set; cbn.
      repeat split; auto; discriminate.
Qed.

Lemma session_ok_fold (events : list (Session.event all_data))
    (st : Session.state all_data) :
  session_ok st -> session_ok (fold_left Session.step events st).
Proof.
  revert st; induction events as [|e events IH]; intros st H; simpl;
    [exact H|].
  apply IH. now apply session_ok_step.
Qed.

Lemma session_ok_run (events : list (Session.event all_data)) :
  session_ok (Session.run events).
Proof.
  apply session_ok_fold. unfold session_ok, Session.attributes_set; cbn.
  repeat split; auto; try discriminate; intros H; now contradiction H.
Qed.
End SessionFacts.

(** X14.  Whatever the user does and whatever the network answers, the
    session of [src/update.py] stays in one of the two themes, marks the
    search as done exactly when weather data is stored, and whenever the
    dashboard is drawn the country and the coordinates it reads have been
    assigned. *)
Theorem session_dashboard_safe (all_data : Type)
    (events : list (Session.event all_data)) :
  (Session.theme (Session.run events) = "light"
   \/ Session.theme (Session.run events) = "dark") /\
  (Session.city_search_done (Session.run events) = true <->
   Session.weather_data (Session.run events) <> None) /\
  (Session.dashboard_shown (Session.run events) = true ->
   Session.attributes_set (Session.run events) = true).
Proof.
  destruct (session_ok_run events) as (Ht & Hd & Hw).
  split; [exact Ht|]. split.
  - split; [intros H; now apply Hd | exact Hw].
  - unfold Session.dashboard_shown. intros H.
    apply andb_true_iff in H. destruct H as [H _]. now apply Hd.
Qed.

Lemma session_dashboard_safe_witness :
  Session.dashboard_shown
    (Session.run
       [Session.Fetch (fun _ => inr Payloads.anantapur_found)
          (fun _ _ => inr (Some tt)) (Unicode.of_string "anantapur");
        Session.Toggle;
        Session.Fetch (fun _ => inl AttributeError)
          (fun _ _ => inr (Some tt)) (Unicode.of_string "x")]) = true /\
  Session.attributes_set
    (Session.run
       [Session.Fetch (fun _ => inr Payloads.anantapur_found)
          (fun _ _ => inr (Some tt)) (Unicode.of_string "anantapur");
        Session.Toggle;
        Session.Fetch (fun _ => inl AttributeError)
          (fun _ _ => inr (Some tt)) (Unicode.of_string "x")]) = true.
Proof.
  split; [reflexivity|].
  apply (session_dashboard_safe unit). reflexivity.
Defined.

(** X15.  [fetch_and_store_data] returns the session untouched, whatever
    the fetch functions would do, when the text typed is empty or made of
    whitespace, Unicode spaces included.  Otherwise it raises exactly what
    [get_coordinates] raises or, after a latitude was found, what
    [get_weather_data] raises, and the session then stays as it was: data
    stored before is kept.  When it returns, the search is marked done
    exactly when a latitude and the weather data were obtained, and these
    are what is stored; a search that is not done has withdrawn the data
    stored before; the theme is never touched. *)
Theorem fetch_and_store_data_outcomes (all_data : Type)
    (get_coordinates : Unicode.text -> res (json * json * json * json))
    (get_weather_data : json -> json -> res (option all_data))
    (city_input : Unicode.text) (st : Session.state all_data) :
  (Unicode.blank city_input = true ->
   Session.fetch_and_store_data get_coordinates get_weather_data
     city_input st = inr st) /\
  (Unicode.blank city_input = false ->
   forall e,
     Session.fetch_and_store_data get_coordinates get_weather_data
       city_input st = inl e <->
     get_coordinates city_input = inl e \/
     exists lat_ lon_ name_ country_,
       get_coordinates city_input = inr (lat_, lon_, name_, country_) /\
       lat_ <> JNull /\ get_weather_data lat_ lon_ = inl e) /\
  (forall e,
     Session.fetch_and_store_data get_coordinates get_weather_data
       city_input st = inl e ->
     Session.step st
       (Session.Fetch get_coordinates get_weather_data city_input) = st) /\
  (Unicode.blank city_input = false ->
   forall st',
     Session.fetch_and_store_data get_coordinates get_weather_data
       city_input st = inr st' ->
     (Session.city_search_done st' = true <->
      exists lat_ lon_ name_ country_ d,
        get_coordinates city_input = inr (lat_, lon_, name_, country_) /\
        lat_ <> JNull /\ get_weather_data lat_ lon_ = inr (Some d)) /\
     (forall lat_ lon_ name_ country_ d,
        get_coordinates city_input = inr (lat_, lon_, name_, country_) ->
        lat_ <> JNull -> get_weather_data lat_ lon_ = inr (Some d) ->
        Session.weather_data st' = Some d /\
        Session.city_name st' = name_ /\
        Session.country st' = Some country_ /\
        Session.lat st' = Some lat_ /\ Session.lon st' = Some lon_) /\
     (Session.city_search_done st' = false ->
      Session.weather_data st' = None)) /\
  (forall st',
     Session.fetch_and_store_data get_coordinates get_weather_data
       city_input st = inr st' ->
     Session.theme st' = Session.theme st).
Proof.
  pose proof (fetch_and_store_data_cases get_coordinates get_weather_data
                city_input st) as C.
  split; [|split; [|split; [|split]]].
  - intros B. destruct C as [[_ E]|[B' _]]; [exact E|congruence].
  - intros B e.
    destruct C as [[B' _]|[_ C]]; [congruence|].
    destruct C as [(e' & Hc & E)|[[Hc E]|(la & lo & n & c & d & G & N & W
                                        & E)]]; rewrite E.
    + split.
      * intros [= <-]. exact Hc.
      * intros [G|(la & lo & n & c & G & N & W)];
          destruct Hc as [G'|(la' & lo' & n' & c' & G' & N' & W')];
          congruence.
    + split; [discriminate|].
      intros [G|(la & lo & n & c & G & N & W)];
        destruct Hc as [(lo' & n' & c' & G')
                       |(la' & lo' & n' & c' & G' & N' & W')];
        congruence.
    + split; [discriminate|].
      intros [G'|(la' & lo' & n' & c' & G' & N' & W')]; congruence.
  - intros e E. cbn [Session.step]. now rewrite E.
  - intros B st' E.
    destruct C as [[B' _]|[_ C]]; [congruence|].
    destruct C as [(e' & Hc & E')|[[Hc E']|(la & lo & n & c & d & G & N & W
                                          & E')]];
      rewrite E' in E; [discriminate| |]; inversion E; subst st'; clear E.
    + split; [|split].
      * cbn. split; [discriminate|].
        intros (la & lo & n & c & d & G & N & W).
        destruct Hc as [(lo' & n' & c' & G')
                       |(la' & lo' & n' & c' & G' & N' & W')];
          congruence.
      * intros la lo n c d G N W.
        destruct Hc as [(lo' & n' & c' & G')
                       |(la' & lo' & n' & c' & G' & N' & W')];
          congruence.
      * reflexivity.
    + split; [|split].
      * cbn. split; [|reflexivity]. intros _.
        now exists la, lo, n, c, d.
      * intros la' lo' n' c' d' G' N' W'. cbn.
        assert (P : (la', lo', n', c') = (la, lo, n, c)) by congruence.
        inversion P; subst.
        assert (D : d' = d) by congruence. subst.
        repeat split; reflexivity.
      * discriminate.
  - intros st' E.
    destruct C as [[_ E']|[_ [(e' & _ & E')|[[_ E']|(la & lo & n & c & d & _
                                                    & _ & _ & E')]]]];
      rewrite E' in E; try discriminate; inversion E; reflexivity.
Qed.

Lemma fetch_and_store_data_outcomes_witness :
  (Unicode.blank Payloads.wide_blank = true /\
   Session.fetch_and_store_data (fun _ => inl AttributeError)
     (fun _ _ => inr (Some tt)) Payloads.wide_blank Session.initial
   = inr Session.initial) /\
  (Unicode.blank (Unicode.of_string "x") = false /\
   Session.fetch_and_store_data (all_data := unit)
     (fun _ => inr Payloads.anantapur_found)
     (fun _ _ => inl AttributeError) (Unicode.of_string "x")
     Session.initial = inl AttributeError /\
   Session.step (all_data := unit) Session.initial
     (Session.Fetch (fun _ => inr Payloads.anantapur_found)
        (fun _ _ => inl AttributeError) (Unicode.of_string "x"))
   = Session.initial) /\
  (Session.fetch_and_store_data (fun _ => inr Payloads.anantapur_found)
     (fun _ _ => inr (Some tt)) (Unicode.of_string "x") Session.initial
   = inr (Session.step Session.initial
            (Session.Fetch (fun _ => inr Payloads.anantapur_found)
               (fun _ _ => inr (Some tt)) (Unicode.of_string "x"))) /\
   Session.weather_data
     (Session.step Session.initial
        (Session.Fetch (fun _ => inr Payloads.anantapur_found)
           (fun _ _ => inr (Some tt)) (Unicode.of_string "x")))
   = Some tt).
Proof.
  split; [|split].
  - split; [reflexivity|].
    apply (proj1 (fetch_and_store_data_outcomes unit
                    (fun _ => inl AttributeError)
                    (fun _ _ => inr (Some tt))
                    Payloads.wide_blank Session.initial)).
    reflexivity.
  - destruct (fetch_and_store_data_outcomes unit
                (fun _ => inr Payloads.anantapur_found)
                (fun _ _ => inl AttributeError)
                (Unicode.of_string "x") Session.initial)
      as (_ & Hraise & Hkeep & _).
    assert (E : Session.fetch_and_store_data (all_data := unit)
                  (fun _ => inr Payloads.anantapur_found)
                  (fun _ _ => inl AttributeError) (Unicode.of_string "x")
                  Session.initial = inl AttributeError).
    { apply (Hraise eq_refl AttributeError). right.
      exists (JNum (1468 # 100)), (JNum (7760 # 100)), (JStr "Anantapur"),
             (JStr "IN").
      split; [reflexivity|]. split; [discriminate|reflexivity]. }
    split; [reflexivity|]. split; [exact E|].
    exact (Hkeep AttributeError E).
  - split; [reflexivity|].
    destruct (fetch_and_store_data_outcomes unit
                (fun _ => inr Payloads.anantapur_found)
                (fun _ _ => inr (Some tt))
                (Unicode.of_string "x") Session.initial)
      as (_ & _ & _ & Hdone & _).
    destruct (Hdone eq_refl _ eq_refl) as (_ & Hstored & _).
    destruct (Hstored (JNum (1468 # 100)) (JNum (7760 # 100))
                (JStr "Anantapur") (JStr "IN") tt eq_refl)
      as (Hd & _); [discriminate | reflexivity | exact Hd].
Defined.

(** X16.  In every state the session can reach, pressing the theme button
    changes the theme and pressing it twice restores the state. *)
Theorem toggle_theme_involution (all_data : Type)
    (events : list (Session.event all_data)) :
  Session.toggle_theme (Session.toggle_theme (Session.run events))
  = Session.run events /\
  Session.theme (Session.toggle_theme (Session.run events))
  <> Session.theme (Session.run events).
Proof.
  destruct (session_ok_run events) as (Ht & _).
  destruct (Session.run events) as [th cn wd done co la lo].
  unfold Session.toggle_theme; cbn in *.
  destruct Ht as [-> | ->]; split; cbn; try reflexivity; discriminate.
Qed.
(* ===================================================================== *)
(** ** The fetch functions *)
(* ===================================================================== *)

Ltac split_matches :=
  repeat match goal with
         | H : context [match ?x with _ => _ end] |- _ =>
             destruct x eqn:?; cbn in H; try discriminate
         | |- context [match ?x with _ => _ end] =>
             destruct x eqn:?; cbn; try discriminate
         end.

Lemma get_coordinates_no_escape (fetched : res json) (e : exn) :
  e = RequestException \/ e = IndexError \/ e = KeyError ->
  Fetch.get_coordinates fetched <> inl e.
Proof.
  intros He H. unfold Fetch.get_coordinates in H.
  destruct fetched as [[]|r]; cbn in H;
    try (destruct He as [->|[->| ->]]; discriminate).
  split_matches; destruct He as [->|[->| ->]]; discriminate.
Qed.

Lemma get_coordinates_shape (fetched : res json)
    (lat_ lon_ name_ country_ : json) :
  Fetch.get_coordinates fetched = inr (lat_, lon_, name_, country_) ->
  lat_ = JNull \/
  exists e rest,
    fetched = inr (JList (JDict e :: rest)) /\
    dict_get String.eqb e "lat" = Some lat_ /\
    dict_get String.eqb e "lon" = Some lon_ /\
    dict_get String.eqb e "name" = Some name_ /\
    country_ = dict_get_default String.eqb e "country" (JStr "").
Proof.
  unfold Fetch.get_coordinates. intros H.
  destruct fetched as [[]|r]; cbn in H;
    try discriminate; try (inversion H; now left).
  destruct r as [| | | |[|[| | | | |e] rest]|d];
    cbn -[dict_get] in H; unfold dict_get_default in H;
    split_matches; try (inversion H; now left).
  all: match goal with
       | E : inr (Some _) = inr (Some _) |- _ => inversion E; subst
       end; inversion H; subst; right; exists e, rest;
    unfold dict_get_default;
    repeat split; try assumption; try reflexivity;
    match goal with
    | E : dict_get String.eqb _ "country" = _ |- _ => now rewrite E
    end.
Qed.

Lemma get_coordinates_first (e : list (string * json)) (rest : list json)
    (lat_ lon_ name_ : json) :
  dict_get String.eqb e "lat" = Some lat_ -> lat_ <> JNull ->
  dict_get String.eqb e "lon" = Some lon_ ->
  dict_get String.eqb e "name" = Some name_ ->
  Fetch.get_coordinates (inr (JList (JDict e :: rest)))
  = inr (lat_, lon_, name_,
         dict_get_default String.eqb e "country" (JStr "")).
Proof.
  intros Hlat Hn Hlon Hname. unfold Fetch.get_coordinates. cbn.
  unfold dict_get_default. rewrite Hlat. cbn.
  destruct lat_; try contradiction; cbn; rewrite ?Hlat, ?Hlon, ?Hname;
    cbn; reflexivity.
Qed.

(** X17.  [get_coordinates] of [src/update.py] and [src/new.py] never lets a
    request failure, an [IndexError] or a [KeyError] escape: a failed
    request, an empty list, an error object, or a first entry without
    latitude, longitude or name all give the four [None].  When it returns
    a latitude that is not [None], the four values are those of the first
    entry of the list, the country defaulting to the empty text. *)
Theorem get_coordinates_contract (fetched : res json) :
  Fetch.get_coordinates fetched <> inl RequestException /\
  Fetch.get_coordinates fetched <> inl IndexError /\
  Fetch.get_coordinates fetched <> inl KeyError /\
  (fetched = inl RequestException \/ fetched = inr (JList [])
   \/ (exists d, fetched = inr (JDict d)) ->
   Fetch.get_coordinates fetched = inr none4) /\
  (forall lat_ lon_ name_ country_,
     Fetch.get_coordinates fetched = inr (lat_, lon_, name_, country_) ->
     lat_ = JNull \/
     exists e rest,
       fetched = inr (JList (JDict e :: rest)) /\
       dict_get String.eqb e "lat" = Some lat_ /\
       dict_get String.eqb e "lon" = Some lon_ /\
       dict_get String.eqb e "name" = Some name_ /\
       country_ = dict_get_default String.eqb e "country" (JStr "")) /\
  (forall e rest lat_ lon_ name_,
     fetched = inr (JList (JDict e :: rest)) ->
     dict_get String.eqb e "lat" = Some lat_ -> lat_ <> JNull ->
     dict_get String.eqb e "lon" = Some lon_ ->
     dict_get String.eqb e "name" = Some name_ ->
     Fetch.get_coordinates fetched
     = inr (lat_, lon_, name_,
            dict_get_default String.eqb e "country" (JStr ""))).
Proof.
  split; [apply get_coordinates_no_escape; auto|].
  split; [apply get_coordinates_no_escape; auto|].
  split; [apply get_coordinates_no_escape; auto|].
  split; [|split].
  - unfold Fetch.get_coordinates. intros [->|[->|[d ->]]]; try reflexivity.
    cbn. now destruct d.
  - apply get_coordinates_shape.
  - intros e rest lat_ lon_ name_ ->. apply get_coordinates_first.
Qed.

Lemma get_coordinates_contract_witness :
  (Fetch.get_coordinates (inr (JDict Payloads.invalid_key)) = inr none4) /\
  (dict_get String.eqb Payloads.anantapur "lat" = Some (JNum (1468 # 100)) /\
   JNum (1468 # 100) <> JNull /\
   Fetch.get_coordinates (inr (JList [JDict Payloads.anantapur]))
   = inr (JNum (1468 # 100), JNum (7760 # 100), JStr "Anantapur", JStr "IN")).
Proof.
  split.
  - destruct (get_coordinates_contract (inr (JDict Payloads.invalid_key)))
      as (_ & _ & _ & Hnone & _).
    apply Hnone. right; right. now exists Payloads.invalid_key.
  - split; [reflexivity|]. split; [discriminate|].
    destruct (get_coordinates_contract
                (inr (JList [JDict Payloads.anantapur])))
      as (_ & _ & _ & _ & _ & Hfound).
    apply (Hfound Payloads.anantapur [] (JNum (1468 # 100))
             (JNum (7760 # 100)) (JStr "Anantapur"));
      try reflexivity; discriminate.
Defined.

Lemma get_coordinates_app_found (fetched : res json)
    (lat_ lon_ name_ country_ : json) :
  Fetch.get_coordinates_app fetched = inr (lat_, lon_, name_, country_) ->
  lat_ <> JNull ->
  exists e rest,
    fetched = inr (JList (JDict e :: rest)) /\
    dict_get String.eqb e "lat" = Some lat_ /\
    dict_get String.eqb e "lon" = Some lon_ /\
    dict_get String.eqb e "name" = Some name_ /\
    country_ = dict_get_default String.eqb e "country" (JStr "").
Proof.
  unfold Fetch.get_coordinates_app. intros H N.
  destruct fetched as [[]|r]; cbn in H;
    try discriminate; try (inversion H; subst; now contradiction N).
  destruct r as [| | | |[|[| | | | |e] rest]|d];
    cbn -[dict_get] in H; unfold dict_get_default in H;
    split_matches; try (inversion H; subst; now contradiction N).
  all: match goal with
       | E : inr (Some _) = inr (Some _) |- _ => inversion E; subst
       end; inversion H; subst; exists e, rest;
    unfold dict_get_default;
    repeat split; try assumption; try reflexivity;
    match goal with
    | E : dict_get String.eqb _ "country" = _ |- _ => now rewrite E
    end.
Qed.

Lemma get_coordinates_app_first (e : list (string * json)) (rest : list json)
    (lat_ lon_ name_ : json) :
  dict_get String.eqb e "lat" = Some lat_ ->
  dict_get String.eqb e "lon" = Some lon_ ->
  dict_get String.eqb e "name" = Some name_ ->
  Fetch.get_coordinates_app (inr (JList (JDict e :: rest)))
  = inr (lat_, lon_, name_,
         dict_get_default String.eqb e "country" (JStr "")).
Proof.
  intros Hlat Hlon Hname. unfold Fetch.get_coordinates_app. cbn.
  now rewrite Hlat, Hlon, Hname.
Qed.

(** X18.  [get_coordinates] of [src/App.py] lets a [KeyError] escape where
    the other two scripts answer the four [None]: on an error object, and
    on a first entry without latitude.  Whenever a latitude that is not
    [None] is returned, the three scripts return the same four values. *)
Theorem get_coordinates_app_escapes :
  (forall d, d <> [] ->
     Fetch.get_coordinates_app (inr (JDict d)) = inl KeyError /\
     Fetch.get_coordinates (inr (JDict d)) = inr none4) /\
  (forall e rest,
     dict_get String.eqb e "lat" = None ->
     Fetch.get_coordinates_app (inr (JList (JDict e :: rest))) = inl KeyError
     /\ Fetch.get_coordinates (inr (JList (JDict e :: rest))) = inr none4) /\
  (forall fetched lat_ lon_ name_ country_,
     lat_ <> JNull ->
     (Fetch.get_coordinates_app fetched = inr (lat_, lon_, name_, country_)
      <-> Fetch.get_coordinates fetched = inr (lat_, lon_, name_, country_))).
Proof.
  split; [|split].
  - intros [|x d] H; [contradiction|]. split; reflexivity.
  - intros e rest H. unfold Fetch.get_coordinates_app, Fetch.get_coordinates.
    cbn. unfold dict_get_default. rewrite H. cbn. split; reflexivity.
  - intros fetched lat_ lon_ name_ country_ N.
    split; intros H.
    + destruct (get_coordinates_app_found _ _ _ _ _ H N)
        as (e & rest & E & Hlat & Hlon & Hname & ->).
      subst fetched. now apply get_coordinates_first.
    + destruct (get_coordinates_shape _ _ _ _ _ H) as [E|(e & rest & -> & Hlat & Hlon & Hname & ->)];
        [contradiction|].
      now apply get_coordinates_app_first.
Qed.

Lemma get_coordinates_app_escapes_witness :
  (Payloads.invalid_key <> [] /\
   Fetch.get_coordinates_app (inr (JDict Payloads.invalid_key))
   = inl KeyError) /\
  (dict_get String.eqb Payloads.invalid_key "lat" = None /\
   Fetch.get_coordinates_app (inr (JList [JDict Payloads.invalid_key]))
   = inl KeyError) /\
  (JNum (1468 # 100) <> JNull /\
   Fetch.get_coordinates_app (inr (JList [JDict Payloads.anantapur]))
   = inr (JNum (1468 # 100), JNum (7760 # 100), JStr "Anantapur", JStr "IN")
   /\
   Fetch.get_coordinates (inr (JList [JDict Payloads.anantapur]))
   = inr (JNum (1468 # 100), JNum (7760 # 100), JStr "Anantapur", JStr "IN")).
Proof.
  destruct get_coordinates_app_escapes as (Hobj & Hlat & Hsame).
  split; [|split].
  - split; [discriminate|].
    apply (Hobj Payloads.invalid_key). discriminate.
  - split; [reflexivity|].
    apply (Hlat Payloads.invalid_key []). reflexivity.
  - split; [discriminate|]. split; [reflexivity|].
    apply (Hsame (inr (JList [JDict Payloads.anantapur]))); [discriminate|].
    reflexivity.
Defined.

(** A request that returns or fails at the network layer. *)
Lemma fetch_or_none_returns (fetched : res json) (a : json) :
  Fetch.fetch_or_none fetched = inr a ->
  fetched = inr a \/ (fetched = inl RequestException /\ a = JNull).
Proof.
  destruct fetched as [[]|v]; cbn; intros H; try discriminate;
    inversion H; subst; [right|left]; auto.
Qed.

Lemma get_weather_data_some (cf ff af : res json)
    (data : list (string * json)) :
  Fetch.get_weather_data cf ff af = inr (Some data) ->
  exists c f a q,
    cf = inr (JDict c) /\ ff = inr f /\ f <> JNull /\
    Fetch.fetch_or_none af = inr a /\
    dict_get String.eqb c "cod" = Some (JNum q) /\ q == 200 # 1 /\
    data = [("current", JDict c);
            ("timezone_offset",
             dict_get_default String.eqb c "timezone" (JNum 0));
            ("forecast", f); ("aqi", a)].
Proof.
  intros H. unfold Fetch.get_weather_data in H.
  destruct cf as [[]|c]; try discriminate;
    [destruct (Fetch.fetch_or_none ff) as [?|f]; [discriminate|];
     destruct (Fetch.fetch_or_none af) as [?|a]; discriminate|].
  destruct c as [| | | | |c]; try discriminate.
  cbn -[dict_get dict_set Fetch.fetch_or_none] in H.
  destruct ff as [[]|f]; try discriminate;
    [destruct (Fetch.fetch_or_none af) as [?|a]; discriminate|].
  cbn -[dict_get Fetch.fetch_or_none] in H.
  destruct (Fetch.fetch_or_none af) as [?|a] eqn:Ea; [discriminate|].
  cbn -[dict_get_default] in H.
  destruct f; cbn -[dict_get_default] in H; try discriminate.
  all: unfold dict_get_default at 1 in H;
    destruct (dict_get String.eqb c "cod") as [[| |q0| | |]|] eqn:Ecod;
    cbn -[dict_get_default] in H; try discriminate;
    destruct (Qeq_bool q0 (200 # 1)) eqn:Eq;
    cbn -[dict_get_default] in H; try discriminate;
    apply Qeq_bool_iff in Eq; inversion H; subst;
    eexists c, _, a, q0;
    (split; [reflexivity|]); (split; [reflexivity|]);
    (split; [discriminate|]); (split; [reflexivity|]);
    (split; [assumption|]); (split; [assumption|reflexivity]).
Qed.

(** X19.  [get_weather_data] returns the dictionary exactly when the current
    weather answer is an object whose ["cod"] equals 200 and the forecast
    request returned something other than [None]; the dictionary then holds
    the four keys ["current"], ["timezone_offset"] (the ["timezone"] of the
    current answer, 0 when absent), ["forecast"] and ["aqi"], in this order,
    and a failed air-quality request only leaves [None] under ["aqi"].  A
    failed current request gives [None], and so does a failed forecast
    request after a current answer that is an object.  When the requests
    fail only at the network layer, the one exception that escapes is the
    [AttributeError] of [.get] on a current answer that is not an object. *)
Theorem get_weather_data_contract :
  (forall cf ff af data,
     Fetch.get_weather_data cf ff af = inr (Some data) ->
     exists c f a q,
       cf = inr (JDict c) /\ ff = inr f /\ f <> JNull /\
       Fetch.fetch_or_none af = inr a /\
       dict_get String.eqb c "cod" = Some (JNum q) /\ q == 200 # 1 /\
       data = [("current", JDict c);
               ("timezone_offset",
                dict_get_default String.eqb c "timezone" (JNum 0));
               ("forecast", f); ("aqi", a)]) /\
  (forall c f a q af,
     f <> JNull ->
     Fetch.fetch_or_none af = inr a ->
     dict_get String.eqb c "cod" = Some (JNum q) -> q == 200 # 1 ->
     Fetch.get_weather_data (inr (JDict c)) (inr f) af
     = inr (Some [("current", JDict c);
                  ("timezone_offset",
                   dict_get_default String.eqb c "timezone" (JNum 0));
                  ("forecast", f); ("aqi", a)])) /\
  (forall cf ff af c f a,
     Fetch.fetch_or_none cf = inr c ->
     Fetch.fetch_or_none ff = inr f ->
     Fetch.fetch_or_none af = inr a ->
     (cf = inl RequestException ->
      Fetch.get_weather_data cf ff af = inr None) /\
     (forall d, cf = inr (JDict d) -> f = JNull ->
      Fetch.get_weather_data cf ff af = inr None) /\
     (cf = inr c -> (forall d, c <> JDict d) ->
      Fetch.get_weather_data cf ff af = inl AttributeError) /\
     (forall e, Fetch.get_weather_data cf ff af = inl e ->
      e = AttributeError /\ cf = inr c /\ forall d, c <> JDict d)).
Proof.
  split; [|split].
  - apply get_weather_data_some.
  - intros c f a q af N Ea Ecod Eq. unfold Fetch.get_weather_data.
    cbn -[dict_get Fetch.fetch_or_none]. rewrite Ea.
    cbn -[dict_get_default].
    apply Qeq_bool_iff in Eq.
    destruct f; try (now contradiction N);
      cbn -[dict_get_default]; unfold dict_get_default at 1;
      rewrite Ecod; cbn -[dict_get_default]; rewrite Eq; reflexivity.
  - intros cf ff af c f a Ec Ef Ea.
    assert (Hnone : cf = inl RequestException ->
                    Fetch.get_weather_data cf ff af = inr None).
    { intros ->. unfold Fetch.get_weather_data. rewrite Ef, Ea. reflexivity. }
    assert (Hnull : forall d, cf = inr (JDict d) -> f = JNull ->
                    Fetch.get_weather_data cf ff af = inr None).
    { intros d -> ->. unfold Fetch.get_weather_data.
      cbn -[dict_get Fetch.fetch_or_none]. rewrite Ef.
      cbn -[dict_get Fetch.fetch_or_none]. rewrite Ea. reflexivity. }
    assert (Hattr : cf = inr c -> (forall d, c <> JDict d) ->
                    Fetch.get_weather_data cf ff af = inl AttributeError).
    { intros -> N. unfold Fetch.get_weather_data.
      destruct c as [| | | | |d]; try reflexivity. now contradiction (N d). }
    split; [exact Hnone|]. split; [exact Hnull|]. split; [exact Hattr|].
    intros e H.
    destruct (fetch_or_none_returns _ _ Ec) as [->|[-> ->]];
      [|rewrite Hnone in H by reflexivity; discriminate].
    destruct c as [| | | | |d];
      try (rewrite Hattr in H by (reflexivity || discriminate);
           inversion H; subst;
           split; [reflexivity|]; split; [reflexivity|]; discriminate).
    exfalso. unfold Fetch.get_weather_data in H.
    cbn -[dict_get Fetch.fetch_or_none] in H. rewrite Ef in H.
    cbn -[dict_get Fetch.fetch_or_none] in H. rewrite Ea in H.
    cbn -[dict_get_default] in H.
    destruct f; cbn -[dict_get_default] in H; try discriminate.
    all: destruct (differs_from_200 _) in H; discriminate.
Qed.

Lemma get_weather_data_contract_witness :
  Fetch.get_weather_data (inr (JDict Payloads.current_ok))
    (inr Payloads.forecast_ok) (inl RequestException)
  = inr (Some [("current", JDict Payloads.current_ok);
               ("timezone_offset", JNum (19800 # 1));
               ("forecast", Payloads.forecast_ok); ("aqi", JNull)]) /\
  Fetch.get_weather_data (inl RequestException)
    (inr Payloads.forecast_ok) (inr JNull) = inr None /\
  Fetch.get_weather_data (inr (JList []))
    (inr Payloads.forecast_ok) (inr JNull) = inl AttributeError.
Proof.
  destruct get_weather_data_contract as (_ & Hsome & Hrest).
  split; [|split].
  - apply (Hsome Payloads.current_ok Payloads.forecast_ok JNull (200 # 1)
             (inl RequestException));
      [discriminate | reflexivity | reflexivity | reflexivity].
  - destruct (Hrest (inl RequestException) (inr Payloads.forecast_ok)
                (inr JNull) JNull Payloads.forecast_ok JNull)
      as (Hnone & _); [reflexivity | reflexivity | reflexivity |].
    apply Hnone. reflexivity.
  - destruct (Hrest (inr (JList [])) (inr Payloads.forecast_ok)
                (inr JNull) (JList []) Payloads.forecast_ok JNull)
      as (_ & _ & Hattr & _); [reflexivity | reflexivity | reflexivity |].
    apply Hattr; [reflexivity | discriminate].
Defined.

Lemma key_matches_index (k' k : option Z) :
  Panel.key_matches k' (Panel.json_of_index k) = opt_Z_eqb k' k.
Proof.
  destruct k' as [z'|], k as [z|]; cbn; try reflexivity.
  destruct (Z.eqb_spec z' z) as [->|N].
  - apply Qeq_bool_iff. reflexivity.
  - apply not_true_is_false. intros H. apply Qeq_bool_iff in H.
    apply N. symmetry. unfold Qeq in H. cbn in H. lia.
Qed.

(** On an integer index, or on [None], the lookup in a table is the one of
    [dict.get]. *)
Lemma table_get_index (table : list (option Z * string)) (k : option Z)
    (default : string) :
  Panel.table_get table (Panel.json_of_index k) default
  = inr (dict_get_default opt_Z_eqb table k default).
Proof.
  unfold Panel.table_get, dict_get_default.
  replace (Panel.hashable (Panel.json_of_index k)) with true
    by now destruct k.
  f_equal.
  induction table as [|[k' x] table IH]; cbn [find dict_get fst snd];
    [reflexivity|].
  rewrite key_matches_index.
  now destruct (opt_Z_eqb k' k).
Qed.

Lemma get_aqi_category_hashable (aqi_map aqi_color_map : list (option Z * string))
    (default_color : string) (v : json) :
  (Panel.hashable v = false ->
   Panel.get_aqi_category aqi_map aqi_color_map default_color v
   = inl TypeError) /\
  (Panel.hashable v = true ->
   exists shown,
     Panel.get_aqi_category aqi_map aqi_color_map default_color v
     = inr shown).
Proof.
  unfold Panel.get_aqi_category, Panel.table_get.
  destruct (Panel.hashable v); split; try discriminate; intros _;
    cbn [rbind]; [eexists; reflexivity | reflexivity].
Qed.

(** The card is drawn exactly for an answer of the expected shape whose
    index [categorize] accepts. *)
Lemma aqi_card_drawn (categorize : json -> res (string * string))
    (a v : json) (shown : string * string) :
  Panel.aqi_card categorize a = inr (Some (v, shown)) <->
  exists d e rest m,
    a = JDict d /\
    dict_get String.eqb d "list" = Some (JList (JDict e :: rest)) /\
    dict_get String.eqb e "main" = Some (JDict m) /\
    dict_get String.eqb m "aqi" = Some v /\
    categorize v = inr shown.
Proof.
  split.
  - unfold Panel.aqi_card. intros H.
    destruct a as [|b|q|s|l|d];
      try (destruct (truthy _) in H; discriminate).
    destruct (truthy (JDict d)); [|discriminate].
    cbn [get rbind item] in H. unfold dict_get_default in H.
    destruct (dict_get String.eqb d "list") as [l|] eqn:El;
      [|discriminate].
    destruct (truthy l); [|discriminate].
    cbn [rbind] in H.
    destruct l as [|b|q|s|[|[|b|q|s|l|e] rest]|d']; try discriminate;
      try (destruct s; discriminate).
    cbn [item0 rbind item] in H.
    destruct (dict_get String.eqb e "main") as [[|b|q|s|l|m]|] eqn:Em;
      try discriminate.
    cbn [rbind item] in H.
    destruct (dict_get String.eqb m "aqi") as [v'|] eqn:Ev;
      [|discriminate].
    cbn [rbind] in H.
    destruct (categorize v') as [x|shown'] eqn:Ec; [discriminate|].
    cbn [rbind] in H. inversion H; subst.
    exists d, e, rest, m. auto.
  - intros (d & e & rest & m & -> & El & Em & Ev & Ec).
    unfold Panel.aqi_card.
    assert (T : truthy (JDict d) = true).
    { destruct d; [discriminate El|reflexivity]. }
    rewrite T. cbn [get rbind item]. unfold dict_get_default.
    rewrite El. cbn [truthy rbind item0 item]. rewrite Em.
    cbn [rbind item]. rewrite Ev. cbn [rbind]. rewrite Ec. reflexivity.
Qed.

(** An index that [categorize] refuses makes the card raise the same
    exception. *)
Lemma aqi_card_refused (categorize : json -> res (string * string))
    (d e : list (string * json)) (rest : list json)
    (m : list (string * json)) (v : json) (x : exn) :
  dict_get String.eqb d "list" = Some (JList (JDict e :: rest)) ->
  dict_get String.eqb e "main" = Some (JDict m) ->
  dict_get String.eqb m "aqi" = Some v ->
  categorize v = inl x ->
  Panel.aqi_card categorize (JDict d) = inl x.
Proof.
  intros El Em Ev Ec. unfold Panel.aqi_card.
  assert (T : truthy (JDict d) = true).
  { destruct d; [discriminate El|reflexivity]. }
  rewrite T. cbn [get rbind item]. unfold dict_get_default.
  rewrite El. cbn [truthy rbind item0 item]. rewrite Em.
  cbn [rbind item]. rewrite Ev. cbn [rbind]. rewrite Ec. reflexivity.
Qed.

Lemma aqi_card_notice (categorize : json -> res (string * string))
    (a : json) :
  Panel.aqi_card categorize a = inr None <->
  truthy a = false \/
  exists d, a = JDict d /\
    truthy (dict_get_default String.eqb d "list" JNull) = false.
Proof.
  split.
  - unfold Panel.aqi_card. intros H.
    destruct (truthy a) eqn:T; [|now left]. right.
    destruct a as [|b|q|s|l|d]; try discriminate.
    exists d. split; [reflexivity|].
    cbn [get rbind item] in H.
    destruct (truthy (dict_get_default String.eqb d "list" JNull));
      [|reflexivity].
    exfalso. unfold dict_get_default in H.
    destruct (dict_get String.eqb d "list") as [l|]; [|discriminate].
    cbn [rbind] in H.
    destruct l as [|b|q|s|[|[|b|q|s|l|e] rest]|d']; try discriminate;
      try (destruct s; discriminate).
    cbn [item0 rbind item] in H.
    destruct (dict_get String.eqb e "main") as [[|b|q|s|l|m]|];
      try discriminate.
    cbn [rbind item] in H.
    destruct (dict_get String.eqb m "aqi") as [v|]; [|discriminate].
    cbn [rbind] in H.
    destruct (categorize v); discriminate.
  - unfold Panel.aqi_card. intros [T|(d & -> & T)].
    + now rewrite T.
    + destruct (truthy (JDict d)); [|reflexivity].
      cbn [get rbind]. now rewrite T.
Qed.

(** X20.  The air-quality card never stops the page because the air-quality
    request failed: in every dictionary that [get_weather_data] returns
    after a failed air-quality request the card is replaced by the notice,
    and after an answered one the card depends on that answer alone.  The
    card is drawn exactly for an answer whose ["list"] starts with an object
    holding ["main"]["aqi"] with an index that can be looked up, and shows
    that index with the label and colour [get_aqi_category] gives it, which
    for an integer or [None] are those of the tables.  An index that is a
    list or an object makes the lookup, and with it the card, raise
    [TypeError]. *)
Theorem aqi_card_contract (aqi_map aqi_color_map : list (option Z * string))
    (default_color : string) :
  (forall cf ff data,
     Fetch.get_weather_data cf ff (inl RequestException) = inr (Some data) ->
     Panel.aqi_panel
       (Panel.get_aqi_category aqi_map aqi_color_map default_color) data
     = inr None) /\
  (forall cf ff a data,
     Fetch.get_weather_data cf ff (inr a) = inr (Some data) ->
     Panel.aqi_panel
       (Panel.get_aqi_category aqi_map aqi_color_map default_color) data
     = Panel.aqi_card
         (Panel.get_aqi_category aqi_map aqi_color_map default_color) a) /\
  (forall a v shown,
     Panel.aqi_card
       (Panel.get_aqi_category aqi_map aqi_color_map default_color) a
     = inr (Some (v, shown)) <->
     Panel.hashable v = true /\
     Panel.get_aqi_category aqi_map aqi_color_map default_color v
     = inr shown /\
     exists d e rest m,
       a = JDict d /\
       dict_get String.eqb d "list" = Some (JList (JDict e :: rest)) /\
       dict_get String.eqb e "main" = Some (JDict m) /\
       dict_get String.eqb m "aqi" = Some v) /\
  (forall d e rest m v,
     dict_get String.eqb d "list" = Some (JList (JDict e :: rest)) ->
     dict_get String.eqb e "main" = Some (JDict m) ->
     dict_get String.eqb m "aqi" = Some v ->
     (Panel.hashable v = false ->
      Panel.aqi_card
        (Panel.get_aqi_category aqi_map aqi_color_map default_color)
        (JDict d) = inl TypeError) /\
     (Panel.hashable v = true ->
      exists shown,
        Panel.aqi_card
          (Panel.get_aqi_category aqi_map aqi_color_map default_color)
          (JDict d) = inr (Some (v, shown)))) /\
  (forall a,
     Panel.aqi_card
       (Panel.get_aqi_category aqi_map aqi_color_map default_color) a
     = inr None <->
     truthy a = false \/
     exists d, a = JDict d /\
       truthy (dict_get_default String.eqb d "list" JNull) = false) /\
  (forall k,
     Panel.categorize_update (Panel.json_of_index k)
     = inr (Update.get_aqi_category k) /\
     Panel.categorize_new (Panel.json_of_index k)
     = inr (New.get_aqi_category k) /\
     Panel.categorize_app (Panel.json_of_index k)
     = inr (App.get_aqi_category k)).
Proof.
  set (categorize :=
         Panel.get_aqi_category aqi_map aqi_color_map default_color).
  assert (Hdata : forall cf ff af data,
            Fetch.get_weather_data cf ff af = inr (Some data) ->
            exists a, Fetch.fetch_or_none af = inr a /\
                      Panel.aqi_panel categorize data
                      = Panel.aqi_card categorize a).
  { intros cf ff af data H.
    destruct (get_weather_data_some _ _ _ _ H) as
      (c & f & a & q & _ & _ & _ & Ea & _ & _ & ->).
    exists a. split; [exact Ea|reflexivity]. }
  split; [|split; [|split; [|split; [|split]]]].
  - intros cf ff data H.
    destruct (Hdata _ _ _ _ H) as (a & Ea & ->).
    cbn in Ea. inversion Ea; subst. reflexivity.
  - intros cf ff a data H.
    destruct (Hdata _ _ _ _ H) as (a' & Ea & ->).
    cbn in Ea. inversion Ea; subst. reflexivity.
  - intros a v shown. rewrite aqi_card_drawn. split.
    + intros (d & e & rest & m & Ha & El & Em & Ev & Ec).
      split.
      * destruct (Panel.hashable v) eqn:Hv; [reflexivity|].
        unfold categorize in Ec.
        rewrite (proj1 (get_aqi_category_hashable aqi_map aqi_color_map
                          default_color v) Hv) in Ec.
        discriminate.
      * split; [exact Ec|]. now exists d, e, rest, m.
    + intros (_ & Ec & d & e & rest & m & Ha & El & Em & Ev).
      now exists d, e, rest, m.
  - intros d e rest m v El Em Ev. split; intros Hv.
    + apply (aqi_card_refused categorize d e rest m v TypeError El Em Ev).
      now apply get_aqi_category_hashable.
    + destruct (proj2 (get_aqi_category_hashable aqi_map aqi_color_map
                         default_color v) Hv) as [shown Ec].
      exists shown. apply aqi_card_drawn. now exists d, e, rest, m.
  - intros a. apply aqi_card_notice.
  - intros k.
    unfold Panel.categorize_update, Panel.categorize_new,
      Panel.categorize_app, Panel.get_aqi_category.
    rewrite !table_get_index. cbn [rbind].
    split; [reflexivity|]. split; reflexivity.
Qed.

Lemma aqi_card_contract_witness :
  Panel.aqi_panel Panel.categorize_update
    [("current", JDict Payloads.current_ok);
     ("timezone_offset", JNum (19800 # 1));
     ("forecast", Payloads.forecast_ok); ("aqi", JNull)] = inr None /\
  Panel.aqi_card Panel.categorize_update Payloads.aqi_ok
  = inr (Some (JNum (2 # 1), ("Fair", "#aaaa00"))) /\
  Panel.aqi_card Panel.categorize_update Payloads.aqi_list_index
  = inl TypeError.
Proof.
  destruct (aqi_card_contract Update.aqi_map Update.aqi_color_map "#333333")
    as (Hfailed & _ & Hcard & Hindex & _).
  split; [|split].
  - apply (Hfailed (inr (JDict Payloads.current_ok))
             (inr Payloads.forecast_ok)).
    reflexivity.
  - apply Hcard. split; [reflexivity|]. split; [reflexivity|].
    exists [("coord", JDict []);
            ("list", JList [JDict [("main", JDict [("aqi", JNum (2 # 1))])]])],
           [("main", JDict [("aqi", JNum (2 # 1))])], [],
           [("aqi", JNum (2 # 1))].
    split; [reflexivity|]. split; [reflexivity|].
    split; reflexivity.
  - apply (proj1 (Hindex
                    [("list",
                      JList [JDict [("main",
                                     JDict [("aqi", JList [JNum (1 # 1)])])]])]
                    [("main", JDict [("aqi", JList [JNum (1 # 1)])])] []
                    [("aqi", JList [JNum (1 # 1)])] (JList [JNum (1 # 1)])
                    eq_refl eq_refl eq_refl)).
    reflexivity.
Defined.
